(** * Slot resolution engine of the SchedulAI repository

    A shallow embedding of the scheduling core:
    - [app/services/google_service.py]: [GoogleService.get_calendar_availability]
      and [GoogleService._calculate_free_slots];
    - [app/services/agent_service.py]: [SchedulingAgent._analyze_optimal_slots],
      [SchedulingAgent._score_time_slot] and [SchedulingAgent.confirm_meeting];
    - [experiment/main_vllm_deepseek.py]: the slot generator, scorer, conflict
      resolver and alternative generator of [DeepSeekSchedulingAgent].

    Python exceptions are modelled by the result type [res]; dictionaries that
    are only looked up are [gmap]s, dictionaries that are iterated keep their
    insertion order as association lists. *)

From Stdlib Require Import ZArith Lia List Bool Ascii String Floats.
From Stdlib Require Import Sorting.Sorted Sorting.Permutation DecimalString.
From stdpp Require Import base option list gmap strings.

Set Warnings "-inexact-float".
Local Open Scope Z_scope.

(** ** Exceptions *)

Inductive exn : Type :=
  | TypeError
  | HttpError
  | IndexError
  | ValueError
  | OverflowError.

Inductive res (A : Type) : Type :=
  | Ok (a : A)
  | Raise (e : exn).

Arguments Ok {A} a.
Arguments Raise {A} e.

Definition rbind {A B : Type} (m : res A) (k : A -> res B) : res B :=
  match m with
  | Ok a => k a
  | Raise e => Raise e
  end.

Notation "'let!' x ':=' m 'in' k" := (rbind m (fun x => k))
  (at level 10, x pattern, m at level 100, k at level 200).

(** ** [datetime] objects

    A [datetime] carries its wall-clock reading [wall] (in seconds since
    0001-01-01T00:00:00, a Monday) and an optional UTC offset [tzinfo] (in
    seconds).  Two naive values compare by
    their wall clocks, two aware values by their UTC instants, and comparing a
    naive with an aware value raises [TypeError], as in Python. *)

Record datetime : Type := mk_datetime {
  wall : Z;
  tzinfo : option Z
}.

Definition is_naive (d : datetime) : bool :=
  match tzinfo d with None => true | Some _ => false end.

(** [d.replace(tzinfo=None)] *)
Definition replace_tz_none (d : datetime) : datetime :=
  {| wall := wall d; tzinfo := None |}.

(** The number that decides comparisons among values of one kind. *)
Definition stamp (d : datetime) : Z :=
  match tzinfo d with
  | None => wall d
  | Some off => wall d - off
  end.

(** [a < b] *)
Definition dt_lt (a b : datetime) : res bool :=
  match tzinfo a, tzinfo b with
  | None, None => Ok (wall a <? wall b)
  | Some oa, Some ob => Ok (wall a - oa <? wall b - ob)
  | _, _ => Raise TypeError
  end.

(** [max(a, b)]: the first argument unless the second is strictly greater. *)
Definition dt_max (a b : datetime) : res datetime :=
  let! less := dt_lt a b in
  Ok (if less then b else a).

(** ** [app/models/meeting.py] *)

Record TimeSlot : Type := mk_TimeSlot {
  start_time : datetime;
  end_time : datetime;
  available : bool;
  timezone : string
}.

(** [TimeSlot(start_time=s, end_time=e, available=a)], [timezone] defaulted. *)
Definition new_TimeSlot (s e : datetime) (a : bool) : TimeSlot :=
  {| start_time := s; end_time := e; available := a; timezone := "UTC" |}.

Record AvailabilityResponse : Type := mk_AvailabilityResponse {
  participant_email : string;
  free_slots : list TimeSlot;
  busy_slots : list TimeSlot
}.

(** ** [GoogleService._calculate_free_slots] *)

Module GoogleService.

(** The loop that rebuilds every busy slot; when [start_date] is naive the
    offsets of the busy slots are dropped. *)
Definition normalize_slot (start_date : datetime) (slot : TimeSlot) : TimeSlot :=
  let st := start_time slot in
  let en := end_time slot in
  if is_naive start_date then
    new_TimeSlot (if is_naive st then st else replace_tz_none st)
                 (if is_naive en then en else replace_tz_none en)
                 false
  else new_TimeSlot st en false.

Definition normalize_busy (start_date : datetime) (busy : list TimeSlot)
  : list TimeSlot :=
  map (normalize_slot start_date) busy.

(** [list.sort(key=lambda x: x.start_time)]: a stable sort; the comparison of
    the keys may raise. *)
Fixpoint insert_by_start (x : TimeSlot) (l : list TimeSlot)
  : res (list TimeSlot) :=
  match l with
  | [] => Ok [x]
  | y :: l' =>
      let! less := dt_lt (start_time y) (start_time x) in
      if less then (let! r := insert_by_start x l' in Ok (y :: r))
      else Ok (x :: y :: l')
  end.

Fixpoint sort_by_start (l : list TimeSlot) : res (list TimeSlot) :=
  match l with
  | [] => Ok []
  | x :: l' => let! s := sort_by_start l' in insert_by_start x s
  end.

(** One iteration of the sweep over the sorted busy slots; the state is
    [(current_time, free_slots)]. *)
Definition sweep_step (st : datetime * list TimeSlot) (busy_slot : TimeSlot)
  : res (datetime * list TimeSlot) :=
  let '(current_time, free) := st in
  let! gap := dt_lt current_time (start_time busy_slot) in
  let free' :=
    if gap then free ++ [new_TimeSlot current_time (start_time busy_slot) true]
    else free in
  let! current_time' := dt_max current_time (end_time busy_slot) in
  Ok (current_time', free').

Fixpoint sweep (st : datetime * list TimeSlot) (busy : list TimeSlot)
  : res (datetime * list TimeSlot) :=
  match busy with
  | [] => Ok st
  | b :: busy' => let! st' := sweep_step st b in sweep st' busy'
  end.

Definition _calculate_free_slots (start_date end_date : datetime)
    (busy : list TimeSlot) : res (list TimeSlot) :=
  let start_date := if is_naive start_date then replace_tz_none start_date
                    else start_date in
  let end_date := if is_naive end_date then replace_tz_none end_date
                  else end_date in
  let normalized_busy_slots := normalize_busy start_date busy in
  let! sorted := sort_by_start normalized_busy_slots in
  let! st := sweep (start_date, []) sorted in
  let '(current_time, free) := st in
  let! tail := dt_lt current_time end_date in
  Ok (if tail then free ++ [new_TimeSlot current_time end_date true]
      else free).

(** *** [GoogleService.get_calendar_availability]

    What the service observes of the Calendar Provider for one address: the
    user is not authenticated, no calendar service could be built for the user,
    the free/busy query raises [HttpError], or the query answers with the
    busy periods (already parsed by [datetime.fromisoformat]). *)
Inductive provider_reply : Type :=
  | NotAuthenticated
  | NoCalendarService
  | FreebusyHttpError
  | BusyTimes (busy_times : list (datetime * datetime)).

(** The loop that converts the busy periods to [TimeSlot] objects. *)
Definition slots_of_busy_times (busy_times : list (datetime * datetime))
  : list TimeSlot :=
  map (fun p : datetime * datetime => new_TimeSlot (fst p) (snd p) false)
      busy_times.

Definition fetch_fails (r : provider_reply) : bool :=
  match r with
  | BusyTimes _ => false
  | _ => true
  end.

Section Availability.

Variable provider : string -> provider_reply.

Definition empty_availability (email : string) : AvailabilityResponse :=
  {| participant_email := email; free_slots := []; busy_slots := [] |}.

(** The body of the loop over [participant_emails]: the response appended
    for one address.  The inner [try] catches [HttpError] only. *)
Definition availability_of (email : string) (start_date end_date : datetime)
  : res AvailabilityResponse :=
  match provider email with
  | NotAuthenticated => Ok (empty_availability email)
  | NoCalendarService => Ok (empty_availability email)
  | FreebusyHttpError => Ok (empty_availability email)
  | BusyTimes busy_times =>
      let busy_slots := slots_of_busy_times busy_times in
      let! free_slots := _calculate_free_slots start_date end_date busy_slots in
      Ok {| participant_email := email;
            free_slots := free_slots;
            busy_slots := busy_slots |}
  end.

Fixpoint availability_loop (emails : list string)
    (start_date end_date : datetime)
    (availability_responses : list AvailabilityResponse)
  : res (list AvailabilityResponse) :=
  match emails with
  | [] => Ok availability_responses
  | email :: emails' =>
      let! r := availability_of email start_date end_date in
      availability_loop emails' start_date end_date
        (availability_responses ++ [r])
  end.

(** The outer [try] turns an [HttpError] into the empty list; any other
    exception leaves the function. *)
Definition get_calendar_availability (participant_emails : list string)
    (start_date end_date : datetime) : res (list AvailabilityResponse) :=
  match availability_loop participant_emails start_date end_date [] with
  | Ok responses => Ok responses
  | Raise HttpError => Ok []
  | Raise e => Raise e
  end.

End Availability.

(** *** Vocabulary of the coverage property *)

(** The half-open interval of a slot contains the instant [t]. *)
Definition covers (t : Z) (s : TimeSlot) : bool :=
  (stamp (start_time s) <=? t) && (t <? stamp (end_time s)).

(** How many slots of [l] contain [t]. *)
Definition coverage (t : Z) (l : list TimeSlot) : nat :=
  length (List.filter (covers t) l).

(** Pairwise non-overlapping: no instant lies in two slots of the list. *)
Definition non_overlapping (l : list TimeSlot) : Prop :=
  forall t : Z, (coverage t l <= 1)%nat.

Definition well_formed (l : list TimeSlot) : Prop :=
  Forall (fun s => stamp (start_time s) <= stamp (end_time s)) l.

(** The inputs on which no comparison raises: a naive window (the busy slots
    are then made naive), or a window and busy slots that are all aware. *)
Definition slot_aware (s : TimeSlot) : bool :=
  negb (is_naive (start_time s)) && negb (is_naive (end_time s)).

Definition tz_consistent (start_date end_date : datetime)
    (busy : list TimeSlot) : bool :=
  if is_naive start_date then is_naive end_date
  else negb (is_naive end_date) && forallb slot_aware busy.

(** The free slots as a function of the cursor and of the sorted busy slots
    still to be swept; used to describe the result of the loop. *)
Fixpoint gaps (cursor end_date : datetime) (busy : list TimeSlot)
  : list TimeSlot :=
  match busy with
  | [] =>
      if stamp cursor <? stamp end_date
      then [new_TimeSlot cursor end_date true] else []
  | b :: busy' =>
      (if stamp cursor <? stamp (start_time b)
       then [new_TimeSlot cursor (start_time b) true] else [])
      ++ gaps (if stamp cursor <? stamp (end_time b) then end_time b
               else cursor) end_date busy'
  end.

Definition starts_le (a b : TimeSlot) : Prop :=
  stamp (start_time a) <= stamp (start_time b).

(** All the datetimes of the slots are of the kind [k] (naive or aware). *)
Definition uniform (k : bool) (l : list TimeSlot) : Prop :=
  Forall (fun s => is_naive (start_time s) = k /\ is_naive (end_time s) = k) l.



End GoogleService.

(** ** Python string operations used by the experiment agent

    Strings are byte strings; the comparison [<] of Python is the
    lexicographic [String.ltb]. *)

Module PyStr.

Local Open Scope string_scope.

(** [needle in hay] *)
Fixpoint str_in (needle hay : string) : bool :=
  String.prefix needle hay ||
  match hay with
  | EmptyString => false
  | String _ hay' => str_in needle hay'
  end.

(** [s.lower()] on ASCII letters. *)
Definition lower_ascii (c : ascii) : ascii :=
  let n := nat_of_ascii c in
  if ((65 <=? n) && (n <=? 90))%nat then ascii_of_nat (n + 32) else c.

Fixpoint lower (s : string) : string :=
  match s with
  | EmptyString => EmptyString
  | String c s' => String (lower_ascii c) (lower s')
  end.

(** [s.split(sep)] for a one-character separator. *)
Fixpoint split_on (sep : ascii) (s : string) : list string :=
  match s with
  | EmptyString => [EmptyString]
  | String c s' =>
      if Ascii.eqb c sep then EmptyString :: split_on sep s'
      else match split_on sep s' with
           | [] => [String c EmptyString]
           | h :: r => String c h :: r
           end
  end.

(** [l[i]] for a non-negative index. *)
Definition item {A : Type} (l : list A) (i : nat) : res A :=
  match nth_error l i with
  | Some a => Ok a
  | None => Raise IndexError
  end.

(** [s.replace(pat, "")]: the occurrences of [pat] are removed from left to
    right; [skip] counts the characters of a match still to be dropped. *)
Fixpoint remove_aux (pat : string) (skip : nat) (s : string) : string :=
  match s with
  | EmptyString => EmptyString
  | String c s' =>
      match skip with
      | S k => remove_aux pat k s'
      | O =>
          if String.prefix pat s then remove_aux pat (String.length pat - 1) s'
          else String c (remove_aux pat 0 s')
      end
  end.

Definition remove_all (pat s : string) : string := remove_aux pat 0 s.

Definition is_digit (c : ascii) : bool :=
  let n := nat_of_ascii c in ((48 <=? n) && (n <=? 57))%nat.

Definition digit_value (c : ascii) : Z := Z.of_nat (nat_of_ascii c) - 48.

Fixpoint digits_value (acc : Z) (s : string) : res Z :=
  match s with
  | EmptyString => Ok acc
  | String c s' =>
      if is_digit c then digits_value (10 * acc + digit_value c) s'
      else Raise ValueError
  end.

(** [int(s)] for a string of decimal digits; anything else is a
    [ValueError]. *)
Definition int_of_string (s : string) : res Z :=
  match s with
  | EmptyString => Raise ValueError
  | _ => digits_value 0 s
  end.

(** [str(n)] *)
Definition str_of_Z (n : Z) : string := NilZero.string_of_int (Z.to_int n).

(** [f"{n:02d}"] *)
Definition fmt02 (n : Z) : string :=
  let s := str_of_Z n in
  if (String.length s <? 2)%nat then "0" ++ s else s.

(** [sep.join(parts)] *)
Fixpoint join (sep : string) (parts : list string) : string :=
  match parts with
  | [] => ""
  | [p] => p
  | p :: parts' => p ++ sep ++ join sep parts'
  end.

End PyStr.

(** ** Naive [datetime] values of the experiment agent

    A naive datetime with a resolution of one second is the number of seconds
    since 0001-01-01T00:00:00 in the proleptic Gregorian calendar; the
    conversions to and from the calendar fields follow [_ymd2ord] and
    [_ord2ymd] of the [datetime] module. *)

Module PyDatetime.

Definition is_leap (y : Z) : bool :=
  (y mod 4 =? 0) && (negb (y mod 100 =? 0) || (y mod 400 =? 0)).

Definition days_before_year (y : Z) : Z :=
  let y1 := y - 1 in y1 * 365 + y1 / 4 - y1 / 100 + y1 / 400.

Definition days_in_month (y m : Z) : Z :=
  if m =? 2 then (if is_leap y then 29 else 28)
  else if (m =? 4) || (m =? 6) || (m =? 9) || (m =? 11) then 30
  else 31.

(** [_DAYS_BEFORE_MONTH[m]], for a common year. *)
Definition days_before_month_common (m : Z) : Z :=
  match m with
  | 1 => 0 | 2 => 31 | 3 => 59 | 4 => 90 | 5 => 120 | 6 => 151
  | 7 => 181 | 8 => 212 | 9 => 243 | 10 => 273 | 11 => 304 | _ => 334
  end.

Definition days_before_month (y m : Z) : Z :=
  days_before_month_common m + (if (2 <? m) && is_leap y then 1 else 0).

Definition ymd2ord (y m d : Z) : Z :=
  days_before_year y + days_before_month y m + d.

Definition ord2ymd (ordinal : Z) : Z * Z * Z :=
  let n := ordinal - 1 in
  let n400 := n / 146097 in
  let n := n mod 146097 in
  let n100 := n / 36524 in
  let n := n mod 36524 in
  let n4 := n / 1461 in
  let n := n mod 1461 in
  let n1 := n / 365 in
  let n := n mod 365 in
  let year := n400 * 400 + 1 + n100 * 100 + n4 * 4 + n1 in
  if (n1 =? 4) || (n100 =? 4) then (year - 1, 12, 31)
  else
    let leapyear := (n1 =? 3) && (negb (n4 =? 24) || (n100 =? 3)) in
    let month := Z.shiftr (n + 50) 5 in
    let preceding :=
      days_before_month_common month
      + (if (2 <? month) && leapyear then 1 else 0) in
    if n <? preceding then
      let month := month - 1 in
      let preceding :=
        preceding - ((if month =? 2 then 28
                      else if (month =? 4) || (month =? 6) || (month =? 9)
                              || (month =? 11) then 30 else 31)
                     + (if (month =? 2) && leapyear then 1 else 0)) in
      (year, month, n - preceding + 1)
    else (year, month, n - preceding + 1).

Definition MINYEAR : Z := 1.
Definition MAXYEAR : Z := 9999.

(** One past the last representable second, 9999-12-31T23:59:59. *)
Definition MAX_SECONDS : Z := days_before_year (MAXYEAR + 1) * 86400.

(** [datetime(y, m, d, hh, mm, ss)] *)
Definition make (y m d hh mm ss : Z) : res Z :=
  if (MINYEAR <=? y) && (y <=? MAXYEAR) && (1 <=? m) && (m <=? 12)
     && (1 <=? d) && (d <=? days_in_month y m)
     && (0 <=? hh) && (hh <=? 23) && (0 <=? mm) && (mm <=? 59)
     && (0 <=? ss) && (ss <=? 59)
  then Ok ((ymd2ord y m d - 1) * 86400 + hh * 3600 + mm * 60 + ss)
  else Raise ValueError.

Definition hour (t : Z) : Z := (t / 3600) mod 24.
Definition minute (t : Z) : Z := (t / 60) mod 60.
Definition second (t : Z) : Z := t mod 60.
Definition date (t : Z) : Z * Z * Z := ord2ymd (t / 86400 + 1).

(** [t + timedelta(seconds=n)]; the result must stay within the years 1 to
    9999. *)
Definition add_seconds (t n : Z) : res Z :=
  let t' := t + n in
  if (0 <=? t') && (t' <? MAX_SECONDS) then Ok t' else Raise OverflowError.

Definition add_minutes (t n : Z) : res Z := add_seconds t (60 * n).
Definition add_hours (t n : Z) : res Z := add_seconds t (3600 * n).
Definition add_days (t n : Z) : res Z := add_seconds t (86400 * n).

Import PyStr.
Local Open Scope string_scope.

Definition two_digits (a b : ascii) : res Z :=
  if is_digit a && is_digit b then Ok (10 * digit_value a + digit_value b)
  else Raise ValueError.

Definition four_digits (a b c d : ascii) : res Z :=
  if is_digit a && is_digit b && is_digit c && is_digit d
  then Ok (1000 * digit_value a + 100 * digit_value b
           + 10 * digit_value c + digit_value d)
  else Raise ValueError.

(** [datetime.fromisoformat(s)] on the layout [YYYY-MM-DD?HH:MM:SS] that
    [isoformat()] writes for a naive value; every other string is a
    [ValueError]. *)
Definition fromisoformat (s : string) : res Z :=
  match s with
  | String y1 (String y2 (String y3 (String y4 (String "-"
    (String m1 (String m2 (String "-" (String d1 (String d2
    (String _ (String h1 (String h2 (String ":"
    (String n1 (String n2 (String ":"
    (String s1 (String s2 EmptyString)))))))))))))))))) =>
      let! y := four_digits y1 y2 y3 y4 in
      let! m := two_digits m1 m2 in
      let! d := two_digits d1 d2 in
      let! hh := two_digits h1 h2 in
      let! mm := two_digits n1 n2 in
      let! ss := two_digits s1 s2 in
      make y m d hh mm ss
  | _ => Raise ValueError
  end.

(** [t.strftime('%Y-%m-%dT%H:%M:%S+05:30')]; [%Y] is not padded. *)
Definition strftime_ist (t : Z) : string :=
  let '(y, m, d) := date t in
  str_of_Z y ++ "-" ++ fmt02 m ++ "-" ++ fmt02 d ++ "T"
  ++ fmt02 (hour t) ++ ":" ++ fmt02 (minute t) ++ ":" ++ fmt02 (second t)
  ++ "+05:30".

End PyDatetime.

(** ** [app/services/agent_service.py]: [SchedulingAgent] *)

Module AgentService.

Local Open Scope string_scope.

(** [min(a, b)]: the first argument unless the second is strictly smaller. *)
Definition dt_min (a b : datetime) : res datetime :=
  let! less := dt_lt b a in
  Ok (if less then b else a).

(** [d + timedelta(minutes=n)] *)
Definition dt_add_minutes (d : datetime) (n : Z) : datetime :=
  {| wall := wall d + 60 * n; tzinfo := tzinfo d |}.

(** [d.hour] and [d.weekday()] (Monday is 0). *)
Definition dt_hour (d : datetime) : Z := (wall d / 3600) mod 24.
Definition dt_weekday (d : datetime) : Z := (wall d / 86400) mod 7.

(** A slot of the availability data: the dictionary with the keys
    ["start_time"], ["end_time"] (ISO strings, held here as the [datetime]
    values that [datetime.fromisoformat] reads from them) and
    ["duration_minutes"]. *)
Record SlotDict : Type := mk_SlotDict {
  slot_start_time : datetime;
  slot_end_time : datetime;
  duration_minutes : Z
}.

Record ParticipantData : Type := mk_ParticipantData {
  data_email : string;
  data_free_slots : list SlotDict
}.

(** The keys of [meeting_requirements] that the analysis reads. *)
Record Requirements : Type := mk_Requirements {
  req_duration_minutes : option Z;
  req_priority : option string
}.

(** *** The intersection loop of [_analyze_optimal_slots] *)

(** The body of the two nested loops: the overlap of one common slot with one
    slot of the participant, kept when it is long enough.  The duration in
    minutes is compared on whole seconds. *)
Definition overlap_of (required_duration : Z)
    (common_slot participant_slot : SlotDict) : res (option SlotDict) :=
  let! overlap_start :=
    dt_max (slot_start_time common_slot) (slot_start_time participant_slot) in
  let! overlap_end :=
    dt_min (slot_end_time common_slot) (slot_end_time participant_slot) in
  let! nonempty := dt_lt overlap_start overlap_end in
  if nonempty then
    if (60 * required_duration <=? stamp overlap_end - stamp overlap_start)%Z
    then Ok (Some {| slot_start_time := overlap_start;
                     slot_end_time :=
                       dt_add_minutes overlap_start required_duration;
                     duration_minutes := required_duration |})
    else Ok None
  else Ok None.

Fixpoint inner_loop (required_duration : Z) (common_slot : SlotDict)
    (participant_slots : list SlotDict) (new_common_slots : list SlotDict)
  : res (list SlotDict) :=
  match participant_slots with
  | [] => Ok new_common_slots
  | participant_slot :: rest =>
      let! o := overlap_of required_duration common_slot participant_slot in
      inner_loop required_duration common_slot rest
        (match o with
         | Some slot => new_common_slots ++ [slot]
         | None => new_common_slots
         end)
  end.

Fixpoint outer_loop (required_duration : Z) (common_slots : list SlotDict)
    (participant_slots : list SlotDict) (new_common_slots : list SlotDict)
  : res (list SlotDict) :=
  match common_slots with
  | [] => Ok new_common_slots
  | common_slot :: rest =>
      let! acc :=
        inner_loop required_duration common_slot participant_slots
          new_common_slots in
      outer_loop required_duration rest participant_slots acc
  end.

(** The loop over [availability_data[1:]]. *)
Fixpoint intersect_with (required_duration : Z)
    (common_slots : list SlotDict) (others : list ParticipantData)
  : res (list SlotDict) :=
  match others with
  | [] => Ok common_slots
  | participant_data :: rest =>
      let! new_common_slots :=
        outer_loop required_duration common_slots
          (data_free_slots participant_data) [] in
      intersect_with required_duration new_common_slots rest
  end.

(** The common slots of a non-empty [availability_data]. *)
Definition common_slots_of (required_duration : Z)
    (availability_data : list ParticipantData) : res (list SlotDict) :=
  match availability_data with
  | [] => Ok []
  | first :: others =>
      intersect_with required_duration (data_free_slots first) others
  end.

(** The slot [s] lies within the slot [f]. *)
Definition within (s f : SlotDict) : Prop :=
  (stamp (slot_start_time f) <= stamp (slot_start_time s))%Z /\
  (stamp (slot_end_time s) <= stamp (slot_end_time f))%Z.

(** The slot [s] lies within a free slot of the participant. *)
Definition free_for (s : SlotDict) (p : ParticipantData) : Prop :=
  exists f, In f (data_free_slots p) /\ within s f.

(** The slot lasts [d] minutes and says so. *)
Definition lasts (d : Z) (s : SlotDict) : Prop :=
  (stamp (slot_end_time s) - stamp (slot_start_time s) = 60 * d)%Z /\
  duration_minutes s = d.

(** What one pass of the two nested loops keeps: a slot within a common slot
    and within a slot of the participant, of the required duration. *)
Definition sound_for (d : Z) (c : list SlotDict) (ps : list SlotDict)
    (s : SlotDict) : Prop :=
  (exists x, In x c /\ within s x) /\ (exists f, In f ps /\ within s f) /\
  lasts d s.

(** *** [_score_time_slot] *)
Local Open Scope float_scope.

Definition _score_time_slot (slot : SlotDict) (requirements : Requirements)
  : float :=
  let score := 0.0 in
  let hour := dt_hour (slot_start_time slot) in
  let score :=
    if ((9 <=? hour) && (hour <=? 11))%Z then score + 0.3
    else if ((13 <=? hour) && (hour <=? 15))%Z then score + 0.2
    else if ((8 <=? hour) && (hour <=? 16))%Z then score + 0.1
    else score in
  let weekday := dt_weekday (slot_start_time slot) in
  let score :=
    if ((weekday =? 1) || (weekday =? 2) || (weekday =? 3))%Z
    then score + 0.2
    else if ((weekday =? 0) || (weekday =? 4))%Z then score + 0.1
    else score in
  let priority :=
    match req_priority requirements with
    | Some p => p
    | None => "medium"%string
    end in
  let score :=
    if String.eqb priority "urgent"
    then score + (if (hour <=? 12)%Z then 0.3 else 0.1)
    else if String.eqb priority "low"
    then score + (if (14 <=? hour)%Z then 0.2 else 0.0)
    else score in
  if ((12 <=? hour) && (hour <=? 13))%Z then score - 0.2 else score.

Local Close Scope float_scope.

(** [scored_slots.sort(key=lambda x: x[1], reverse=True)] *)
Fixpoint insert_scored (x : SlotDict * float) (l : list (SlotDict * float))
  : list (SlotDict * float) :=
  match l with
  | [] => [x]
  | y :: l' =>
      if PrimFloat.ltb (snd x) (snd y) then y :: insert_scored x l'
      else x :: y :: l'
  end.

Fixpoint sort_scored (l : list (SlotDict * float)) : list (SlotDict * float) :=
  match l with
  | [] => []
  | x :: l' => insert_scored x (sort_scored l')
  end.

(** *** [_analyze_optimal_slots] *)
Record Analysis : Type := mk_Analysis {
  analysis_suggested_slots : list SlotDict;
  analysis_reasoning : option string;
  total_analyzed : option nat;
  analysis_error : option exn
}.

Definition _analyze_optimal_slots (availability_data : list ParticipantData)
    (meeting_requirements : Requirements) (max_suggestions : nat)
  : Analysis :=
  match availability_data with
  | [] =>
      {| analysis_suggested_slots := [];
         analysis_reasoning := Some "No availability data provided";
         total_analyzed := None;
         analysis_error := None |}
  | _ =>
      let required_duration :=
        match req_duration_minutes meeting_requirements with
        | Some d => d
        | None => 30%Z
        end in
      match common_slots_of required_duration availability_data with
      | Ok common_slots =>
          let scored_slots :=
            map (fun slot => (slot, _score_time_slot slot meeting_requirements))
                (take (max_suggestions * 2) common_slots) in
          let suggested :=
            map fst (take max_suggestions (sort_scored scored_slots)) in
          {| analysis_suggested_slots := suggested;
             analysis_reasoning :=
               Some ("Found "
                     ++ PyStr.str_of_Z (Z.of_nat (length common_slots))
                     ++ " common free slots. Selected top "
                     ++ PyStr.str_of_Z (Z.of_nat (length suggested))
                     ++ " based on meeting priority, work hours, and participant preferences.");
             total_analyzed := Some (length common_slots);
             analysis_error := None |}
      | Raise e =>
          {| analysis_suggested_slots := [];
             analysis_reasoning := None;
             total_analyzed := None;
             analysis_error := Some e |}
      end
  end.

(** *** [_parse_email_response] *)
Definition _parse_email_response (email_body : string) : string :=
  let body_lower := PyStr.lower email_body in
  if existsb (fun word => PyStr.str_in word body_lower)
       ["yes"; "confirm"; "accept"; "agree"; "sounds good"]
  then "confirmation"
  else if existsb (fun word => PyStr.str_in word body_lower)
            ["no"; "decline"; "reject"; "can't"; "cannot"]
  then "rejection"
  else if existsb (fun word => PyStr.str_in word body_lower)
            ["reschedule"; "different time"; "another time"]
  then "reschedule_request"
  else "unclear".

(** *** [confirm_meeting] *)

Record Participant : Type := mk_Participant {
  name : string;
  email : string
}.

Record MeetingRequest : Type := mk_MeetingRequest {
  title : string;
  description : string;
  organizer : Participant;
  participants : list Participant
}.

Definition get_all_emails (r : MeetingRequest) : list string :=
  map email (organizer r :: participants r).

Record MeetingProposal : Type := mk_MeetingProposal {
  meeting_request : MeetingRequest;
  suggested_slots : list TimeSlot;
  status : string
}.

Record CalendarEvent : Type := mk_CalendarEvent {
  event_title : string;
  event_description : string;
  event_start_time : datetime;
  event_end_time : datetime;
  event_attendees : list string
}.

Record EmailMessage : Type := mk_EmailMessage {
  to : list string;
  subject : string
}.

(** What [google_service.create_calendar_event] does for an event: it returns
    an identifier or [None], or it raises and [_create_calendar_event] reports
    the message. *)
Inductive insert_reply : Type :=
  | Inserted (event_id : option string)
  | InsertRaises (message : string).

(** The state the operation works on: the proposal store of the agent, and
    the events and e-mails handed to the Google service so far. *)
Record World : Type := mk_World {
  proposals : gmap string MeetingProposal;
  calendar_requests : list CalendarEvent;
  mail_requests : list EmailMessage
}.

Inductive Confirmation : Type :=
  | Failure (error : string)
  | Success (event_id : option string) (confirmed_slot : TimeSlot)
            (total_attendees : nat) (organizer_email : string).

(** [l[i]] for a Python integer index. *)
Definition py_index {A : Type} (l : list A) (i : Z) : res A :=
  let n := Z.of_nat (length l) in
  let k := if (i <? 0)%Z then (n + i)%Z else i in
  if ((0 <=? k) && (k <? n))%Z then
    match nth_error l (Z.to_nat k) with
    | Some a => Ok a
    | None => Raise IndexError
    end
  else Raise IndexError.

(** The event that [confirm_meeting] asks for: the request of the proposal at
    the selected slot, for all attendees. *)
Definition event_for (proposal : MeetingProposal) (selected_slot : TimeSlot)
  : CalendarEvent :=
  let request := meeting_request proposal in
  {| event_title := title request;
     event_description := description request;
     event_start_time := start_time selected_slot;
     event_end_time := end_time selected_slot;
     event_attendees := get_all_emails request |}.

Section Confirm.

Variable create_calendar_event : CalendarEvent -> insert_reply.

Definition confirm_meeting (w : World) (proposal_id : string)
    (slot_index : Z) : res (Confirmation * World) :=
  match proposals w !! proposal_id with
  | None => Ok (Failure "Proposal not found", w)
  | Some proposal =>
      if (Z.of_nat (length (suggested_slots proposal)) <=? slot_index)%Z
      then Ok (Failure "Invalid slot index", w)
      else
        let! selected_slot := py_index (suggested_slots proposal) slot_index in
        let request := meeting_request proposal in
        let all_attendees := get_all_emails request in
        let ev := event_for proposal selected_slot in
        let w1 :=
          {| proposals := proposals w;
             calendar_requests := calendar_requests w ++ [ev];
             mail_requests := mail_requests w |} in
        match create_calendar_event ev with
        | Inserted event_id =>
            let mail :=
              {| to := all_attendees;
                 subject := "Meeting Confirmed: " ++ title request |} in
            let proposal' :=
              {| meeting_request := request;
                 suggested_slots := suggested_slots proposal;
                 status := "confirmed" |} in
            Ok (Success event_id selected_slot (length all_attendees)
                        (email (organizer request)),
                {| proposals := <[proposal_id := proposal']> (proposals w1);
                   calendar_requests := calendar_requests w1;
                   mail_requests := mail_requests w1 ++ [mail] |})
        | InsertRaises message => Ok (Failure message, w1)
        end
  end.

End Confirm.

End AgentService.

(** ** [experiment/main_vllm_deepseek.py]: [DeepSeekSchedulingAgent] *)

Module DeepSeek.

Import PyStr.
Local Open Scope string_scope.

(** A calendar event as the agent stores it. *)
Record Event : Type := mk_Event {
  StartTime : string;
  EndTime : string;
  NumAttendees : Z;
  Attendees : list string;
  Summary : string
}.

(** A [dict] that is iterated: an association list in insertion order;
    [d[k] = v] keeps the position of a key already present. *)
Fixpoint dict_set {V : Type} (d : list (string * V)) (k : string) (v : V)
  : list (string * V) :=
  match d with
  | [] => [(k, v)]
  | (k', v') :: d' =>
      if String.eqb k' k then (k', v) :: d' else (k', v') :: dict_set d' k v
  end.

(** [d.get(k)] *)
Fixpoint dict_get {V : Type} (d : list (string * V)) (k : string) : option V :=
  match d with
  | [] => None
  | (k', v) :: d' => if String.eqb k' k then Some v else dict_get d' k
  end.

(** *** [_get_mock_events_for_user] *)
Definition team_meet : Event :=
  {| StartTime := "2025-07-17T10:00:00+05:30";
     EndTime := "2025-07-17T10:30:00+05:30";
     NumAttendees := 3;
     Attendees := ["userone.amd@gmail.com"; "usertwo.amd@gmail.com";
                   "userthree.amd@gmail.com"];
     Summary := "Team Meet" |}.

Definition lunch_with_customers : Event :=
  {| StartTime := "2025-07-17T13:00:00+05:30";
     EndTime := "2025-07-17T14:00:00+05:30";
     NumAttendees := 1;
     Attendees := ["SELF"];
     Summary := "Lunch with Customers" |}.

Definition _get_mock_events_for_user (participant : string) : list Event :=
  if str_in "userone" participant then []
  else if str_in "usertwo" participant then [team_meet]
  else if str_in "userthree" participant then [team_meet; lunch_with_customers]
  else [].

(** *** [_retrieve_calendar_events] and [_get_calendar_data]

    What the agent observes when it reads the calendar of one user: the token
    file is missing, reading the token or calling the API raises, or the API
    answers with the events (already converted to [Event] records). *)
Inductive calendar_api_reply : Type :=
  | TokenFileMissing
  | ApiException
  | ApiEvents (events_list : list Event).

Definition api_fails (r : calendar_api_reply) : bool :=
  match r with
  | ApiEvents _ => false
  | _ => true
  end.

Section CalendarData.

Variable calendar_api : string -> calendar_api_reply.

(** Every exception of the body is caught and answered with the mock
    events. *)
Definition _retrieve_calendar_events (user start_ end_ : string)
  : res (list Event) :=
  match calendar_api user with
  | TokenFileMissing => Ok (_get_mock_events_for_user user)
  | ApiException => Ok (_get_mock_events_for_user user)
  | ApiEvents events_list => Ok events_list
  end.

Fixpoint calendar_data_loop (participants : list string)
    (start_time end_time : string)
    (calendar_data : list (string * list Event))
  : list (string * list Event) :=
  match participants with
  | [] => calendar_data
  | participant :: participants' =>
      let events :=
        match _retrieve_calendar_events participant start_time end_time with
        | Ok events => events
        | Raise _ => _get_mock_events_for_user participant
        end in
      calendar_data_loop participants' start_time end_time
        (dict_set calendar_data participant events)
  end.

Definition _get_calendar_data (participants : list string)
    (start_time end_time : string) : list (string * list Event) :=
  calendar_data_loop participants start_time end_time [].

End CalendarData.

(** The events that [_get_calendar_data] stores for one participant. *)
Definition events_of (calendar_api : string -> calendar_api_reply)
    (who : string) : list Event :=
  match calendar_api who with
  | ApiEvents events_list => events_list
  | _ => _get_mock_events_for_user who
  end.

(** *** [_analyze_participant_priorities] *)
Record Priority : Type := mk_Priority {
  level : string;
  weight : Z;
  p_reasoning : string
}.

(** [any(title in s for title in titles)] *)
Definition any_in (titles : list string) (s : string) : bool :=
  existsb (fun title => str_in title s) titles.

Definition priority_of (participant : string) : Priority :=
  let email_prefix := lower (hd "" (split_on "@" participant)) in
  let note := "Priority based on email pattern analysis" in
  if any_in ["admin"; "ceo"; "director"; "head"] email_prefix then
    {| level := "critical"; weight := 10; p_reasoning := note |}
  else if any_in ["manager"; "lead"; "senior"] email_prefix then
    {| level := "high"; weight := 8; p_reasoning := note |}
  else if any_in ["team"; "dev"; "engineer"] email_prefix then
    {| level := "medium"; weight := 6; p_reasoning := note |}
  else
    {| level := "standard"; weight := 5; p_reasoning := note |}.

Definition _analyze_participant_priorities (participants : list string)
  : gmap string Priority :=
  fold_left (fun priorities participant =>
               <[participant := priority_of participant]> priorities)
            participants ∅.

(** *** [_calculate_slot_score] *)
Record Conflict : Type := mk_Conflict {
  participant : string;
  event : string;
  severity : Z;
  priority_level : string
}.

Record SlotScore : Type := mk_SlotScore {
  total_score : Z;
  conflicts : list Conflict;
  reasoning : list string
}.

(** [d.get(k) == v] *)
Definition get_is (d : gmap string string) (k v : string) : bool :=
  match d !! k with
  | Some x => String.eqb x v
  | None => false
  end.

(** [d.get(k, dflt)] *)
Definition get_or (d : gmap string string) (k dflt : string) : string :=
  match d !! k with
  | Some x => x
  | None => dflt
  end.

(** [slot_start < event_end and slot_end > event_start], on the strings. *)
Definition overlaps (slot_start slot_end : string) (ev : Event) : bool :=
  String.ltb slot_start (EndTime ev) && String.ltb (StartTime ev) slot_end.

(** The inner loop over the events of one participant. *)
Definition score_event (slot_start slot_end who : string)
    (priorities : gmap string Priority) (participant_weight : Z)
    (acc : SlotScore) (ev : Event) : SlotScore :=
  if overlaps slot_start slot_end ev then
    let conflict_severity := participant_weight * 5 in
    {| total_score := total_score acc - conflict_severity;
       conflicts := conflicts acc ++
         [{| participant := who;
             event := Summary ev;
             severity := conflict_severity;
             priority_level :=
               match priorities !! who with
               | Some p => level p
               | None => "standard"
               end |}];
       reasoning := reasoning acc ++
         ["Conflict with " ++ who ++ " (" ++ Summary ev ++ ") - severity: "
          ++ str_of_Z conflict_severity] |}
  else acc.

(** The outer loop over [calendar_data.items()]. *)
Definition score_participant (slot_start slot_end : string)
    (priorities : gmap string Priority)
    (acc : SlotScore) (entry : string * list Event) : SlotScore :=
  let '(who, events) := entry in
  let participant_weight :=
    match priorities !! who with
    | Some p => weight p
    | None => 5
    end in
  fold_left (score_event slot_start slot_end who priorities participant_weight)
            events acc.

(** [int(slot_start.split('T')[1].split(':')[0])] *)
Definition hour_of (slot_start : string) : res Z :=
  let! time_part := item (split_on "T" slot_start) 1 in
  let! hh := item (split_on ":" time_part) 0 in
  int_of_string hh.

Definition add_bonus (cond : bool) (points : Z) (note : string)
    (acc : SlotScore) : SlotScore :=
  if cond then
    {| total_score := total_score acc + points;
       conflicts := conflicts acc;
       reasoning := reasoning acc ++ [note] |}
  else acc.

Definition _calculate_slot_score (slot_start slot_end : string)
    (calendar_data : list (string * list Event))
    (priorities : gmap string Priority)
    (parsed_info : gmap string string) : res SlotScore :=
  let acc := {| total_score := 100; conflicts := []; reasoning := [] |} in
  let acc :=
    fold_left (score_participant slot_start slot_end priorities)
              calendar_data acc in
  let! hour := hour_of slot_start in
  let acc :=
    if get_is parsed_info "optimal_time_preference" "morning"
       && ((9 <=? hour) && (hour <=? 11))%Z
    then add_bonus true 10 "Morning preference bonus applied" acc
    else add_bonus
           (get_is parsed_info "optimal_time_preference" "afternoon"
            && ((14 <=? hour) && (hour <=? 16))%Z)
           10 "Afternoon preference bonus applied" acc in
  let acc :=
    add_bonus (get_is parsed_info "urgency" "high")
              15 "Urgency bonus applied" acc in
  let acc :=
    add_bonus (get_is parsed_info "meeting_complexity" "complex"
               && ((9 <=? hour) && (hour <=? 11))%Z)
              5 "Complex meeting morning bonus" acc in
  Ok {| total_score := Z.max 0 (total_score acc);
        conflicts := conflicts acc;
        reasoning := reasoning acc |}.

(** The weight read for a participant: [priorities.get(who, {}).get("weight",
    5)]. *)
Definition weight_of (priorities : gmap string Priority) (who : string) : Z :=
  match priorities !! who with
  | Some p => weight p
  | None => 5%Z
  end.

(** The sum of the severities of the conflict records. *)
Fixpoint total_severity (cs : list Conflict) : Z :=
  match cs with
  | [] => 0%Z
  | c :: cs' => (severity c + total_severity cs')%Z
  end.

(** The line of the reasoning trail that goes with a conflict record. *)
Definition conflict_line (c : Conflict) : string :=
  "Conflict with " ++ participant c ++ " (" ++ event c ++ ") - severity: "
  ++ str_of_Z (severity c).

(** The record names a participant of the calendar data and carries five
    times the weight of that participant. *)
Definition well_recorded (calendar_data : list (string * list Event))
    (priorities : gmap string Priority) (c : Conflict) : Prop :=
  (exists events, In (participant c, events) calendar_data) /\
  severity c = (weight_of priorities (participant c) * 5)%Z.

(** What the two loops over the calendar keep true of the score so far. *)
Definition accounted (calendar_data : list (string * list Event))
    (priorities : gmap string Priority) (acc : SlotScore) : Prop :=
  total_score acc = (100 - total_severity (conflicts acc))%Z /\
  reasoning acc = map conflict_line (conflicts acc) /\
  Forall (well_recorded calendar_data priorities) (conflicts acc).

(** *** [_calculate_optimal_time_slots] *)
Record OptimalSlot : Type := mk_OptimalSlot {
  start : string;
  end_ : string;
  score : Z;
  slot_conflicts : list Conflict;
  slot_reasoning : list string
}.

(** The candidate hours chosen from the requirement. *)
Definition candidate_times (parsed_info : gmap string string) : list Z :=
  let time_constraints := get_or parsed_info "time_constraints" "" in
  let time_preference :=
    get_or parsed_info "optimal_time_preference" "flexible" in
  if str_in "11:00" time_constraints then [11]
  else if String.eqb time_preference "morning" then [9; 10; 11]
  else if String.eqb time_preference "afternoon" then [14; 15; 16]
  else [9; 10; 11; 14; 15; 16].

(** [f"{date_part}T{hour:02d}:00:00+05:30"] *)
Definition slot_start_of (date_part : string) (hour : Z) : string :=
  date_part ++ "T" ++ fmt02 hour ++ ":00:00+05:30".

(** The end of the slot that starts at [slot_start]. *)
Definition slot_end_of (slot_start : string) (duration : Z) : res string :=
  let! t := PyDatetime.fromisoformat (remove_all "+05:30" slot_start) in
  let! slot_end_dt := PyDatetime.add_minutes t duration in
  Ok (PyDatetime.strftime_ist slot_end_dt).

(** [list.sort(key=lambda x: x["score"], reverse=True)]: stable, highest
    score first. *)
Fixpoint insert_by_score (x : OptimalSlot) (l : list OptimalSlot)
  : list OptimalSlot :=
  match l with
  | [] => [x]
  | y :: l' =>
      if (score x <? score y)%Z then y :: insert_by_score x l'
      else x :: y :: l'
  end.

Fixpoint sort_by_score (l : list OptimalSlot) : list OptimalSlot :=
  match l with
  | [] => []
  | x :: l' => insert_by_score x (sort_by_score l')
  end.

(** [x] is ranked at least as high as [y]. *)
Definition scores_ge (x y : OptimalSlot) : Prop := (score y <= score x)%Z.

(** [x] is ranked before [y]: by a higher score, or at the same score by an
    earlier start. *)
Definition ranked_before_or_tied (x y : OptimalSlot) : Prop :=
  (score y < score x)%Z \/
  (score y = score x /\ String.ltb (start x) (start y) = true).

(** [x] starts before [y], as the strings compare. *)
Definition starts_before (x y : OptimalSlot) : Prop :=
  String.ltb (start x) (start y) = true.

(** The body of the loop over [candidate_times]. *)
Definition evaluate_hour (date_part : string) (duration : Z)
    (parsed_info : gmap string string)
    (calendar_data : list (string * list Event))
    (priorities : gmap string Priority) (hour : Z) : res OptimalSlot :=
  let slot_start := slot_start_of date_part hour in
  let! slot_end := slot_end_of slot_start duration in
  let! sc :=
    _calculate_slot_score slot_start slot_end calendar_data priorities
      parsed_info in
  Ok {| start := slot_start;
        end_ := slot_end;
        score := total_score sc;
        slot_conflicts := conflicts sc;
        slot_reasoning := reasoning sc |}.

Fixpoint evaluate_hours (f : Z -> res OptimalSlot) (hours : list Z)
    (optimal_slots : list OptimalSlot) : res (list OptimalSlot) :=
  match hours with
  | [] => Ok optimal_slots
  | hour :: hours' =>
      let! slot := f hour in
      evaluate_hours f hours' (optimal_slots ++ [slot])
  end.

Definition _calculate_optimal_time_slots (start_time end_time : string)
    (duration : Z) (parsed_info : gmap string string)
    (calendar_data : list (string * list Event))
    (priorities : gmap string Priority) : res (list OptimalSlot) :=
  let date_part := hd "" (split_on "T" start_time) in
  let! optimal_slots :=
    evaluate_hours
      (evaluate_hour date_part duration parsed_info calendar_data priorities)
      (candidate_times parsed_info) [] in
  Ok (sort_by_score optimal_slots).

(** *** [_intelligent_conflict_resolution] *)
Record Resolution : Type := mk_Resolution {
  recommended_slot : option OptimalSlot;
  conflicts_detected : bool;
  res_reasoning : string;
  priority_assessment : string;
  resolution_strategy : string;
  strategy_used : string;
  recommended_actions : list string
}.

(** The strategy and its resolution note for [(urgency, authority)]. *)
Definition select_strategy (urgency authority : string) : string * string :=
  if String.eqb urgency "high" && String.eqb authority "high" then
    ("override_lower_priority",
     "High priority urgent meeting - recommend rescheduling conflicting items")
  else if String.eqb urgency "high" then
    ("find_immediate_alternative",
     "Urgent meeting - finding best immediate alternative slot")
  else if String.eqb authority "high" then
    ("executive_priority",
     "Executive meeting - optimizing around senior participant schedules")
  else
    ("collaborative_optimization",
     "Standard priority - finding optimal slot for all participants").

Definition _intelligent_conflict_resolution (optimal_slots : list OptimalSlot)
    (calendar_data : list (string * list Event))
    (priorities : gmap string Priority)
    (parsed_info : gmap string string) : Resolution :=
  let best_slot := head optimal_slots in
  let conflicts_detected :=
    match best_slot with
    | Some b => (0 <? length (slot_conflicts b))%nat
    | None => false
    end in
  let urgency := get_or parsed_info "urgency" "medium" in
  let authority := get_or parsed_info "attendee_priority" "medium" in
  let '(strategy, resolution) := select_strategy urgency authority in
  let reasoning_parts :=
    match best_slot with
    | Some b =>
        (["Selected " ++ start b ++ " with score "
          ++ str_of_Z (score b)]%string
         ++ match slot_conflicts b with
            | [] => ["No conflicts detected"]
            | cs =>
                ["Detected " ++ str_of_Z (Z.of_nat (length cs))
                 ++ " conflicts"]%string
                ++ map (fun c =>
                          "- " ++ participant c ++ ": " ++ event c)%string cs
            end)%list
    | None => []
    end in
  let priority_assessment :=
    "Meeting priority: " ++ authority ++ ", Urgency: " ++ urgency
    ++ ", Strategy: " ++ strategy in
  let recommended_actions :=
    ["Send calendar invitations";
     "Confirm participant availability";
     "Set up meeting preparation materials"] in
  let recommended_actions :=
    if conflicts_detected then
      let actions :=
        "Notify participants of potential conflicts" :: recommended_actions in
      if String.eqb urgency "high" then
        "Request conflict resolution from participants" :: actions
      else actions
    else recommended_actions in
  {| recommended_slot := best_slot;
     conflicts_detected := conflicts_detected;
     res_reasoning := join " | " reasoning_parts;
     priority_assessment := priority_assessment;
     resolution_strategy := resolution;
     strategy_used := strategy;
     recommended_actions := recommended_actions |}.

(** *** [_generate_intelligent_alternatives] *)
Record Alternative : Type := mk_Alternative {
  alt_start : string;
  alt_end : string;
  alt_score : Z;
  reason : string
}.

Inductive offset : Type :=
  | offset_hours (n : Z)
  | offset_days (n : Z).

Definition alternative_strategies : list (offset * string) :=
  [(offset_hours 1, "One hour later - minimal disruption");
   (offset_hours 2, "Two hours later - afternoon alternative");
   (offset_hours (-1), "One hour earlier - morning alternative");
   (offset_days 1, "Next day - same time slot")].

(** [base_time + timedelta(...)] for one strategy. *)
Definition shift (base_time : Z) (o : offset) : res Z :=
  match o with
  | offset_hours n => PyDatetime.add_hours base_time n
  | offset_days n => PyDatetime.add_days base_time n
  end.

(** [strategy.get("offset_hours", 0) == 1] *)
Definition is_one_hour_later (o : offset) : bool :=
  match o with
  | offset_hours n => (n =? 1)%Z
  | offset_days _ => false
  end.

(** The body of the [try] for one strategy; [Ok None] when the hour is
    outside business hours. *)
Definition try_alternative (base_time duration : Z)
    (strategy : offset * string) : res (option Alternative) :=
  let '(o, why) := strategy in
  let! alt_time := shift base_time o in
  if ((9 <=? PyDatetime.hour alt_time)
      && (PyDatetime.hour alt_time <=? 17))%Z then
    let alt_start := PyDatetime.strftime_ist alt_time in
    let! alt_end_dt := PyDatetime.add_minutes alt_time duration in
    let alt_end := PyDatetime.strftime_ist alt_end_dt in
    let score := if is_one_hour_later o then 85%Z else 75%Z in
    Ok (Some {| alt_start := alt_start; alt_end := alt_end;
                alt_score := score; reason := why |})
  else Ok None.

(** One iteration of the loop: the bare [except] skips a strategy whose body
    raises. *)
Definition alternatives_step (base_time duration : Z)
    (alternatives : list Alternative) (strategy : offset * string)
  : list Alternative :=
  match try_alternative base_time duration strategy with
  | Ok (Some a) => alternatives ++ [a]
  | Ok None => alternatives
  | Raise _ => alternatives
  end.

(** What one strategy contributes to the list. *)
Definition surviving (base_time duration : Z) (strategy : offset * string)
  : list Alternative :=
  match try_alternative base_time duration strategy with
  | Ok (Some a) => [a]
  | _ => []
  end.

(** The seconds that a strategy adds to the recommended start. *)
Definition offset_seconds (o : offset) : Z :=
  match o with
  | offset_hours n => 3600 * n
  | offset_days n => 86400 * n
  end.

(** [x] is ranked at least as high as [y]. *)
Definition alt_scores_ge (x y : Alternative) : Prop :=
  (alt_score y <= alt_score x)%Z.

Definition _generate_intelligent_alternatives
    (recommended_slot : option OptimalSlot)
    (calendar_data : list (string * list Event))
    (parsed_info : gmap string string) (duration : Z)
  : res (list Alternative) :=
  match recommended_slot with
  | None => Ok []
  | Some slot =>
      let! base_time :=
        PyDatetime.fromisoformat (remove_all "+05:30" (start slot)) in
      let alternatives :=
        fold_left (alternatives_step base_time duration)
                  alternative_strategies [] in
      Ok (take 3 alternatives)
  end.

(** *** The analysis of the request e-mail *)

(** [sum(1 for word in words if word in s)] *)
Definition count_in (words : list string) (s : string) : nat :=
  length (List.filter (fun word => str_in word s) words).

(** [_analyze_sender_authority]; the domain part that the function also
    splits off is not used. *)
Definition _analyze_sender_authority (from_email content_lower : string)
  : string :=
  let email_prefix :=
    if str_in "@" from_email then lower (hd "" (split_on "@" from_email))
    else lower from_email in
  if any_in ["ceo"; "director"; "vp"; "president"; "head"; "chief"; "admin"]
       email_prefix then "high"
  else if any_in ["manager"; "lead"; "senior"; "team"] email_prefix
  then "medium"
  else if any_in ["intern"; "junior"; "associate"] email_prefix then "low"
  else if (2 <=? count_in ["urgent"; "immediately"; "asap"; "priority";
                           "executive"; "board"] content_lower)%nat
  then "high"
  else if (2 <=? count_in ["team"; "project"; "coordinate"; "schedule"]
                   content_lower)%nat
  then "medium"
  else if (2 <=? count_in ["help"; "assist"; "support"; "question"]
                   content_lower)%nat
  then "low"
  else "medium".

(** [_analyze_meeting_complexity] *)
Record Complexity : Type := mk_Complexity {
  complexity : string;
  meeting_type : string;
  factors : list string;
  prep_needed : bool
}.

Definition complexity_factors_of (content_lower : string)
    (attendee_count : Z) : list string :=
  let tech_score :=
    count_in ["technical"; "architecture"; "development"; "coding";
              "algorithm"; "system"] content_lower in
  let complexity_factors : list string :=
    if (0 <? tech_score)%nat then ["technical_content"] else [] in
  let strategic_score :=
    count_in ["strategy"; "planning"; "roadmap"; "vision"; "goals";
              "objectives"] content_lower in
  let complexity_factors :=
    if (0 <? strategic_score)%nat
    then (complexity_factors ++ ["strategic_planning"])%list
    else complexity_factors in
  let decision_score :=
    count_in ["decide"; "decision"; "choose"; "approve"; "budget";
              "resource"] content_lower in
  let complexity_factors :=
    if (0 <? decision_score)%nat
    then (complexity_factors ++ ["decision_making"])%list
    else complexity_factors in
  if (5 <? attendee_count)%Z
  then (complexity_factors ++ ["large_group"])%list
  else if (2 <? attendee_count)%Z
  then (complexity_factors ++ ["group_coordination"])%list
  else complexity_factors.

Definition _analyze_meeting_complexity (content_lower : string)
    (attendee_count : Z) : Complexity :=
  let complexity_factors :=
    complexity_factors_of content_lower attendee_count in
  if (3 <=? length complexity_factors)%nat then
    {| complexity := "complex"; meeting_type := "strategic_planning";
       factors := complexity_factors; prep_needed := true |}
  else if (2 <=? length complexity_factors)%nat then
    {| complexity := "moderate"; meeting_type := "project_discussion";
       factors := complexity_factors; prep_needed := true |}
  else if existsb (String.eqb "technical_content") complexity_factors then
    {| complexity := "moderate"; meeting_type := "technical_review";
       factors := complexity_factors; prep_needed := false |}
  else
    {| complexity := "simple"; meeting_type := "status_update";
       factors := complexity_factors; prep_needed := false |}.

(** [_extract_time_intelligence] *)
Record TimeIntelligence : Type := mk_TimeIntelligence {
  preference : string;
  constraints : string;
  analysis : list string;
  extracted_times : list string
}.

(** [repr] of a list of strings that hold no quote and no backslash. *)
Definition repr_list (l : list string) : string :=
  ("[" ++ join ", " (map (fun x => "'" ++ x ++ "'") l) ++ "]")%string.

Definition time_patterns : list (string * list string) :=
  [("specific_times", ["11:00"; "11 am"; "11 a.m"; "10:00"; "2:00"; "3:00"]);
   ("time_periods", ["morning"; "afternoon"; "evening"; "lunch";
                     "end of day"]);
   ("days", ["monday"; "tuesday"; "wednesday"; "thursday"; "friday"]);
   ("relative", ["next week"; "this week"; "tomorrow"; "soon"])].

(** One round of the loop over [time_patterns.items()]; the state is
    [(extracted_times, analysis)]. *)
Definition extract_step (content_lower : string)
    (st : list string * list string) (entry : string * list string)
  : list string * list string :=
  let found := List.filter (fun pattern => str_in pattern content_lower)
                 (snd entry) in
  match found with
  | [] => st
  | _ => ((fst st ++ found)%list,
          (snd st
           ++ [("Found " ++ fst entry ++ ": " ++ repr_list found)%string])%list)
  end.

Definition _extract_time_intelligence (content_lower original_content : string)
  : TimeIntelligence :=
  let st := fold_left (extract_step content_lower) time_patterns ([], []) in
  if any_in ["11:00"; "11 am"] content_lower then
    {| preference := "late_morning";
       constraints := "11:00 AM specifically requested";
       analysis := snd st; extracted_times := fst st |}
  else if str_in "morning" content_lower then
    {| preference := "morning";
       constraints := "Morning preference indicated";
       analysis := snd st; extracted_times := fst st |}
  else if str_in "afternoon" content_lower then
    {| preference := "afternoon";
       constraints := "Afternoon preference indicated";
       analysis := snd st; extracted_times := fst st |}
  else if any_in ["tuesday"; "thursday"] content_lower then
    {| preference := "specific_day";
       constraints :=
         ((if str_in "tuesday" content_lower then "Tuesday" else "Thursday")
          ++ " specifically mentioned")%string;
       analysis := snd st; extracted_times := fst st |}
  else
    {| preference := "flexible"; constraints := "";
       analysis := snd st; extracted_times := fst st |}.

(** [_multi_factor_urgency_analysis] *)
Record Urgency : Type := mk_Urgency {
  urgency_level : string;
  urgency_score : Z;
  urgency_factors : list string
}.

Definition high_urgency_words : list string :=
  ["urgent"; "asap"; "immediately"; "critical"; "emergency"; "rush"].

Definition medium_urgency_words : list string :=
  ["soon"; "quickly"; "priority"; "important"; "timely"].

Definition _multi_factor_urgency_analysis (content_lower from_email
    authority : string) : Urgency :=
  let base_score := 50%Z in
  let high_count := count_in high_urgency_words content_lower in
  let medium_count := count_in medium_urgency_words content_lower in
  let st : Z * list string :=
    if (0 <? high_count)%nat then
      ((base_score + 40)%Z,
       [("High urgency language: " ++ str_of_Z (Z.of_nat high_count)
         ++ " indicators")%string])
    else if (0 <? medium_count)%nat then
      ((base_score + 20)%Z,
       [("Medium urgency language: " ++ str_of_Z (Z.of_nat medium_count)
         ++ " indicators")%string])
    else (base_score, []) in
  let st : Z * list string :=
    if String.eqb authority "high" then
      ((fst st + 25)%Z,
       (snd st ++ ["High authority sender increases urgency"])%list)
    else if String.eqb authority "medium" then
      ((fst st + 10)%Z, (snd st ++ ["Medium authority sender"])%list)
    else st in
  let st : Z * list string :=
    if any_in ["deadline"; "due"; "timeline"] content_lower then
      ((fst st + 15)%Z, (snd st ++ ["Time-sensitive indicators found"])%list)
    else st in
  let st : Z * list string :=
    if any_in ["client"; "customer"; "revenue"; "budget"] content_lower then
      ((fst st + 15)%Z, (snd st ++ ["Business impact indicators"])%list)
    else st in
  {| urgency_level :=
       if (80 <=? fst st)%Z then "high"
       else if (60 <=? fst st)%Z then "medium"
       else "low";
     urgency_score := fst st;
     urgency_factors := snd st |}.

(** [_calculate_optimal_duration] *)
Definition _calculate_optimal_duration (c : Complexity) (attendee_count : Z)
    (authority content_lower : string) : Z :=
  let base_duration := 30%Z in
  let base_duration :=
    (base_duration
     + (if String.eqb (complexity c) "simple" then 0
        else if String.eqb (complexity c) "moderate" then 15
        else if String.eqb (complexity c) "complex" then 30
        else 0))%Z in
  let base_duration :=
    if (5 <? attendee_count)%Z then (base_duration + 20)%Z
    else if (3 <? attendee_count)%Z then (base_duration + 10)%Z
    else base_duration in
  let base_duration :=
    if String.eqb authority "high" then Z.min base_duration 45
    else base_duration in
  let base_duration :=
    if any_in ["quick"; "brief"; "short"; "update"] content_lower
    then Z.min base_duration 30
    else if any_in ["workshop"; "training"; "deep dive"; "planning"]
              content_lower
    then (base_duration + 30)%Z
    else base_duration in
  let base_duration :=
    if prep_needed c then (base_duration + 15)%Z else base_duration in
  Z.max 15 (Z.min base_duration 120).

(** [_generate_intelligent_subject] *)
Definition _generate_intelligent_subject (content_lower : string)
    (c : Complexity) : string :=
  let subject_components : list string :=
    ((if str_in "project" content_lower then ["Project"] else [])
     ++ (if any_in ["discuss"; "discussion"] content_lower
         then ["Discussion"] else [])
     ++ (if any_in ["review"; "status"; "update"] content_lower
         then ["Review"] else [])
     ++ (if any_in ["plan"; "planning"; "strategy"] content_lower
         then ["Planning"] else [])
     ++ (if any_in ["decision"; "decide"; "approve"] content_lower
         then ["Decision"] else []))%list in
  let subject_components :=
    if String.eqb (complexity c) "complex"
    then "Strategic" :: subject_components
    else if String.eqb (complexity c) "moderate"
    then "Team" :: subject_components
    else subject_components in
  match subject_components with
  | [] => "Team Meeting"
  | _ => (join " " subject_components ++ " Meeting")%string
  end.

(** [_extract_agenda_and_decisions] *)
Record Agenda : Type := mk_Agenda {
  agenda : list string;
  decisions : list string;
  follow_ups : list string
}.

Definition _extract_agenda_and_decisions (content_lower : string)
    (c : Complexity) : Agenda :=
  let '(agenda_items, decision_points) :=
    if String.eqb (meeting_type c) "strategic_planning" then
      (["Strategic objectives review"; "Resource allocation";
        "Timeline planning"],
       ["Budget approval"; "Resource assignment"; "Timeline confirmation"])
    else if String.eqb (meeting_type c) "technical_review" then
      (["Technical requirements"; "Implementation approach";
        "Risk assessment"],
       ["Technology selection"; "Implementation timeline"])
    else if String.eqb (meeting_type c) "project_discussion" then
      (["Project status update"; "Current challenges"; "Next steps"],
       ["Priority adjustments"; "Resource needs"])
    else
      (["Status updates"; "Current priorities"; "Upcoming tasks"],
       ["Task assignments"; "Next meeting schedule"]) in
  let '(agenda_items, decision_points) :=
    if str_in "budget" content_lower
    then ((agenda_items ++ ["Budget discussion"])%list,
          (decision_points ++ ["Budget approval"])%list)
    else (agenda_items, decision_points) in
  let '(agenda_items, decision_points) :=
    if str_in "timeline" content_lower
    then ((agenda_items ++ ["Timeline review"])%list,
          (decision_points ++ ["Timeline agreement"])%list)
    else (agenda_items, decision_points) in
  let '(agenda_items, decision_points) :=
    if str_in "resource" content_lower
    then ((agenda_items ++ ["Resource planning"])%list,
          (decision_points ++ ["Resource allocation"])%list)
    else (agenda_items, decision_points) in
  let follow_up_actions :=
    ["Send meeting notes"; "Update project documentation";
     "Schedule follow-up if needed"] in
  {| agenda := agenda_items;
     decisions := decision_points;
     follow_ups :=
       if prep_needed c
       then "Distribute preparation materials" :: follow_up_actions
       else follow_up_actions |}.

(** [_advanced_agentic_email_analysis] and [parse_email_with_deepseek], which
    only calls it.  The keys of the result whose values are strings are the map
    [analysis_info], which is what the scheduler reads; the other keys are
    fields of the record. *)
Record EmailAnalysis : Type := mk_EmailAnalysis {
  duration_minutes_of : Z;
  analysis_info : gmap string string;
  preparation_required : bool;
  decision_points_of : list string;
  agenda_suggestions : list string;
  follow_up_actions_of : list string;
  reasoning_complexity_factors : list string;
  reasoning_time_analysis : list string;
  reasoning_urgency_factors : list string
}.

Definition _advanced_agentic_email_analysis {A : Type}
    (email_content from_email : string) (attendees : list A)
  : EmailAnalysis :=
  let content_lower := lower email_content in
  let authority_level := _analyze_sender_authority from_email content_lower in
  let complexity_analysis :=
    _analyze_meeting_complexity content_lower (Z.of_nat (length attendees)) in
  let time_intelligence :=
    _extract_time_intelligence content_lower email_content in
  let urgency_analysis :=
    _multi_factor_urgency_analysis content_lower from_email authority_level in
  let optimal_duration :=
    _calculate_optimal_duration complexity_analysis
      (Z.of_nat (length attendees)) authority_level content_lower in
  let intelligent_subject :=
    _generate_intelligent_subject content_lower complexity_analysis in
  let agenda_analysis :=
    _extract_agenda_and_decisions content_lower complexity_analysis in
  {| duration_minutes_of := optimal_duration;
     analysis_info :=
       <["optimal_time_preference" := preference time_intelligence]>
       (<["meeting_complexity" := complexity complexity_analysis]>
       (<["attendee_priority" := authority_level]>
       (<["suggested_subject" := intelligent_subject]>
       (<["urgency" := urgency_level urgency_analysis]>
       (<["meeting_type" := meeting_type complexity_analysis]>
       (<["time_constraints" := constraints time_intelligence]> ∅))))));
     preparation_required := prep_needed complexity_analysis;
     decision_points_of := decisions agenda_analysis;
     agenda_suggestions := agenda agenda_analysis;
     follow_up_actions_of := follow_ups agenda_analysis;
     reasoning_complexity_factors := factors complexity_analysis;
     reasoning_time_analysis := analysis time_intelligence;
     reasoning_urgency_factors := urgency_factors urgency_analysis |}.

Definition parse_email_with_deepseek {A : Type}
    (email_content from_email : string) (attendees : list A)
  : EmailAnalysis :=
  _advanced_agentic_email_analysis email_content from_email attendees.

(** *** The helpers of the response metadata *)

(** [_is_mock_data] *)
Definition _is_mock_data (events : list Event) : bool :=
  existsb (fun event =>
             String.eqb (Summary event) "Team Meet"
             || String.eqb (Summary event) "Lunch with Customers") events.

(** The first loop of [_generate_metadata]: whether the calendar of [email]
    counts as read ([calendar_success]) or not ([calendar_failed]). *)
Definition calendar_access_ok (calendar_api : string -> calendar_api_reply)
    (email start_ end_ : string) : bool :=
  match _retrieve_calendar_events calendar_api email start_ end_ with
  | Ok events =>
      match events with
      | [] => false
      | _ => negb (_is_mock_data events)
      end
  | Raise _ => false
  end.

(** [_get_safe_optimization_score] on the alternatives of the analysis. *)
Definition _get_safe_optimization_score (alternative_slots : list Alternative)
  : Z :=
  match alternative_slots with
  | [] => 85
  | first_slot :: _ => alt_score first_slot
  end.

(** [_detect_urgency] *)
Definition _detect_urgency (text : string) : string :=
  let text_lower := lower text in
  if any_in ["urgent"; "asap"; "immediately"; "critical"; "emergency"]
       text_lower then "high"
  else if any_in ["soon"; "quickly"; "priority"; "important"] text_lower
  then "medium"
  else "low".

End DeepSeek.

(** ** Concrete inputs used by the examples below *)

Module Examples.

Local Open Scope string_scope.

(** A naive datetime [m] minutes after the origin. *)
Definition at_minute (m : Z) : datetime := {| wall := 60 * m; tzinfo := None |}.

(** The calendar of ["a@x.com"] cannot be fetched; every other calendar
    holds one busy period. *)
Definition one_failing_provider (email : string)
  : GoogleService.provider_reply :=
  if String.eqb email "a@x.com" then GoogleService.FreebusyHttpError
  else GoogleService.BusyTimes [(at_minute 2, at_minute 4)].

Definition failing_provider (email : string) : GoogleService.provider_reply :=
  GoogleService.FreebusyHttpError.

Definition failing_api (user : string) : DeepSeek.calendar_api_reply :=
  DeepSeek.ApiException.

(** Three participants, each with one free slot, given in minutes. *)
Definition free_between (who : string) (a b : Z)
  : AgentService.ParticipantData :=
  {| AgentService.data_email := who;
     AgentService.data_free_slots :=
       [{| AgentService.slot_start_time := at_minute a;
           AgentService.slot_end_time := at_minute b;
           AgentService.duration_minutes := b - a |}] |}.

Definition alice := free_between "alice@x.com" 0 100.
Definition bob := free_between "bob@x.com" 0 100.
Definition carol := free_between "carol@x.com" 10 100.

(** A store with one proposal of two slots that is already confirmed. *)
Definition first_slot : TimeSlot := new_TimeSlot (at_minute 540) (at_minute 570) true.
Definition second_slot : TimeSlot := new_TimeSlot (at_minute 600) (at_minute 630) true.

Definition review_request : AgentService.MeetingRequest :=
  {| AgentService.title := "Review";
     AgentService.description := "Quarterly review";
     AgentService.organizer :=
       {| AgentService.name := "Alice"; AgentService.email := "alice@x.com" |};
     AgentService.participants :=
       [{| AgentService.name := "Bob"; AgentService.email := "bob@x.com" |}] |}.

Definition confirmed_proposal : AgentService.MeetingProposal :=
  {| AgentService.meeting_request := review_request;
     AgentService.suggested_slots := [first_slot; second_slot];
     AgentService.status := "confirmed" |}.

Definition confirmed_world : AgentService.World :=
  {| AgentService.proposals := {["p1" := confirmed_proposal]};
     AgentService.calendar_requests :=
       [AgentService.event_for confirmed_proposal first_slot];
     AgentService.mail_requests := [] |}.

(** The candidate of 17 July 2025 at 09:00, as the generator ranks it for an
    empty calendar. *)
Definition nine_o_clock : DeepSeek.OptimalSlot :=
  {| DeepSeek.start := "2025-07-17T09:00:00+05:30";
     DeepSeek.end_ := "2025-07-17T09:30:00+05:30";
     DeepSeek.score := 100;
     DeepSeek.slot_conflicts := [];
     DeepSeek.slot_reasoning := [] |}.

Definition always_inserted (ev : AgentService.CalendarEvent)
  : AgentService.insert_reply :=
  AgentService.Inserted (Some "evt-1").

End Examples.

(** * Part II: properties *)

Section FreeSlots.
Import GoogleService.

Lemma dt_lt_same_kind a b :
  is_naive a = is_naive b -> dt_lt a b = Ok (stamp a <? stamp b).
Proof.
  unfold dt_lt, is_naive, stamp.
  destruct (tzinfo a), (tzinfo b); intros H; try discriminate H; reflexivity.
Qed.

Lemma dt_max_same_kind a b :
  is_naive a = is_naive b ->
  dt_max a b = Ok (if stamp a <? stamp b then b else a).
Proof.
  intros H. unfold dt_max. rewrite (dt_lt_same_kind _ _ H). reflexivity.
Qed.

Lemma coverage_app t l1 l2 :
  coverage t (l1 ++ l2) = (coverage t l1 + coverage t l2)%nat.
Proof. unfold coverage. rewrite List.filter_app, length_app. reflexivity. Qed.

Lemma coverage_cons t s l :
  coverage t (s :: l) = ((if covers t s then 1 else 0) + coverage t l)%nat.
Proof. unfold coverage. simpl. destruct (covers t s); reflexivity. Qed.

Lemma coverage_Permutation t l1 l2 :
  Permutation l1 l2 -> coverage t l1 = coverage t l2.
Proof.
  induction 1; rewrite ?coverage_cons; lia.
Qed.

Lemma coverage_none t l :
  Forall (fun s => t < stamp (start_time s)) l -> coverage t l = 0%nat.
Proof.
  induction 1 as [|s l Hs _ IH]; [reflexivity|].
  rewrite coverage_cons, IH. unfold covers.
  destruct (Z.leb_spec (stamp (start_time s)) t); [lia|reflexivity].
Qed.

Lemma gaps_not_before cursor end_date busy t :
  t < stamp cursor -> coverage t (gaps cursor end_date busy) = 0%nat.
Proof.
  revert cursor. induction busy as [|b busy IH]; intros cursor Ht; simpl.
  - destruct (stamp cursor <? stamp end_date); [|reflexivity].
    rewrite coverage_cons. unfold covers; simpl.
    destruct (Z.leb_spec (stamp cursor) t); [lia|reflexivity].
  - rewrite coverage_app, IH.
    + destruct (stamp cursor <? stamp (start_time b)); [|reflexivity].
      rewrite coverage_cons. unfold covers; simpl.
      destruct (Z.leb_spec (stamp cursor) t); [lia|reflexivity].
    + destruct (Z.ltb_spec (stamp cursor) (stamp (end_time b))); lia.
Qed.

Lemma non_overlapping_cons b busy :
  non_overlapping (b :: busy) ->
  non_overlapping busy /\
  (forall t, covers t b = true -> coverage t busy = 0%nat).
Proof.
  intros H. split.
  - intros t. specialize (H t). rewrite coverage_cons in H. lia.
  - intros t Hb. specialize (H t). rewrite coverage_cons, Hb in H. lia.
Qed.

(** The sweep over sorted, well-formed and non-overlapping busy slots tiles
    everything from the cursor to the end of the window. *)
Lemma gaps_tile cursor end_date busy t :
  StronglySorted starts_le busy ->
  well_formed busy ->
  non_overlapping busy ->
  stamp cursor <= t < stamp end_date ->
  coverage t (gaps cursor end_date busy ++ busy) = 1%nat.
Proof.
  revert cursor.
  induction busy as [|b busy IH]; intros cursor Hsort Hwf Hno Ht; simpl.
  - rewrite app_nil_r.
    destruct (Z.ltb_spec (stamp cursor) (stamp end_date)); [|lia].
    rewrite coverage_cons. unfold covers; simpl.
    destruct (Z.leb_spec (stamp cursor) t), (Z.ltb_spec t (stamp end_date));
      simpl; solve [reflexivity | lia].
  - apply StronglySorted_inv in Hsort as [Hsort Hle].
    apply Forall_cons_1 in Hwf as [Hb Hwf].
    apply non_overlapping_cons in Hno as [Hno Hdisj].
    set (cursor' := if stamp cursor <? stamp (end_time b) then end_time b
                    else cursor).
    assert (Hc' : stamp cursor' = Z.max (stamp cursor) (stamp (end_time b))).
    { subst cursor'.
      destruct (Z.ltb_spec (stamp cursor) (stamp (end_time b))); lia. }
    rewrite !coverage_app, coverage_cons.
    destruct (Z.lt_ge_cases t (stamp cursor')) as [Hlt|Hge].
    + (* [t] is before the new cursor: the gap or [b] itself holds it *)
      rewrite (gaps_not_before _ _ _ _ Hlt).
      destruct (covers t b) eqn:Hcb.
      * rewrite (Hdisj t Hcb).
        destruct (Z.ltb_spec (stamp cursor) (stamp (start_time b)));
          [|reflexivity].
        rewrite coverage_cons. unfold covers in *; simpl.
        apply andb_prop in Hcb as [Hcb _]. apply Z.leb_le in Hcb.
        destruct (Z.ltb_spec t (stamp (start_time b))); [lia|].
        rewrite andb_false_r. reflexivity.
      * assert (Hts : t < stamp (start_time b)).
        { unfold covers in Hcb. apply andb_false_iff in Hcb as [Hcb|Hcb].
          - apply Z.leb_gt in Hcb. lia.
          - apply Z.ltb_ge in Hcb. lia. }
        rewrite (coverage_none t busy).
        2:{ eapply List.Forall_impl; [|exact Hle]. unfold starts_le.
            intros a Ha. simpl in Ha. lia. }
        destruct (Z.ltb_spec (stamp cursor) (stamp (start_time b))); [|lia].
        rewrite coverage_cons. unfold covers; simpl.
        destruct (Z.leb_spec (stamp cursor) t), (Z.ltb_spec t (stamp (start_time b)));
          simpl; solve [reflexivity | lia].
    + (* [t] is at or after the new cursor: the rest of the sweep holds it *)
      assert (Hcb : covers t b = false).
      { unfold covers. apply andb_false_iff. right. apply Z.ltb_ge. lia. }
      rewrite Hcb.
      assert (Hpre : coverage t
                (if stamp cursor <? stamp (start_time b)
                 then [new_TimeSlot cursor (start_time b) true] else []) = 0%nat).
      { destruct (stamp cursor <? stamp (start_time b)); [|reflexivity].
        rewrite coverage_cons. unfold covers; simpl.
        destruct (Z.ltb_spec t (stamp (start_time b))); [lia|].
        rewrite andb_false_r. reflexivity. }
      rewrite Hpre. simpl.
      rewrite <- coverage_app. apply IH; try assumption. lia.
Qed.

Lemma insert_by_start_sorted k x l :
  uniform k (x :: l) ->
  StronglySorted starts_le l ->
  exists r, insert_by_start x l = Ok r /\ Permutation (x :: l) r /\
            StronglySorted starts_le r.
Proof.
  induction l as [|y l IH]; intros Hk Hs; simpl.
  - exists [x]. repeat split; [reflexivity | repeat constructor].
  - pose proof Hk as Hk'.
    apply Forall_cons_1 in Hk' as [[Hx _] Hyl].
    apply Forall_cons_1 in Hyl as [[Hy _] Hl].
    rewrite dt_lt_same_kind by congruence. simpl.
    apply StronglySorted_inv in Hs as [Hs Hyle].
    destruct (Z.ltb_spec (stamp (start_time y)) (stamp (start_time x))) as [Hlt|Hge].
    + assert (Hxl : uniform k (x :: l)).
      { constructor; [|exact Hl]. inversion Hk; assumption. }
      destruct (IH Hxl Hs) as (r & -> & Hperm & Hr).
      exists (y :: r). simpl. repeat split.
      * rewrite perm_swap. constructor. exact Hperm.
      * constructor; [exact Hr|].
        eapply Permutation_Forall; [exact Hperm|].
        constructor; [unfold starts_le; lia | exact Hyle].
    + exists (x :: y :: l). repeat split; [reflexivity|].
      constructor; [constructor; assumption|].
      constructor; [unfold starts_le; lia|].
      eapply List.Forall_impl; [|exact Hyle].
      unfold starts_le. intros a Ha. lia.
Qed.

Lemma sort_by_start_sorted k l :
  uniform k l ->
  exists r, sort_by_start l = Ok r /\ Permutation l r /\
            StronglySorted starts_le r.
Proof.
  induction l as [|x l IH]; intros Hk; simpl.
  - exists []. repeat split; constructor.
  - apply Forall_cons_1 in Hk as [Hx Hl].
    destruct (IH Hl) as (s & -> & Hperm & Hs). simpl.
    assert (Hxs : uniform k (x :: s)).
    { constructor; [exact Hx|]. eapply Permutation_Forall; eassumption. }
    destruct (insert_by_start_sorted k x s Hxs Hs) as (r & Hr & Hperm' & Hsr).
    exists r. repeat split; [exact Hr| |exact Hsr].
    rewrite <- Hperm'. constructor. exact Hperm.
Qed.

(** The loop computes [gaps]: what is already emitted, followed by the tail
    slot of the final cursor, is what [gaps] lists from the initial cursor. *)
Lemma sweep_gaps k end_date busy cursor free :
  uniform k busy ->
  is_naive cursor = k ->
  exists cursor' free',
    sweep (cursor, free) busy = Ok (cursor', free') /\
    is_naive cursor' = k /\
    free' ++ gaps cursor' end_date [] = free ++ gaps cursor end_date busy.
Proof.
  revert cursor free.
  induction busy as [|b busy IH]; intros cursor free Hk Hc.
  - exists cursor, free. split; [reflexivity | split; [exact Hc | reflexivity]].
  - apply Forall_cons_1 in Hk as [[Hbs Hbe] Hk].
    cbn [sweep sweep_step].
    rewrite dt_lt_same_kind by congruence. cbn [rbind].
    rewrite dt_max_same_kind by congruence. cbn [rbind].
    match goal with
    | |- context [sweep (?c, ?f) busy] =>
        assert (Hc1 : is_naive c = k)
          by (destruct (stamp cursor <? stamp (end_time b)); assumption);
        destruct (IH c f Hk Hc1) as (c' & f' & Hsw & Hc' & Heq)
    end.
    exists c', f'. split; [exact Hsw | split; [exact Hc' |]].
    rewrite Heq. cbn [gaps].
    destruct (stamp cursor <? stamp (start_time b));
      rewrite <- ?app_assoc; reflexivity.
Qed.

Lemma replace_tz_none_naive d :
  is_naive d = true -> replace_tz_none d = d.
Proof.
  destruct d as [w [o|]]; unfold is_naive, replace_tz_none; simpl;
    [discriminate | reflexivity].
Qed.

Lemma normalize_busy_uniform start_date end_date busy :
  tz_consistent start_date end_date busy = true ->
  uniform (is_naive start_date) (normalize_busy start_date busy).
Proof.
  unfold tz_consistent, uniform, normalize_busy, normalize_slot.
  destruct (is_naive start_date) eqn:Hn; intros H.
  - apply Forall_map, Forall_forall. intros s _. simpl.
    split; match goal with |- context [is_naive ?d] =>
      destruct (is_naive d) eqn:E; [exact E | reflexivity] end.
  - apply andb_prop in H as [_ H]. rewrite forallb_forall in H.
    apply Forall_map, Forall_forall. intros s Hs. simpl.
    apply list_elem_of_In in Hs. specialize (H s Hs). unfold slot_aware in H.
    apply andb_prop in H as [H1 H2].
    split; [destruct (is_naive (start_time s)) | destruct (is_naive (end_time s))];
      solve [reflexivity | discriminate].
Qed.

(** On timezone-consistent input the function returns the gaps of the sorted
    busy slots. *)
Lemma calculate_free_slots_gaps start_date end_date busy :
  tz_consistent start_date end_date busy = true ->
  exists sorted,
    Permutation (normalize_busy start_date busy) sorted /\
    StronglySorted starts_le sorted /\
    _calculate_free_slots start_date end_date busy
    = Ok (gaps start_date end_date sorted).
Proof.
  intros Htz.
  pose proof (normalize_busy_uniform _ _ _ Htz) as Huni.
  assert (Hend : is_naive end_date = is_naive start_date).
  { unfold tz_consistent in Htz. destruct (is_naive start_date); [exact Htz|].
    apply andb_prop in Htz as [Htz _]. destruct (is_naive end_date);
      [discriminate | reflexivity]. }
  unfold _calculate_free_slots.
  assert (Hs : (if is_naive start_date then replace_tz_none start_date
                else start_date) = start_date).
  { destruct (is_naive start_date) eqn:E; [|reflexivity].
    apply replace_tz_none_naive, E. }
  assert (He : (if is_naive end_date then replace_tz_none end_date
                else end_date) = end_date).
  { destruct (is_naive end_date) eqn:E; [|reflexivity].
    apply replace_tz_none_naive, E. }
  rewrite Hs, He.
  destruct (sort_by_start_sorted _ _ Huni) as (sorted & -> & Hperm & Hsorted).
  cbn [rbind].
  assert (Huni' : uniform (is_naive start_date) sorted).
  { eapply Permutation_Forall; eassumption. }
  destruct (sweep_gaps _ end_date sorted start_date [] Huni' eq_refl)
    as (c' & f' & -> & Hc' & Heq).
  cbn [rbind].
  rewrite dt_lt_same_kind by congruence. cbn [rbind].
  exists sorted. split; [exact Hperm | split; [exact Hsorted|]].
  f_equal.
  rewrite <- (app_nil_l (gaps start_date end_date sorted)), <- Heq.
  cbn [gaps]. destruct (stamp c' <? stamp end_date);
    [reflexivity | symmetry; apply app_nil_r].
Qed.

(** C2. For every bounding window and every list of well-formed, pairwise
    non-overlapping busy intervals, [_calculate_free_slots] returns, and each
    instant of the window lies in exactly one interval among the free intervals
    it returns and the busy intervals it swept: no gap and no double
    coverage. *)
Theorem calculate_free_slots_tiles_window start_date end_date busy :
  tz_consistent start_date end_date busy = true ->
  well_formed (normalize_busy start_date busy) ->
  non_overlapping (normalize_busy start_date busy) ->
  exists free,
    _calculate_free_slots start_date end_date busy = Ok free /\
    forall t, stamp start_date <= t < stamp end_date ->
      coverage t (free ++ normalize_busy start_date busy) = 1%nat.
Proof.
  intros Htz Hwf Hno.
  destruct (calculate_free_slots_gaps _ _ _ Htz)
    as (sorted & Hperm & Hsorted & ->).
  eexists. split; [reflexivity|].
  intros t Ht.
  rewrite coverage_app, (coverage_Permutation t _ _ Hperm), <- coverage_app.
  apply gaps_tile; [exact Hsorted | | | exact Ht].
  - eapply Permutation_Forall; eassumption.
  - intros u. rewrite <- (coverage_Permutation u _ _ Hperm). apply Hno.
Qed.

(** The theorem at a naive window [0, 10) with busy slots [6, 8) and [2, 4). *)
Lemma calculate_free_slots_tiles_window_witness :
  exists free,
    _calculate_free_slots (mk_datetime 0 None) (mk_datetime 10 None)
      [new_TimeSlot (mk_datetime 6 None) (mk_datetime 8 None) false;
       new_TimeSlot (mk_datetime 2 (Some 0)) (mk_datetime 4 (Some 0)) false]
    = Ok free /\
    forall t, 0 <= t < 10 ->
      coverage t (free ++
        [new_TimeSlot (mk_datetime 6 None) (mk_datetime 8 None) false;
         new_TimeSlot (mk_datetime 2 None) (mk_datetime 4 None) false]) = 1%nat.
Proof.
  apply (calculate_free_slots_tiles_window (mk_datetime 0 None)
           (mk_datetime 10 None)
           [new_TimeSlot (mk_datetime 6 None) (mk_datetime 8 None) false;
            new_TimeSlot (mk_datetime 2 (Some 0)) (mk_datetime 4 (Some 0)) false]).
  - reflexivity.
  - unfold well_formed; simpl.
    apply List.Forall_cons; [vm_compute; discriminate|].
    apply List.Forall_cons; [vm_compute; discriminate|].
    apply List.Forall_nil.
  - intros t. unfold coverage, covers; cbn.
    destruct (Z.leb_spec 6 t), (Z.ltb_spec t 8), (Z.leb_spec 2 t),
      (Z.ltb_spec t 4); cbn; lia.
Defined.

End FreeSlots.

(** ** What a failed calendar fetch is replaced by *)

Section FailedFetch.
Import GoogleService.

Lemma availability_of_failed provider email start_date end_date :
  fetch_fails (provider email) = true ->
  availability_of provider email start_date end_date
  = Ok (empty_availability email).
Proof.
  unfold availability_of. destruct (provider email); try reflexivity.
  discriminate.
Qed.

Lemma availability_loop_returns provider start_date end_date emails acc :
  (forall e bt, In e emails -> provider e = BusyTimes bt ->
     tz_consistent start_date end_date (slots_of_busy_times bt) = true) ->
  exists rs,
    availability_loop provider emails start_date end_date acc = Ok (acc ++ rs)
    /\ map participant_email rs = emails
    /\ (forall r, In r rs ->
          fetch_fails (provider (participant_email r)) = true ->
          free_slots r = [] /\ busy_slots r = []).
Proof.
  revert acc. induction emails as [|e emails IH]; intros acc Htz.
  - exists []. simpl. rewrite app_nil_r. repeat split; contradiction.
  - assert (Hone : exists r,
              availability_of provider e start_date end_date = Ok r /\
              participant_email r = e /\
              (fetch_fails (provider e) = true ->
               free_slots r = [] /\ busy_slots r = [])).
    { unfold availability_of.
      destruct (provider e) as [| | |bt] eqn:Hp;
        try (exists (empty_availability e); repeat split; reflexivity).
      destruct (calculate_free_slots_gaps start_date end_date
                  (slots_of_busy_times bt)) as (sorted & _ & _ & Hfree).
      { apply (Htz e bt); [left; reflexivity | exact Hp]. }
      rewrite Hfree. cbn [rbind].
      eexists. split; [reflexivity|]. split; [reflexivity|].
      simpl. discriminate. }
    destruct Hone as (r & Hr & Hmail & Hfail).
    destruct (IH (acc ++ [r])) as (rs & Hrs & Hmap & Hall).
    { intros e' bt Hin. apply Htz. right. exact Hin. }
    exists (r :: rs). cbn [availability_loop]. rewrite Hr. cbn [rbind].
    rewrite Hrs, <- app_assoc. split; [reflexivity|].
    split; [simpl; congruence|].
    intros r' [<-|Hin] Hf; [apply Hfail; congruence | apply Hall; assumption].
Qed.

End FailedFetch.

Section MockFallback.
Import DeepSeek.

Lemma dict_get_set_eq {V : Type} (d : list (string * V)) k v :
  dict_get (dict_set d k v) k = Some v.
Proof.
  induction d as [|[k' v'] d IH]; simpl.
  - rewrite String.eqb_refl. reflexivity.
  - destruct (String.eqb_spec k' k) as [->|Hne]; simpl.
    + rewrite String.eqb_refl. reflexivity.
    + destruct (String.eqb_spec k' k); [contradiction | exact IH].
Qed.

Lemma dict_get_set_ne {V : Type} (d : list (string * V)) k k' v :
  k <> k' -> dict_get (dict_set d k v) k' = dict_get d k'.
Proof.
  intros Hne. induction d as [|[k0 v0] d IH]; simpl.
  - destruct (String.eqb_spec k k'); [contradiction | reflexivity].
  - destruct (String.eqb_spec k0 k) as [->|H0]; simpl.
    + destruct (String.eqb_spec k k'); [contradiction | reflexivity].
    + destruct (String.eqb_spec k0 k'); [reflexivity | exact IH].
Qed.

Lemma calendar_data_loop_get calendar_api participants start_time end_time
    calendar_data who :
  In who participants \/
  dict_get calendar_data who = Some (events_of calendar_api who) ->
  dict_get (calendar_data_loop calendar_api participants start_time end_time
              calendar_data) who
  = Some (events_of calendar_api who).
Proof.
  revert calendar_data.
  induction participants as [|q participants IH]; intros calendar_data H.
  - destruct H as [[]|H]. exact H.
  - cbn [calendar_data_loop]. apply IH.
    assert (Hq : match _retrieve_calendar_events calendar_api q start_time
                         end_time with
                 | Ok events => events
                 | Raise _ => _get_mock_events_for_user q
                 end = events_of calendar_api q).
    { unfold _retrieve_calendar_events, events_of.
      destruct (calendar_api q); reflexivity. }
    rewrite Hq.
    destruct (String.eqb_spec q who) as [->|Hne].
    + right. apply dict_get_set_eq.
    + destruct H as [[Heq|Hin]|Hget].
      * contradiction.
      * left. exact Hin.
      * right. rewrite dict_get_set_ne by exact Hne. exact Hget.
Qed.

End MockFallback.

(** C1 (as the code has it). A participant whose calendar cannot be fetched
    gets, in [GoogleService.get_calendar_availability], a response with no
    busy slot and no free slot, and the run returns one response for every
    participant in order; in the experiment agent the participant gets the
    built-in mock events of that address. *)
Theorem failed_fetch_fallback
    (provider : string -> GoogleService.provider_reply)
    (calendar_api : string -> DeepSeek.calendar_api_reply)
    (emails : list string) (start_date end_date : datetime)
    (start_time end_time who : string) :
  (forall e bt, In e emails -> provider e = GoogleService.BusyTimes bt ->
     GoogleService.tz_consistent start_date end_date
       (GoogleService.slots_of_busy_times bt) = true) ->
  In who emails ->
  DeepSeek.api_fails (calendar_api who) = true ->
  (exists rs,
     GoogleService.get_calendar_availability provider emails start_date
       end_date = Ok rs /\
     map participant_email rs = emails /\
     forall r, In r rs ->
       GoogleService.fetch_fails (provider (participant_email r)) = true ->
       free_slots r = [] /\ busy_slots r = []) /\
  DeepSeek.dict_get
    (DeepSeek._get_calendar_data calendar_api emails start_time end_time) who
  = Some (DeepSeek._get_mock_events_for_user who).
Proof.
  intros Htz Hin Hfail. split.
  - destruct (availability_loop_returns provider start_date end_date emails []
                Htz) as (rs & Hrs & Hmap & Hall).
    exists rs. unfold GoogleService.get_calendar_availability.
    rewrite Hrs. simpl. auto.
  - unfold DeepSeek._get_calendar_data.
    rewrite calendar_data_loop_get by (left; exact Hin).
    unfold DeepSeek.events_of.
    destruct (calendar_api who); [reflexivity.. | discriminate].
Qed.

(** The theorem at two participants, the first of which cannot be fetched. *)
Lemma failed_fetch_fallback_witness :
  (exists rs,
     GoogleService.get_calendar_availability Examples.one_failing_provider
       ["a@x.com"; "b@x.com"]%string (Examples.at_minute 0)
       (Examples.at_minute 10) = Ok rs /\
     map participant_email rs = ["a@x.com"; "b@x.com"]%string /\
     forall r, In r rs ->
       GoogleService.fetch_fails
         (Examples.one_failing_provider (participant_email r)) = true ->
       free_slots r = [] /\ busy_slots r = []) /\
  DeepSeek.dict_get
    (DeepSeek._get_calendar_data Examples.failing_api
       ["a@x.com"; "b@x.com"]%string "2025-07-17T00:00:00+05:30"
       "2025-07-17T23:59:59+05:30") "a@x.com"
  = Some (DeepSeek._get_mock_events_for_user "a@x.com").
Proof.
  apply (failed_fetch_fallback Examples.one_failing_provider
           Examples.failing_api ["a@x.com"; "b@x.com"]%string
           (Examples.at_minute 0) (Examples.at_minute 10)).
  - intros e bt _ _. reflexivity.
  - left. reflexivity.
  - reflexivity.
Defined.

(** C1 fails as stated.  With a provider that fails for the only participant
    and the window [0, 10), the response holds no free slot, whereas a
    participant without busy slots is free over the whole window; and the
    experiment agent gives a participant whose address contains "usertwo" the
    mock meeting as a busy event. *)
Lemma fail_open_counterexample :
  GoogleService.get_calendar_availability Examples.failing_provider
    ["a@x.com"%string] (Examples.at_minute 0) (Examples.at_minute 10)
  = Ok [GoogleService.empty_availability "a@x.com"] /\
  GoogleService._calculate_free_slots (Examples.at_minute 0)
    (Examples.at_minute 10) []
  = Ok [new_TimeSlot (Examples.at_minute 0) (Examples.at_minute 10) true] /\
  free_slots (GoogleService.empty_availability "a@x.com")
  <> [new_TimeSlot (Examples.at_minute 0) (Examples.at_minute 10) true] /\
  DeepSeek.dict_get
    (DeepSeek._get_calendar_data Examples.failing_api
       ["usertwo.amd@gmail.com"%string] "2025-07-17T00:00:00+05:30"
       "2025-07-17T23:59:59+05:30") "usertwo.amd@gmail.com"
  = Some [DeepSeek.team_meet].
Proof.
  repeat split; try reflexivity. discriminate.
Qed.

(** ** The common-window intersection *)

(** C3 does not hold of the code.  Alice and Bob are free over [0, 100) and
    Carol over [10, 100) (minutes); for a 30-minute meeting the order Alice,
    Bob, Carol yields no common slot, the order Alice, Carol, Bob yields the
    slot [10, 40). *)
Lemma common_slots_depend_on_order :
  AgentService.common_slots_of 30
    [Examples.alice; Examples.bob; Examples.carol] = Ok [] /\
  AgentService.common_slots_of 30
    [Examples.alice; Examples.carol; Examples.bob]
  = Ok [{| AgentService.slot_start_time := Examples.at_minute 10;
           AgentService.slot_end_time := Examples.at_minute 40;
           AgentService.duration_minutes := 30 |}] /\
  AgentService.analysis_suggested_slots
    (AgentService._analyze_optimal_slots
       [Examples.alice; Examples.bob; Examples.carol]
       {| AgentService.req_duration_minutes := Some 30;
          AgentService.req_priority := None |} 3) = [] /\
  AgentService.analysis_suggested_slots
    (AgentService._analyze_optimal_slots
       [Examples.alice; Examples.carol; Examples.bob]
       {| AgentService.req_duration_minutes := Some 30;
          AgentService.req_priority := None |} 3)
  = [{| AgentService.slot_start_time := Examples.at_minute 10;
        AgentService.slot_end_time := Examples.at_minute 40;
        AgentService.duration_minutes := 30 |}].
Proof. repeat split; vm_compute; reflexivity. Qed.

(** ** The guards of [confirm_meeting] *)

Section ConfirmFacts.
Import AgentService.

Variable create : CalendarEvent -> insert_reply.

Lemma py_index_nonneg {A : Type} (l : list A) (i : Z) (a : A) :
  0 <= i -> nth_error l (Z.to_nat i) = Some a -> py_index l i = Ok a.
Proof.
  intros Hi Hnth. unfold py_index.
  assert (Hlt : (Z.to_nat i < length l)%nat).
  { apply nth_error_Some. rewrite Hnth. discriminate. }
  destruct (Z.ltb_spec i 0); [lia|].
  destruct (Z.leb_spec 0 i); [|lia].
  destruct (Z.ltb_spec i (Z.of_nat (length l))); [|lia].
  simpl. rewrite Hnth. reflexivity.
Qed.

Lemma py_index_negative {A : Type} (l : list A) (i : Z) :
  - Z.of_nat (length l) <= i < 0 ->
  exists a, nth_error l (Z.to_nat (Z.of_nat (length l) + i)) = Some a /\
            py_index l i = Ok a.
Proof.
  intros Hi. unfold py_index.
  destruct (Z.ltb_spec i 0); [|lia].
  destruct (Z.leb_spec 0 (Z.of_nat (length l) + i)); [|lia].
  destruct (Z.ltb_spec (Z.of_nat (length l) + i) (Z.of_nat (length l))); [|lia].
  simpl.
  destruct (nth_error l (Z.to_nat (Z.of_nat (length l) + i))) as [a|] eqn:E.
  - exists a. split; reflexivity.
  - apply nth_error_None in E. lia.
Qed.

(** What a confirmation that passed the two guards does with the selected
    slot. *)
Lemma confirm_meeting_selected w proposal_id slot_index proposal slot :
  proposals w !! proposal_id = Some proposal ->
  slot_index < Z.of_nat (length (suggested_slots proposal)) ->
  py_index (suggested_slots proposal) slot_index = Ok slot ->
  exists out w',
    confirm_meeting create w proposal_id slot_index = Ok (out, w') /\
    calendar_requests w'
    = calendar_requests w ++ [event_for proposal slot] /\
    forall event_id,
      create (event_for proposal slot) = Inserted event_id ->
      out = Success event_id slot
              (length (get_all_emails (meeting_request proposal)))
              (email (organizer (meeting_request proposal))) /\
      status <$> (proposals w' !! proposal_id) = Some "confirmed"%string.
Proof.
  intros Hp Hlt Hidx. unfold confirm_meeting. rewrite Hp.
  destruct (Z.leb_spec (Z.of_nat (length (suggested_slots proposal)))
              slot_index); [lia|].
  rewrite Hidx. cbn [rbind].
  destruct (create (event_for proposal slot)) as [eid|msg] eqn:Hc.
  - eexists _, _. split; [reflexivity|]. split; [reflexivity|].
    intros event_id [= <-]. split; [reflexivity|].
    cbn. rewrite lookup_insert_eq. reflexivity.
  - eexists _, _. split; [reflexivity|]. split; [reflexivity|].
    intros event_id [=].
Qed.

End ConfirmFacts.

(** C9 (as the code has it). Confirming an unknown proposal id fails with
    "Proposal not found" and leaves the state as it was; confirming with a slot
    index at or beyond the number of suggested slots fails with "Invalid slot
    index" and leaves the state as it was; the status of the proposal is never
    consulted: whatever it is, also "confirmed", a confirmation with an index
    in range asks for the calendar event again and, when the event is
    created, succeeds and leaves the proposal confirmed. *)
Theorem confirm_meeting_guards
    (create : AgentService.CalendarEvent -> AgentService.insert_reply)
    (w : AgentService.World) (proposal_id : string) (slot_index : Z) :
  (AgentService.proposals w !! proposal_id = None ->
   AgentService.confirm_meeting create w proposal_id slot_index
   = Ok (AgentService.Failure "Proposal not found", w)) /\
  (forall proposal,
     AgentService.proposals w !! proposal_id = Some proposal ->
     Z.of_nat (length (AgentService.suggested_slots proposal)) <= slot_index ->
     AgentService.confirm_meeting create w proposal_id slot_index
     = Ok (AgentService.Failure "Invalid slot index", w)) /\
  (forall proposal slot event_id,
     AgentService.proposals w !! proposal_id = Some proposal ->
     0 <= slot_index ->
     nth_error (AgentService.suggested_slots proposal) (Z.to_nat slot_index)
     = Some slot ->
     create (AgentService.event_for proposal slot)
     = AgentService.Inserted event_id ->
     exists w',
       AgentService.confirm_meeting create w proposal_id slot_index
       = Ok (AgentService.Success event_id slot
               (length (AgentService.get_all_emails
                          (AgentService.meeting_request proposal)))
               (AgentService.email
                  (AgentService.organizer
                     (AgentService.meeting_request proposal))), w') /\
       AgentService.calendar_requests w'
       = AgentService.calendar_requests w
         ++ [AgentService.event_for proposal slot] /\
       AgentService.status <$> (AgentService.proposals w' !! proposal_id)
       = Some "confirmed"%string).
Proof.
  split; [|split].
  - intros Hnone. unfold AgentService.confirm_meeting. rewrite Hnone.
    reflexivity.
  - intros proposal Hp Hge. unfold AgentService.confirm_meeting. rewrite Hp.
    destruct (Z.leb_spec
                (Z.of_nat (length (AgentService.suggested_slots proposal)))
                slot_index); [reflexivity | lia].
  - intros proposal slot event_id Hp Hi Hnth Hc.
    assert (Hlt : (Z.to_nat slot_index
                   < length (AgentService.suggested_slots proposal))%nat).
    { apply nth_error_Some. rewrite Hnth. discriminate. }
    destruct (confirm_meeting_selected create w proposal_id slot_index
                proposal slot Hp) as (out & w' & Hrun & Hcal & Hout).
    { lia. }
    { apply py_index_nonneg; assumption. }
    destruct (Hout event_id Hc) as [-> Hst].
    exists w'. auto.
Qed.

(** The theorem at the store whose proposal ["p1"] is already confirmed. *)
Lemma confirm_meeting_guards_witness :
  AgentService.confirm_meeting Examples.always_inserted
    Examples.confirmed_world "p2" 0
  = Ok (AgentService.Failure "Proposal not found", Examples.confirmed_world)
  /\
  AgentService.confirm_meeting Examples.always_inserted
    Examples.confirmed_world "p1" 2
  = Ok (AgentService.Failure "Invalid slot index", Examples.confirmed_world)
  /\
  exists w',
    AgentService.confirm_meeting Examples.always_inserted
      Examples.confirmed_world "p1" 1
    = Ok (AgentService.Success (Some "evt-1"%string) Examples.second_slot 2
            "alice@x.com", w') /\
    AgentService.calendar_requests w'
    = AgentService.calendar_requests Examples.confirmed_world
      ++ [AgentService.event_for Examples.confirmed_proposal
            Examples.second_slot] /\
    AgentService.status <$> (AgentService.proposals w' !! "p1")
    = Some "confirmed"%string.
Proof.
  split; [|split].
  - apply (confirm_meeting_guards Examples.always_inserted
             Examples.confirmed_world "p2" 0). reflexivity.
  - apply (proj1 (proj2 (confirm_meeting_guards Examples.always_inserted
                           Examples.confirmed_world "p1" 2))
             Examples.confirmed_proposal).
    + reflexivity.
    + simpl. lia.
  - apply (proj2 (proj2 (confirm_meeting_guards Examples.always_inserted
                           Examples.confirmed_world "p1" 1))
             Examples.confirmed_proposal Examples.second_slot
             (Some "evt-1"%string)).
    + reflexivity.
    + lia.
    + reflexivity.
    + reflexivity.
Defined.

(** C9 fails as stated.  The proposal ["p1"] is already confirmed; confirming
    it once more with slot index 0 is not refused: it succeeds and asks for a
    second calendar event. *)
Lemma confirm_twice_counterexample :
  AgentService.status Examples.confirmed_proposal = "confirmed"%string /\
  exists w',
    AgentService.confirm_meeting Examples.always_inserted
      Examples.confirmed_world "p1" 0
    = Ok (AgentService.Success (Some "evt-1"%string) Examples.first_slot 2
            "alice@x.com", w') /\
    AgentService.calendar_requests w'
    = [AgentService.event_for Examples.confirmed_proposal Examples.first_slot;
       AgentService.event_for Examples.confirmed_proposal Examples.first_slot].
Proof.
  split; [reflexivity|]. eexists. split; reflexivity.
Qed.

(** C10 (as the code has it). For a stored proposal and a negative slot index
    not below minus the number of suggested slots, the bound check passes, the
    slot counted from the end of the list is selected, and the confirmation
    proceeds on it: the calendar event of that slot is asked for, and when it
    is created the confirmation succeeds with that slot. *)
Theorem confirm_meeting_negative_index
    (create : AgentService.CalendarEvent -> AgentService.insert_reply)
    (w : AgentService.World) (proposal_id : string) (slot_index : Z)
    (proposal : AgentService.MeetingProposal) :
  AgentService.proposals w !! proposal_id = Some proposal ->
  - Z.of_nat (length (AgentService.suggested_slots proposal)) <= slot_index < 0 ->
  exists slot out w',
    nth_error (AgentService.suggested_slots proposal)
      (Z.to_nat (Z.of_nat (length (AgentService.suggested_slots proposal))
                 + slot_index)) = Some slot /\
    AgentService.confirm_meeting create w proposal_id slot_index
    = Ok (out, w') /\
    AgentService.calendar_requests w'
    = AgentService.calendar_requests w
      ++ [AgentService.event_for proposal slot] /\
    forall event_id,
      create (AgentService.event_for proposal slot)
      = AgentService.Inserted event_id ->
      out = AgentService.Success event_id slot
              (length (AgentService.get_all_emails
                         (AgentService.meeting_request proposal)))
              (AgentService.email
                 (AgentService.organizer
                    (AgentService.meeting_request proposal))).
Proof.
  intros Hp Hi.
  destruct (py_index_negative (AgentService.suggested_slots proposal)
              slot_index Hi) as (slot & Hnth & Hidx).
  destruct (confirm_meeting_selected create w proposal_id slot_index
              proposal slot Hp) as (out & w' & Hrun & Hcal & Hout);
    [lia | exact Hidx |].
  exists slot, out, w'. repeat split; try assumption.
  intros event_id Hc. apply (Hout event_id Hc).
Qed.

(** The theorem at slot index -1 of the two-slot proposal ["p1"]. *)
Lemma confirm_meeting_negative_index_witness :
  exists slot out w',
    nth_error [Examples.first_slot; Examples.second_slot] 1 = Some slot /\
    AgentService.confirm_meeting Examples.always_inserted
      Examples.confirmed_world "p1" (-1) = Ok (out, w') /\
    AgentService.calendar_requests w'
    = AgentService.calendar_requests Examples.confirmed_world
      ++ [AgentService.event_for Examples.confirmed_proposal slot] /\
    forall event_id,
      Examples.always_inserted
        (AgentService.event_for Examples.confirmed_proposal slot)
      = AgentService.Inserted event_id ->
      out = AgentService.Success event_id slot 2 "alice@x.com".
Proof.
  apply (confirm_meeting_negative_index Examples.always_inserted
           Examples.confirmed_world "p1" (-1) Examples.confirmed_proposal).
  - reflexivity.
  - simpl. lia.
Defined.

(** C10 fails as stated.  The proposal ["p1"] has two suggested slots; the
    slot index -3 passes the bound check and the indexing raises
    [IndexError]: no slot is selected and nothing is confirmed. *)
Lemma negative_index_counterexample :
  length (AgentService.suggested_slots Examples.confirmed_proposal) = 2%nat /\
  AgentService.confirm_meeting Examples.always_inserted
    Examples.confirmed_world "p1" (-3) = Raise IndexError.
Proof. split; reflexivity. Qed.

(** ** Strings of the experiment agent *)

Section StringFacts.
Import PyStr.
Local Open Scope string_scope.

Lemma ascii_compare_refl (c : ascii) : Ascii.compare c c = Eq.
Proof. unfold Ascii.compare. apply N.compare_refl. Qed.

Lemma compare_common_prefix (d a b : string) :
  String.compare (d ++ a) (d ++ b) = String.compare a b.
Proof.
  induction d as [|c d IH]; simpl; [reflexivity|].
  rewrite ascii_compare_refl. exact IH.
Qed.

Lemma ltb_common_prefix (d a b : string) :
  String.ltb (d ++ a) (d ++ b) = String.ltb a b.
Proof. unfold String.ltb. rewrite compare_common_prefix. reflexivity. Qed.

Lemma split_on_nonempty sep s : split_on sep s <> [].
Proof.
  destruct s as [|c s]; simpl; [discriminate|].
  destruct (Ascii.eqb c sep); [discriminate|].
  destruct (split_on sep s); discriminate.
Qed.

(** The text before the first separator, followed by a separator, splits
    where it was cut. *)
Lemma split_on_first_part sep s rest :
  split_on sep (hd "" (split_on sep s) ++ String sep rest)
  = hd "" (split_on sep s) :: split_on sep rest.
Proof.
  induction s as [|c s IH]; simpl.
  - rewrite Ascii.eqb_refl. reflexivity.
  - destruct (Ascii.eqb c sep) eqn:Hc; simpl.
    + rewrite Ascii.eqb_refl. reflexivity.
    + destruct (split_on sep s) as [|h r] eqn:Hs.
      * exfalso. exact (split_on_nonempty sep s Hs).
      * simpl in *. rewrite Hc, IH. reflexivity.
Qed.

End StringFacts.

Section ScoreFacts.
Import PyStr DeepSeek.
Local Open Scope string_scope.

(** The hours that [_calculate_optimal_time_slots] may try. *)
Lemma candidate_times_business parsed_info h :
  In h (candidate_times parsed_info) -> In h [9; 10; 11; 14; 15; 16].
Proof.
  unfold candidate_times.
  destruct (str_in "11:00" _); [|destruct (String.eqb _ "morning");
    [|destruct (String.eqb _ "afternoon")]];
    simpl; intuition.
Qed.

Lemma hour_of_slot_start start_time h :
  In h [9; 10; 11; 14; 15; 16] ->
  hour_of (slot_start_of (hd "" (split_on "T" start_time)) h) = Ok h.
Proof.
  intros Hh. unfold hour_of, slot_start_of.
  change (hd "" (split_on "T" start_time) ++ "T" ++ fmt02 h ++ ":00:00+05:30")
    with (hd "" (split_on "T" start_time)
          ++ String "T" (fmt02 h ++ ":00:00+05:30")).
  rewrite split_on_first_part.
  simpl in Hh.
  destruct Hh as [<-|[<-|[<-|[<-|[<-|[<-|[]]]]]]]; reflexivity.
Qed.

(** Participants without events leave the score as it is. *)
Lemma score_free_participants slot_start slot_end priorities entries acc :
  Forall (fun entry : string * list Event => snd entry = []) entries ->
  fold_left (score_participant slot_start slot_end priorities) entries acc
  = acc.
Proof.
  intros H. revert acc.
  induction H as [|[who events] entries Hnil _ IH]; intros acc;
    [reflexivity|].
  simpl in Hnil. subst events. simpl. apply IH.
Qed.

Lemma analyzed_priority participants who p :
  _analyze_participant_priorities participants !! who = Some p ->
  p = priority_of who.
Proof.
  unfold _analyze_participant_priorities.
  assert (Hgen : forall (m : gmap string Priority),
            (forall q, m !! who = Some q -> q = priority_of who) ->
            fold_left (fun priorities participant =>
                         <[participant := priority_of participant]> priorities)
                      participants m !! who = Some p ->
            p = priority_of who).
  { induction participants as [|x xs IH]; intros m Hm; simpl.
    - apply Hm.
    - apply IH. intros q.
      destruct (decide (x = who)) as [->|Hne].
      + rewrite lookup_insert_eq. congruence.
      + rewrite lookup_insert_ne by exact Hne. apply Hm. }
  apply Hgen. intros q. rewrite lookup_empty. discriminate.
Qed.

Lemma priority_weight_range who :
  5 <= weight (priority_of who) <= 10.
Proof.
  unfold priority_of.
  repeat match goal with
         | |- context [if ?b then _ else _] => destruct b
         end; simpl; lia.
Qed.

End ScoreFacts.

(** ** Ranking by score *)

Section Ranking.
Import DeepSeek.

Lemma insert_by_score_Permutation x l :
  Permutation (x :: l) (insert_by_score x l).
Proof.
  induction l as [|y l IH]; simpl; [reflexivity|].
  destruct (score x <? score y); [|reflexivity].
  rewrite perm_swap. constructor. exact IH.
Qed.

Lemma sort_by_score_Permutation l : Permutation l (sort_by_score l).
Proof.
  induction l as [|x l IH]; simpl; [constructor|].
  rewrite <- insert_by_score_Permutation. constructor. exact IH.
Qed.

Lemma insert_by_score_sorted x l :
  StronglySorted scores_ge l -> StronglySorted scores_ge (insert_by_score x l).
Proof.
  induction l as [|y l IH]; intros Hs; simpl.
  - repeat constructor.
  - apply StronglySorted_inv in Hs as [Hs Hy].
    destruct (Z.ltb_spec (score x) (score y)) as [Hlt|Hge].
    + constructor; [apply IH, Hs|].
      eapply Permutation_Forall; [apply insert_by_score_Permutation|].
      constructor; [unfold scores_ge; lia | exact Hy].
    + constructor; [constructor; assumption|].
      constructor; [unfold scores_ge; lia|].
      eapply List.Forall_impl; [|exact Hy].
      unfold scores_ge. intros a Ha. lia.
Qed.

Lemma sort_by_score_sorted l : StronglySorted scores_ge (sort_by_score l).
Proof.
  induction l as [|x l IH]; simpl; [constructor|].
  apply insert_by_score_sorted, IH.
Qed.

(** In a list ranked by score, a slot stands before every slot of a strictly
    lower score. *)
Lemma ranked_before (l : list OptimalSlot) a b :
  StronglySorted scores_ge l -> In a l -> In b l -> score a < score b ->
  exists l1 l2 l3, l = l1 ++ b :: l2 ++ a :: l3.
Proof.
  induction 1 as [|x l Hs IH Hx]; intros Ha Hb Hlt; [contradiction|].
  destruct Hb as [->|Hb].
  - destruct Ha as [->|Ha]; [lia|].
    apply in_split in Ha as (l2 & l3 & ->).
    exists [], l2, l3. reflexivity.
  - destruct Ha as [->|Ha].
    + rewrite List.Forall_forall in Hx. specialize (Hx b Hb).
      unfold scores_ge in Hx. lia.
    + destruct (IH Ha Hb Hlt) as (l1 & l2 & l3 & ->).
      exists (x :: l1), l2, l3. reflexivity.
Qed.

Lemma sorted_head_is_best (l : list OptimalSlot) best :
  StronglySorted scores_ge l -> head l = Some best ->
  forall s, In s l -> score s <= score best.
Proof.
  intros Hs Hh s Hin. destruct l as [|x l]; [discriminate|].
  injection Hh as ->.
  apply StronglySorted_inv in Hs as [_ Hx].
  destruct Hin as [->|Hin]; [lia|].
  rewrite List.Forall_forall in Hx. apply (Hx s Hin).
Qed.

End Ranking.

(** ** Scenario B: a conflict at 09:00, none at 10:00 *)

Section ScenarioB.
Import PyStr DeepSeek.
Local Open Scope string_scope.

(** The score before the bonuses, for a calendar in which only one
    participant has an event. *)
Lemma score_single_event slot_start slot_end priorities before after who ev :
  Forall (fun entry : string * list Event => snd entry = []) before ->
  Forall (fun entry : string * list Event => snd entry = []) after ->
  fold_left (score_participant slot_start slot_end priorities)
    (before ++ [(who, [ev])] ++ after)
    {| total_score := 100; conflicts := []; reasoning := [] |}
  = score_event slot_start slot_end who priorities
      match priorities !! who with Some p => weight p | None => 5 end
      {| total_score := 100; conflicts := []; reasoning := [] |} ev.
Proof.
  intros Hb Ha.
  rewrite !fold_left_app, (score_free_participants _ _ _ before) by exact Hb.
  simpl. apply score_free_participants, Ha.
Qed.

End ScenarioB.

(** C5. Participant X is busy from 09:00 to 10:00 on the day of the request
    and nobody else has an event.  The candidate 09:00-09:30 gets exactly one
    conflict record, for X, of severity 5 times the weight of X, and its score
    is the score of the candidate 10:00-10:30 less that severity; the
    candidate 10:00-10:30 gets no conflict record, and wherever both
    candidates are ranked by score the 10:00 candidate stands before the 09:00
    candidate. *)
Theorem conflict_at_nine_not_at_ten
    (start_time who summary : string) (attendees : list string)
    (num_attendees : Z) (participants : list string)
    (before after : list (string * list DeepSeek.Event))
    (parsed_info : gmap string string) :
  let d := hd ""%string (PyStr.split_on "T" start_time) in
  let busy :=
    {| DeepSeek.StartTime := (d ++ "T09:00:00+05:30")%string;
       DeepSeek.EndTime := (d ++ "T10:00:00+05:30")%string;
       DeepSeek.NumAttendees := num_attendees;
       DeepSeek.Attendees := attendees;
       DeepSeek.Summary := summary |} in
  let calendar_data := before ++ [(who, [busy])] ++ after in
  let priorities := DeepSeek._analyze_participant_priorities participants in
  let w := match priorities !! who with
           | Some p => DeepSeek.weight p
           | None => 5
           end in
  Forall (fun entry : string * list DeepSeek.Event => snd entry = []) before ->
  Forall (fun entry : string * list DeepSeek.Event => snd entry = []) after ->
  exists s9 s10,
    DeepSeek._calculate_slot_score (d ++ "T09:00:00+05:30")
      (d ++ "T09:30:00+05:30") calendar_data priorities parsed_info = Ok s9 /\
    DeepSeek._calculate_slot_score (d ++ "T10:00:00+05:30")
      (d ++ "T10:30:00+05:30") calendar_data priorities parsed_info = Ok s10 /\
    DeepSeek.conflicts s9
    = [{| DeepSeek.participant := who;
          DeepSeek.event := summary;
          DeepSeek.severity := w * 5;
          DeepSeek.priority_level :=
            match priorities !! who with
            | Some p => DeepSeek.level p
            | None => "standard"%string
            end |}] /\
    DeepSeek.conflicts s10 = [] /\
    DeepSeek.total_score s9 = DeepSeek.total_score s10 - w * 5 /\
    forall (l : list DeepSeek.OptimalSlot) slot9 slot10,
      In slot9 l -> In slot10 l ->
      DeepSeek.score slot9 = DeepSeek.total_score s9 ->
      DeepSeek.score slot10 = DeepSeek.total_score s10 ->
      exists l1 l2 l3,
        DeepSeek.sort_by_score l = l1 ++ slot10 :: l2 ++ slot9 :: l3.
Proof.
  intros d busy calendar_data priorities w Hbefore Hafter.
  assert (Hw : 5 <= w <= 10).
  { subst w. destruct (priorities !! who) as [p|] eqn:Hp; [|lia].
    apply analyzed_priority in Hp. subst p. apply priority_weight_range. }
  assert (H9 : DeepSeek.hour_of (d ++ "T09:00:00+05:30") = Ok 9).
  { apply (hour_of_slot_start start_time 9). simpl. auto. }
  assert (H10 : DeepSeek.hour_of (d ++ "T10:00:00+05:30") = Ok 10).
  { apply (hour_of_slot_start start_time 10). simpl. auto. }
  unfold DeepSeek._calculate_slot_score. subst calendar_data.
  rewrite !score_single_event by assumption.
  rewrite H9, H10. cbn [rbind].
  unfold DeepSeek.score_event, DeepSeek.overlaps. subst busy.
  cbn [DeepSeek.StartTime DeepSeek.EndTime DeepSeek.Summary].
  rewrite !ltb_common_prefix.
  change (String.ltb "T09:00:00+05:30" "T10:00:00+05:30") with true.
  change (String.ltb "T09:00:00+05:30" "T09:30:00+05:30") with true.
  change (String.ltb "T10:00:00+05:30" "T10:00:00+05:30") with false.
  cbn [andb].
  fold w.
  eexists _, _. split; [reflexivity|]. split; [reflexivity|].
  unfold DeepSeek.add_bonus.
  destruct (DeepSeek.get_is parsed_info "optimal_time_preference" "morning"),
    (DeepSeek.get_is parsed_info "optimal_time_preference" "afternoon"),
    (DeepSeek.get_is parsed_info "urgency" "high"),
    (DeepSeek.get_is parsed_info "meeting_complexity" "complex");
    cbn -[Z.mul];
    (split; [reflexivity|]); (split; [reflexivity|]);
    (assert (Hlt : forall a b : Z, a = b - w * 5 -> a < b) by (intros; lia));
    (split; [lia|]);
    intros l slot9 slot10 Hin9 Hin10 Hs9 Hs10;
    (apply ranked_before;
     [apply sort_by_score_sorted
     |eapply Permutation_in; [apply sort_by_score_Permutation | exact Hin9]
     |eapply Permutation_in; [apply sort_by_score_Permutation | exact Hin10]
     |rewrite Hs9, Hs10; cbn -[Z.mul]; lia]).
Qed.

(** The theorem on 17 July 2025, with X the second of two participants. *)
Lemma conflict_at_nine_not_at_ten_witness :
  exists s9 s10,
    DeepSeek._calculate_slot_score "2025-07-17T09:00:00+05:30"
      "2025-07-17T09:30:00+05:30"
      [("userone.amd@gmail.com"%string, []);
       ("lead.two@gmail.com"%string,
        [{| DeepSeek.StartTime := "2025-07-17T09:00:00+05:30";
            DeepSeek.EndTime := "2025-07-17T10:00:00+05:30";
            DeepSeek.NumAttendees := 2;
            DeepSeek.Attendees := ["SELF"%string];
            DeepSeek.Summary := "Standup" |}])]
      (DeepSeek._analyze_participant_priorities
         ["userone.amd@gmail.com"; "lead.two@gmail.com"]%string)
      ∅ = Ok s9 /\
    DeepSeek._calculate_slot_score "2025-07-17T10:00:00+05:30"
      "2025-07-17T10:30:00+05:30"
      [("userone.amd@gmail.com"%string, []);
       ("lead.two@gmail.com"%string,
        [{| DeepSeek.StartTime := "2025-07-17T09:00:00+05:30";
            DeepSeek.EndTime := "2025-07-17T10:00:00+05:30";
            DeepSeek.NumAttendees := 2;
            DeepSeek.Attendees := ["SELF"%string];
            DeepSeek.Summary := "Standup" |}])]
      (DeepSeek._analyze_participant_priorities
         ["userone.amd@gmail.com"; "lead.two@gmail.com"]%string)
      ∅ = Ok s10 /\
    length (DeepSeek.conflicts s9) = 1%nat /\
    DeepSeek.conflicts s10 = [] /\
    DeepSeek.total_score s9 = DeepSeek.total_score s10 - 40.
Proof.
  destruct (conflict_at_nine_not_at_ten "2025-07-17T00:00:00+05:30"
              "lead.two@gmail.com" "Standup" ["SELF"%string] 2
              ["userone.amd@gmail.com"; "lead.two@gmail.com"]%string
              [("userone.amd@gmail.com"%string, [])] [] ∅)
    as (s9 & s10 & H9 & H10 & Hc9 & Hc10 & Hscore & _).
  - repeat constructor.
  - constructor.
  - exists s9, s10.
    split; [exact H9|]. split; [exact H10|].
    split; [rewrite Hc9; reflexivity|]. split; [exact Hc10|].
    exact Hscore.
Defined.

(** ** Scenario D: the urgency adjustment *)

Section Urgency.
Import AgentService.

(** In [_score_time_slot] an urgent meeting at hour 9 scores strictly higher
    than at hour 15 on the same weekday. *)
Lemma score_time_slot_urgent_early slot9 slot15 requirements :
  dt_hour (slot_start_time slot9) = 9 ->
  dt_hour (slot_start_time slot15) = 15 ->
  dt_weekday (slot_start_time slot9) = dt_weekday (slot_start_time slot15) ->
  req_priority requirements = Some "urgent"%string ->
  PrimFloat.ltb (_score_time_slot slot15 requirements)
                (_score_time_slot slot9 requirements) = true.
Proof.
  intros H9 H15 Hwd Hp. unfold _score_time_slot.
  rewrite H9, H15, Hwd, Hp.
  destruct (dt_weekday (slot_start_time slot15) =? 1),
    (dt_weekday (slot_start_time slot15) =? 2),
    (dt_weekday (slot_start_time slot15) =? 3),
    (dt_weekday (slot_start_time slot15) =? 0),
    (dt_weekday (slot_start_time slot15) =? 4);
    vm_compute; reflexivity.
Qed.

End Urgency.

Section UrgencyExperiment.
Import PyStr DeepSeek.
Local Open Scope string_scope.

(** In [_calculate_slot_score] the urgency bonus is the same at every hour:
    without conflicts, preference bonus and complexity bonus an urgent slot
    scores 115. *)
Lemma slot_score_urgent_flat slot_start slot_end calendar_data priorities
    parsed_info hour :
  hour_of slot_start = Ok hour ->
  Forall (fun entry : string * list Event => snd entry = []) calendar_data ->
  get_is parsed_info "urgency" "high" = true ->
  get_is parsed_info "optimal_time_preference" "morning" = false ->
  get_is parsed_info "optimal_time_preference" "afternoon" = false ->
  get_is parsed_info "meeting_complexity" "complex" = false ->
  _calculate_slot_score slot_start slot_end calendar_data priorities
    parsed_info
  = Ok {| total_score := 115; conflicts := [];
          reasoning := ["Urgency bonus applied"] |}.
Proof.
  intros Hh Hfree Hu Hm Ha Hc. unfold _calculate_slot_score.
  rewrite score_free_participants by exact Hfree.
  rewrite Hh, Hu, Hm, Ha, Hc. reflexivity.
Qed.

End UrgencyExperiment.

(** C6 (as the code has it). In [SchedulingAgent._score_time_slot], for an
    urgent meeting a slot starting at hour 9 scores strictly higher than a slot
    starting at hour 15 on the same weekday.  In
    [DeepSeekSchedulingAgent._calculate_slot_score] the urgency adjustment is a
    flat +15 at every hour: with urgency high, no conflict, no matching
    day-part preference and no complex meeting, the score is 115 whatever the
    hour of the slot. *)
Theorem urgency_adjustment
    (slot9 slot15 : AgentService.SlotDict)
    (requirements : AgentService.Requirements)
    (slot_start slot_end : string)
    (calendar_data : list (string * list DeepSeek.Event))
    (priorities : gmap string DeepSeek.Priority)
    (parsed_info : gmap string string) (hour : Z) :
  AgentService.dt_hour (AgentService.slot_start_time slot9) = 9 ->
  AgentService.dt_hour (AgentService.slot_start_time slot15) = 15 ->
  AgentService.dt_weekday (AgentService.slot_start_time slot9)
  = AgentService.dt_weekday (AgentService.slot_start_time slot15) ->
  AgentService.req_priority requirements = Some "urgent"%string ->
  DeepSeek.hour_of slot_start = Ok hour ->
  Forall (fun entry : string * list DeepSeek.Event => snd entry = [])
    calendar_data ->
  DeepSeek.get_is parsed_info "urgency" "high" = true ->
  DeepSeek.get_is parsed_info "optimal_time_preference" "morning" = false ->
  DeepSeek.get_is parsed_info "optimal_time_preference" "afternoon" = false ->
  DeepSeek.get_is parsed_info "meeting_complexity" "complex" = false ->
  PrimFloat.ltb (AgentService._score_time_slot slot15 requirements)
                (AgentService._score_time_slot slot9 requirements) = true /\
  DeepSeek.total_score <$>
    match DeepSeek._calculate_slot_score slot_start slot_end calendar_data
            priorities parsed_info with
    | Ok sc => Some sc
    | Raise _ => None
    end = Some 115.
Proof.
  intros H9 H15 Hwd Hp Hh Hfree Hu Hm Ha Hc. split.
  - apply score_time_slot_urgent_early; assumption.
  - rewrite (slot_score_urgent_flat _ _ _ _ _ hour) by assumption.
    reflexivity.
Qed.

(** The theorem at Thursday 17 July 2025 (day 739448 of the calendar), 09:00
    and 15:00, and at the 15:00 slot of the experiment agent. *)
Lemma urgency_adjustment_witness :
  PrimFloat.ltb
    (AgentService._score_time_slot
       {| AgentService.slot_start_time :=
            {| wall := 739448 * 86400 + 15 * 3600; tzinfo := None |};
          AgentService.slot_end_time :=
            {| wall := 739448 * 86400 + 15 * 3600 + 1800; tzinfo := None |};
          AgentService.duration_minutes := 30 |}
       {| AgentService.req_duration_minutes := Some 30;
          AgentService.req_priority := Some "urgent"%string |})
    (AgentService._score_time_slot
       {| AgentService.slot_start_time :=
            {| wall := 739448 * 86400 + 9 * 3600; tzinfo := None |};
          AgentService.slot_end_time :=
            {| wall := 739448 * 86400 + 9 * 3600 + 1800; tzinfo := None |};
          AgentService.duration_minutes := 30 |}
       {| AgentService.req_duration_minutes := Some 30;
          AgentService.req_priority := Some "urgent"%string |}) = true /\
  DeepSeek.total_score <$>
    match DeepSeek._calculate_slot_score "2025-07-17T15:00:00+05:30"
            "2025-07-17T15:30:00+05:30"
            [("userone.amd@gmail.com"%string, [])] ∅
            {["urgency"%string := "high"%string]} with
    | Ok sc => Some sc
    | Raise _ => None
    end = Some 115.
Proof.
  apply (urgency_adjustment _ _ _ _ _ _ _ _ 15);
    try reflexivity.
  repeat constructor.
Defined.

(** C6 fails as stated on the scorer of the experiment agent.  For an urgent
    meeting with no conflict, no day-part preference and no complex agenda the
    candidates at 09:00 and at 15:00 get the same score, 115: the one at 09:00
    is not strictly higher. *)
Lemma urgency_counterexample :
  DeepSeek._calculate_slot_score "2025-07-17T09:00:00+05:30"
    "2025-07-17T09:30:00+05:30" [] ∅ {["urgency"%string := "high"%string]}
  = Ok {| DeepSeek.total_score := 115; DeepSeek.conflicts := [];
          DeepSeek.reasoning := ["Urgency bonus applied"%string] |} /\
  DeepSeek._calculate_slot_score "2025-07-17T15:00:00+05:30"
    "2025-07-17T15:30:00+05:30" [] ∅ {["urgency"%string := "high"%string]}
  = Ok {| DeepSeek.total_score := 115; DeepSeek.conflicts := [];
          DeepSeek.reasoning := ["Urgency bonus applied"%string] |}.
Proof. split; reflexivity. Qed.

(** ** The conflict resolver *)

Section Resolver.
Import PyStr DeepSeek.
Local Open Scope string_scope.

Lemma evaluate_hours_length f hours acc l :
  evaluate_hours f hours acc = Ok l ->
  length l = (length acc + length hours)%nat.
Proof.
  revert acc. induction hours as [|h hours IH]; intros acc; simpl.
  - intros [= <-]. lia.
  - destruct (f h) as [slot|e]; simpl; [|discriminate].
    intros H. apply IH in H. rewrite length_app in H. simpl in H. lia.
Qed.

Lemma candidate_times_nonempty parsed_info :
  candidate_times parsed_info <> [].
Proof.
  unfold candidate_times.
  destruct (str_in "11:00" _); [|destruct (String.eqb _ "morning");
    [|destruct (String.eqb _ "afternoon")]]; discriminate.
Qed.

Lemma optimal_time_slots_ranked start_time end_time duration parsed_info
    calendar_data priorities slots :
  _calculate_optimal_time_slots start_time end_time duration parsed_info
    calendar_data priorities = Ok slots ->
  StronglySorted scores_ge slots /\ slots <> [].
Proof.
  unfold _calculate_optimal_time_slots.
  destruct (evaluate_hours _ _ _) as [l|e] eqn:Hl; simpl; [|discriminate].
  intros [= <-]. split; [apply sort_by_score_sorted|].
  apply evaluate_hours_length in Hl.
  pose proof (candidate_times_nonempty parsed_info) as Hne.
  pose proof (Permutation_length (sort_by_score_Permutation l)) as Hlen.
  destruct (candidate_times parsed_info); [contradiction|].
  destruct (sort_by_score l); [simpl in *; lia | discriminate].
Qed.

Lemma resolution_strategy_used optimal_slots calendar_data priorities
    parsed_info :
  strategy_used
    (_intelligent_conflict_resolution optimal_slots calendar_data priorities
       parsed_info)
  = fst (select_strategy (get_or parsed_info "urgency" "medium")
                         (get_or parsed_info "attendee_priority" "medium")).
Proof.
  unfold _intelligent_conflict_resolution.
  destruct (select_strategy _ _). reflexivity.
Qed.

Lemma resolution_recommended_slot optimal_slots calendar_data priorities
    parsed_info :
  recommended_slot
    (_intelligent_conflict_resolution optimal_slots calendar_data priorities
       parsed_info)
  = head optimal_slots.
Proof.
  unfold _intelligent_conflict_resolution.
  destruct (select_strategy _ _). reflexivity.
Qed.

End Resolver.

(** C7. The conflict resolver recommends the candidate at the top of the
    ranking, which for the ranking computed by
    [_calculate_optimal_time_slots] is a candidate of the highest score; and
    it selects the strategy from (urgency, authority), both read with the
    default "medium": high and high gives override_lower_priority, high and
    anything else find_immediate_alternative, anything else and high
    executive_priority, and every other combination
    collaborative_optimization. *)
Theorem resolution_top_ranked_and_strategy
    (start_time end_time : string) (duration : Z)
    (optimal_slots : list DeepSeek.OptimalSlot)
    (calendar_data : list (string * list DeepSeek.Event))
    (priorities : gmap string DeepSeek.Priority)
    (parsed_info : gmap string string) :
  let r := DeepSeek._intelligent_conflict_resolution optimal_slots
             calendar_data priorities parsed_info in
  let urgency := DeepSeek.get_or parsed_info "urgency" "medium" in
  let authority := DeepSeek.get_or parsed_info "attendee_priority" "medium" in
  DeepSeek.recommended_slot r = head optimal_slots /\
  (DeepSeek._calculate_optimal_time_slots start_time end_time duration
     parsed_info calendar_data priorities = Ok optimal_slots ->
   exists best,
     DeepSeek.recommended_slot r = Some best /\
     forall s, In s optimal_slots -> DeepSeek.score s <= DeepSeek.score best) /\
  (urgency = "high"%string -> authority = "high"%string ->
   DeepSeek.strategy_used r = "override_lower_priority"%string) /\
  (urgency = "high"%string -> authority <> "high"%string ->
   DeepSeek.strategy_used r = "find_immediate_alternative"%string) /\
  (urgency <> "high"%string -> authority = "high"%string ->
   DeepSeek.strategy_used r = "executive_priority"%string) /\
  (urgency <> "high"%string -> authority <> "high"%string ->
   DeepSeek.strategy_used r = "collaborative_optimization"%string).
Proof.
  intros r urgency authority. subst r.
  rewrite resolution_recommended_slot, resolution_strategy_used.
  fold urgency authority. unfold DeepSeek.select_strategy.
  split; [reflexivity|]. split.
  - intros Hgen. apply optimal_time_slots_ranked in Hgen as [Hsorted Hne].
    destruct optimal_slots as [|best rest]; [contradiction|].
    exists best. split; [reflexivity|].
    apply sorted_head_is_best; [exact Hsorted | reflexivity].
  - destruct (String.eqb_spec urgency "high") as [Hu|Hu],
      (String.eqb_spec authority "high") as [Ha|Ha]; simpl;
      repeat split; intros; solve [reflexivity | contradiction].
Qed.

(** The theorem on the ranking of 17 July 2025 for three participants with
    the built-in mock calendars, for an urgent morning meeting. *)
Lemma resolution_top_ranked_and_strategy_witness :
  exists slots best,
    DeepSeek._calculate_optimal_time_slots "2025-07-17T00:00:00+05:30"
      "2025-07-17T23:59:59+05:30" 30
      {["urgency"%string := "high"%string]}
      [("usertwo.amd@gmail.com"%string, [DeepSeek.team_meet])] ∅ = Ok slots /\
    DeepSeek.recommended_slot
      (DeepSeek._intelligent_conflict_resolution slots
         [("usertwo.amd@gmail.com"%string, [DeepSeek.team_meet])] ∅
         {["urgency"%string := "high"%string]}) = Some best /\
    (forall s, In s slots -> DeepSeek.score s <= DeepSeek.score best) /\
    DeepSeek.strategy_used
      (DeepSeek._intelligent_conflict_resolution slots
         [("usertwo.amd@gmail.com"%string, [DeepSeek.team_meet])] ∅
         {["urgency"%string := "high"%string]})
    = "find_immediate_alternative"%string.
Proof.
  destruct (DeepSeek._calculate_optimal_time_slots
              "2025-07-17T00:00:00+05:30" "2025-07-17T23:59:59+05:30" 30
              {["urgency"%string := "high"%string]}
              [("usertwo.amd@gmail.com"%string, [DeepSeek.team_meet])] ∅)
    as [slots|e] eqn:Hgen; [|vm_compute in Hgen; discriminate].
  pose proof (resolution_top_ranked_and_strategy
                "2025-07-17T00:00:00+05:30" "2025-07-17T23:59:59+05:30" 30
                slots [("usertwo.amd@gmail.com"%string, [DeepSeek.team_meet])]
                ∅ {["urgency"%string := "high"%string]})
    as (_ & Hbest & _ & Hstrategy & _).
  destruct (Hbest Hgen) as (best & Hrec & Hmax).
  exists slots, best.
  split; [reflexivity|]. split; [exact Hrec|]. split; [exact Hmax|].
  apply Hstrategy; [reflexivity | discriminate].
Defined.

(** ** The candidate generator *)

Section Generator.
Import PyStr DeepSeek.
Local Open Scope string_scope.

Lemma evaluate_hours_all f (g : Z -> string) (P : OptimalSlot -> Prop)
    hours acc :
  (forall h, In h hours -> exists s, f h = Ok s /\ start s = g h /\ P s) ->
  exists l,
    evaluate_hours f hours acc = Ok (acc ++ l)%list /\
    map start l = map g hours /\
    Forall P l.
Proof.
  revert acc. induction hours as [|h hours IH]; intros acc Hf.
  - exists []. simpl. rewrite app_nil_r. repeat split. constructor.
  - destruct (Hf h) as (s & Hs & Hstart & HP); [left; reflexivity|].
    destruct (IH (acc ++ [s])%list) as (l & Hl & Hmap & Hall).
    { intros h' Hin. apply Hf. right. exact Hin. }
    exists (s :: l). simpl. rewrite Hs. simpl.
    rewrite Hl, <- app_assoc. split; [reflexivity|].
    split; [simpl; congruence | constructor; assumption].
Qed.

(** One candidate hour is evaluated to a slot as soon as the end of the slot
    can be computed. *)
Lemma evaluate_hour_returns start_time duration parsed_info calendar_data
    priorities h slot_end :
  In h [9; 10; 11; 14; 15; 16] ->
  slot_end_of (slot_start_of (hd "" (split_on "T" start_time)) h) duration
  = Ok slot_end ->
  exists s,
    evaluate_hour (hd "" (split_on "T" start_time)) duration parsed_info
      calendar_data priorities h = Ok s /\
    start s = slot_start_of (hd "" (split_on "T" start_time)) h /\
    slot_end_of (start s) duration = Ok (end_ s).
Proof.
  intros Hh Hend. unfold evaluate_hour. rewrite Hend. cbn [rbind].
  unfold _calculate_slot_score.
  rewrite (hour_of_slot_start start_time h Hh). cbn [rbind].
  eexists. split; [reflexivity|]. split; [reflexivity | exact Hend].
Qed.

End Generator.

(** C4 (as the code has it). The candidate start hours are determined by the
    requirement: hour 11 alone when the time constraints contain the text
    "11:00" (no other hour is recognised); otherwise 9, 10, 11 for the morning
    preference, 14, 15, 16 for the afternoon preference and 9, 10, 11, 14, 15,
    16 for any other preference.  Whenever the end of each of these slots can
    be computed, the generator returns exactly one candidate for each of these
    hours on the date of [start_time], each ending [duration] minutes after
    its start: nothing is clipped to a window and nothing is discarded. *)
Theorem candidate_hours_from_requirement
    (start_time end_time : string) (duration : Z)
    (parsed_info : gmap string string)
    (calendar_data : list (string * list DeepSeek.Event))
    (priorities : gmap string DeepSeek.Priority) :
  let date_part := hd ""%string (PyStr.split_on "T" start_time) in
  let time_constraints :=
    DeepSeek.get_or parsed_info "time_constraints" "" in
  let time_preference :=
    DeepSeek.get_or parsed_info "optimal_time_preference" "flexible" in
  let hours :=
    if PyStr.str_in "11:00" time_constraints then [11]
    else if String.eqb time_preference "morning" then [9; 10; 11]
    else if String.eqb time_preference "afternoon" then [14; 15; 16]
    else [9; 10; 11; 14; 15; 16] in
  Forall (fun h => exists slot_end,
            DeepSeek.slot_end_of (DeepSeek.slot_start_of date_part h) duration
            = Ok slot_end) hours ->
  exists slots,
    DeepSeek._calculate_optimal_time_slots start_time end_time duration
      parsed_info calendar_data priorities = Ok slots /\
    Permutation (map DeepSeek.start slots)
                (map (DeepSeek.slot_start_of date_part) hours) /\
    Forall (fun s => DeepSeek.slot_end_of (DeepSeek.start s) duration
                     = Ok (DeepSeek.end_ s)) slots.
Proof.
  intros date_part time_constraints time_preference hours Hends.
  change hours with (DeepSeek.candidate_times parsed_info) in *.
  unfold DeepSeek._calculate_optimal_time_slots. fold date_part.
  destruct (evaluate_hours_all
              (DeepSeek.evaluate_hour date_part duration parsed_info
                 calendar_data priorities)
              (DeepSeek.slot_start_of date_part)
              (fun s => DeepSeek.slot_end_of (DeepSeek.start s) duration
                        = Ok (DeepSeek.end_ s))
              (DeepSeek.candidate_times parsed_info) [])
    as (l & Hl & Hmap & Hall).
  { intros h Hin.
    rewrite List.Forall_forall in Hends.
    destruct (Hends h Hin) as (slot_end & Hend).
    apply (evaluate_hour_returns start_time duration parsed_info calendar_data
             priorities h slot_end);
      [exact (candidate_times_business parsed_info h Hin) | exact Hend]. }
  rewrite Hl. cbn [rbind app].
  exists (DeepSeek.sort_by_score l). split; [reflexivity|]. split.
  - rewrite <- Hmap. apply Permutation_map. symmetry.
    apply sort_by_score_Permutation.
  - eapply Permutation_Forall; [apply sort_by_score_Permutation | exact Hall].
Qed.

(** The theorem for a morning meeting on 17 July 2025. *)
Lemma candidate_hours_from_requirement_witness :
  exists slots,
    DeepSeek._calculate_optimal_time_slots "2025-07-17T00:00:00+05:30"
      "2025-07-17T23:59:59+05:30" 30
      {["optimal_time_preference"%string := "morning"%string]} [] ∅
    = Ok slots /\
    Permutation (map DeepSeek.start slots)
                ["2025-07-17T09:00:00+05:30"; "2025-07-17T10:00:00+05:30";
                 "2025-07-17T11:00:00+05:30"]%string /\
    Forall (fun s => DeepSeek.slot_end_of (DeepSeek.start s) 30
                     = Ok (DeepSeek.end_ s)) slots.
Proof.
  refine (candidate_hours_from_requirement "2025-07-17T00:00:00+05:30"
            "2025-07-17T23:59:59+05:30" 30
            {["optimal_time_preference"%string := "morning"%string]} [] ∅ _).
  repeat constructor; eexists; vm_compute; reflexivity.
Defined.

(** C4 fails as stated.  The requirement mentions the hour 14:00 and asks for
    two hours inside the window 09:00-10:00, yet the generator returns the six
    default hours, none of them clipped to the window and none discarded. *)
Lemma candidate_hours_counterexample :
  (fun slots => map (fun s => (DeepSeek.start s, DeepSeek.end_ s)) slots)
  <$> match DeepSeek._calculate_optimal_time_slots
              "2025-07-17T09:00:00+05:30" "2025-07-17T10:00:00+05:30" 120
              {["time_constraints"%string := "at 14:00"%string]} [] ∅ with
      | Ok slots => Some slots
      | Raise _ => None
      end
  = Some [("2025-07-17T09:00:00+05:30", "2025-07-17T11:00:00+05:30");
          ("2025-07-17T10:00:00+05:30", "2025-07-17T12:00:00+05:30");
          ("2025-07-17T11:00:00+05:30", "2025-07-17T13:00:00+05:30");
          ("2025-07-17T14:00:00+05:30", "2025-07-17T16:00:00+05:30");
          ("2025-07-17T15:00:00+05:30", "2025-07-17T17:00:00+05:30");
          ("2025-07-17T16:00:00+05:30", "2025-07-17T18:00:00+05:30")]%string.
Proof. vm_compute. reflexivity. Qed.

(** ** The alternative generator *)

Section Alternatives.
Import PyStr DeepSeek.

Lemma alternatives_fold base_time duration strategies acc :
  fold_left (alternatives_step base_time duration) strategies acc
  = acc ++ flat_map (surviving base_time duration) strategies.
Proof.
  revert acc. induction strategies as [|st strategies IH]; intros acc; simpl.
  - symmetry. apply app_nil_r.
  - rewrite IH. unfold alternatives_step, surviving.
    destruct (try_alternative base_time duration st) as [[a|]|e];
      rewrite <- ?app_assoc, ?app_nil_r; reflexivity.
Qed.

Lemma add_seconds_Ok t n t' :
  PyDatetime.add_seconds t n = Ok t' -> t' = t + n.
Proof.
  unfold PyDatetime.add_seconds.
  destruct (_ && _); [congruence | discriminate].
Qed.

Lemma shift_Ok base_time o t :
  shift base_time o = Ok t -> t = base_time + offset_seconds o.
Proof.
  destruct o; simpl;
    unfold PyDatetime.add_hours, PyDatetime.add_days; apply add_seconds_Ok.
Qed.

(** What is known of an alternative that one strategy contributes. *)
Lemma surviving_inv base_time duration o why a :
  In a (surviving base_time duration (o, why)) ->
  let t := base_time + offset_seconds o in
  shift base_time o = Ok t /\
  9 <= PyDatetime.hour t <= 17 /\
  PyDatetime.add_minutes t duration = Ok (t + 60 * duration) /\
  a = {| alt_start := PyDatetime.strftime_ist t;
         alt_end := PyDatetime.strftime_ist (t + 60 * duration);
         alt_score := if is_one_hour_later o then 85 else 75;
         reason := why |}.
Proof.
  unfold surviving, try_alternative.
  destruct (shift base_time o) as [t|e] eqn:Hshift; simpl; [|contradiction].
  pose proof (shift_Ok _ _ _ Hshift) as ->.
  destruct (Z.leb_spec 9 (PyDatetime.hour (base_time + offset_seconds o)));
    [|contradiction].
  destruct (Z.leb_spec (PyDatetime.hour (base_time + offset_seconds o)) 17);
    [|contradiction].
  cbn [andb].
  destruct (PyDatetime.add_minutes (base_time + offset_seconds o) duration)
    as [t'|e] eqn:Hend; simpl; [|contradiction].
  pose proof Hend as Ht'. unfold PyDatetime.add_minutes in Ht'.
  apply add_seconds_Ok in Ht'. subst t'.
  intros [<-|[]]. repeat split; assumption.
Qed.

Lemma sorted_two_levels (l1 l2 : list Alternative) (hi lo : Z) :
  lo <= hi ->
  Forall (fun a => alt_score a = hi) l1 ->
  Forall (fun a => alt_score a = lo) l2 ->
  StronglySorted alt_scores_ge (l1 ++ l2).
Proof.
  intros Hle H1 H2.
  assert (Hlow : StronglySorted alt_scores_ge l2).
  { induction H2 as [|a l2 Ha H2 IH]; constructor; [exact IH|].
    eapply List.Forall_impl; [|exact H2].
    unfold alt_scores_ge. intros b Hb. lia. }
  induction H1 as [|a l1 Ha H1 IH]; simpl; [exact Hlow|].
  constructor; [exact IH|].
  apply Forall_app. split.
  - eapply List.Forall_impl; [|exact H1].
    unfold alt_scores_ge. intros b Hb. lia.
  - eapply List.Forall_impl; [|exact H2].
    unfold alt_scores_ge. intros b Hb. lia.
Qed.

Lemma sorted_take (n : nat) (l : list Alternative) :
  StronglySorted alt_scores_ge l -> StronglySorted alt_scores_ge (take n l).
Proof.
  intros Hs. revert n. induction Hs as [|a l Hs IH Ha]; intros [|n]; simpl;
    try constructor.
  - apply IH.
  - apply Forall_take. exact Ha.
Qed.

Lemma surviving_score base_time duration o why :
  Forall (fun a => alt_score a = if is_one_hour_later o then 85 else 75)
    (surviving base_time duration (o, why)).
Proof.
  apply List.Forall_forall. intros a Ha.
  apply surviving_inv in Ha as (_ & _ & _ & ->). reflexivity.
Qed.

End Alternatives.

(** C8 (as the code has it). When the recommended start can be read, the
    alternative generator returns at most 3 alternatives, the first three that
    survive among the offsets +1 hour, +2 hours, -1 hour and +1 day applied to
    the recommended start in that order; each keeps the duration and starts at
    an hour from 9 to 17; its score is the constant 85 for +1 hour and 75 for
    the other offsets, computed without the calendar and the requirement; and
    the returned list is in descending order of score. *)
Theorem alternatives_from_fixed_offsets
    (recommended : DeepSeek.OptimalSlot)
    (calendar_data : list (string * list DeepSeek.Event))
    (parsed_info : gmap string string) (duration base_time : Z) :
  PyDatetime.fromisoformat
    (PyStr.remove_all "+05:30" (DeepSeek.start recommended)) = Ok base_time ->
  exists alternatives,
    DeepSeek._generate_intelligent_alternatives (Some recommended)
      calendar_data parsed_info duration = Ok alternatives /\
    alternatives
    = take 3 (flat_map (DeepSeek.surviving base_time duration)
                [(DeepSeek.offset_hours 1,
                  "One hour later - minimal disruption"%string);
                 (DeepSeek.offset_hours 2,
                  "Two hours later - afternoon alternative"%string);
                 (DeepSeek.offset_hours (-1),
                  "One hour earlier - morning alternative"%string);
                 (DeepSeek.offset_days 1,
                  "Next day - same time slot"%string)]) /\
    (length alternatives <= 3)%nat /\
    Forall (fun a => exists o why,
              In (o, why) DeepSeek.alternative_strategies /\
              let t := base_time + DeepSeek.offset_seconds o in
              9 <= PyDatetime.hour t <= 17 /\
              DeepSeek.alt_start a = PyDatetime.strftime_ist t /\
              DeepSeek.alt_end a
              = PyDatetime.strftime_ist (t + 60 * duration) /\
              DeepSeek.alt_score a
              = (if DeepSeek.is_one_hour_later o then 85 else 75) /\
              DeepSeek.reason a = why)
           alternatives /\
    StronglySorted DeepSeek.alt_scores_ge alternatives /\
    forall calendar_data' parsed_info',
      DeepSeek._generate_intelligent_alternatives (Some recommended)
        calendar_data' parsed_info' duration = Ok alternatives.
Proof.
  intros Hbase.
  assert (Hrun : forall cd pi,
            DeepSeek._generate_intelligent_alternatives (Some recommended)
              cd pi duration
            = Ok (take 3 (flat_map (DeepSeek.surviving base_time duration)
                            DeepSeek.alternative_strategies))).
  { intros cd pi. unfold DeepSeek._generate_intelligent_alternatives.
    rewrite Hbase. cbn [rbind]. rewrite alternatives_fold. reflexivity. }
  eexists. split; [apply Hrun|]. split; [reflexivity|].
  split; [rewrite length_take; lia|]. split; [|split].
  - apply Forall_take, List.Forall_forall. intros a Ha.
    apply in_flat_map in Ha as ([o why] & Hin & Ha).
    apply surviving_inv in Ha as (_ & Hhour & _ & ->).
    exists o, why. split; [exact Hin|]. cbn zeta. cbn [DeepSeek.alt_start
      DeepSeek.alt_end DeepSeek.alt_score DeepSeek.reason].
    repeat split; solve [reflexivity | apply Hhour].
  - apply sorted_take. unfold DeepSeek.alternative_strategies.
    cbn [flat_map].
    apply (sorted_two_levels _ _ 85 75);
      [lia
      |exact (surviving_score base_time duration (DeepSeek.offset_hours 1) _)
      |].
    repeat (apply Forall_app; split);
      [exact (surviving_score base_time duration (DeepSeek.offset_hours 2) _)
      |exact (surviving_score base_time duration (DeepSeek.offset_hours (-1)) _)
      |exact (surviving_score base_time duration (DeepSeek.offset_days 1) _)
      |constructor].
  - intros cd pi. apply Hrun.
Qed.

(** The theorem at the 09:00 candidate of 17 July 2025 (day 739448). *)
Lemma alternatives_from_fixed_offsets_witness :
  exists alternatives,
    DeepSeek._generate_intelligent_alternatives (Some Examples.nine_o_clock)
      [] ∅ 30 = Ok alternatives /\
    (length alternatives <= 3)%nat /\
    StronglySorted DeepSeek.alt_scores_ge alternatives.
Proof.
  destruct (alternatives_from_fixed_offsets Examples.nine_o_clock [] ∅ 30
              (739448 * 86400 + 9 * 3600))
    as (alternatives & Hrun & _ & Hlen & _ & Hsorted & _).
  - vm_compute. reflexivity.
  - exists alternatives. auto.
Defined.

(** C8 fails as stated.  For the 09:00 candidate, an empty calendar and an
    empty requirement, the alternative one hour later carries the score 85,
    whereas the slot scorer gives the same slot the score 100: the
    alternatives are not scored by the slot scorer. *)
Lemma alternatives_counterexample :
  DeepSeek._generate_intelligent_alternatives (Some Examples.nine_o_clock)
    [] ∅ 30
  = Ok [{| DeepSeek.alt_start := "2025-07-17T10:00:00+05:30";
           DeepSeek.alt_end := "2025-07-17T10:30:00+05:30";
           DeepSeek.alt_score := 85;
           DeepSeek.reason := "One hour later - minimal disruption" |};
        {| DeepSeek.alt_start := "2025-07-17T11:00:00+05:30";
           DeepSeek.alt_end := "2025-07-17T11:30:00+05:30";
           DeepSeek.alt_score := 75;
           DeepSeek.reason := "Two hours later - afternoon alternative" |};
        {| DeepSeek.alt_start := "2025-07-18T09:00:00+05:30";
           DeepSeek.alt_end := "2025-07-18T09:30:00+05:30";
           DeepSeek.alt_score := 75;
           DeepSeek.reason := "Next day - same time slot" |}] /\
  DeepSeek._calculate_slot_score "2025-07-17T10:00:00+05:30"
    "2025-07-17T10:30:00+05:30" [] ∅ ∅
  = Ok {| DeepSeek.total_score := 100; DeepSeek.conflicts := [];
          DeepSeek.reasoning := [] |}.
Proof. split; vm_compute; reflexivity. Qed.

(** * Part III: further properties of the modelled code *)

(** ** [GoogleService._calculate_free_slots] with overlapping busy slots *)

Section FreeSlotsMore.
Import GoogleService.




End FreeSlotsMore.





(** ** The common slots of [_analyze_optimal_slots] *)

Section CommonSlots.
Import AgentService.

Lemma dt_lt_Ok a b r :
  dt_lt a b = Ok r -> r = (stamp a <? stamp b).
Proof.
  unfold dt_lt, stamp. destruct (tzinfo a), (tzinfo b); congruence.
Qed.

Lemma dt_max_Ok a b m :
  dt_max a b = Ok m -> stamp a <= stamp m /\ stamp b <= stamp m.
Proof.
  unfold dt_max. destruct (dt_lt a b) as [r|e] eqn:Hlt; simpl; [|discriminate].
  apply dt_lt_Ok in Hlt. subst r. intros [= <-].
  destruct (Z.ltb_spec (stamp a) (stamp b)); lia.
Qed.

Lemma dt_min_Ok a b m :
  dt_min a b = Ok m -> stamp m <= stamp a /\ stamp m <= stamp b.
Proof.
  unfold dt_min. destruct (dt_lt b a) as [r|e] eqn:Hlt; simpl; [|discriminate].
  apply dt_lt_Ok in Hlt. subst r. intros [= <-].
  destruct (Z.ltb_spec (stamp b) (stamp a)); lia.
Qed.

Lemma stamp_add_minutes d n :
  stamp (dt_add_minutes d n) = stamp d + 60 * n.
Proof. unfold stamp, dt_add_minutes. simpl. destruct (tzinfo d); lia. Qed.

Lemma within_trans a b c : within a b -> within b c -> within a c.
Proof. unfold within. lia. Qed.

(** An overlap that is kept lies within both slots and lasts the required
    duration. *)
Lemma overlap_of_sound d c p s :
  overlap_of d c p = Ok (Some s) -> within s c /\ within s p /\ lasts d s.
Proof.
  unfold overlap_of.
  destruct (dt_max _ _) as [os|e] eqn:Hmax; simpl; [|discriminate].
  destruct (dt_min _ _) as [oe|e] eqn:Hmin; simpl; [|discriminate].
  destruct (dt_lt os oe) as [r|e] eqn:Hlt; simpl; [|discriminate].
  destruct r; [|discriminate].
  destruct (Z.leb_spec (60 * d) (stamp oe - stamp os)); [|discriminate].
  intros [= <-].
  apply dt_max_Ok in Hmax. apply dt_min_Ok in Hmin.
  unfold within, lasts. simpl. rewrite stamp_add_minutes.
  repeat split; lia.
Qed.

Lemma inner_loop_sound d c ps0 ps acc l (P : SlotDict -> Prop) :
  inner_loop d c ps acc = Ok l ->
  Forall P acc ->
  (forall s, within s c /\ (exists f, In f ps /\ within s f) /\ lasts d s ->
             P s) ->
  ps0 = ps ->
  Forall P l.
Proof.
  intros Hrun Hacc HP _. revert acc Hrun Hacc.
  induction ps as [|p ps IH]; intros acc Hrun Hacc; simpl in Hrun.
  - injection Hrun as <-. exact Hacc.
  - destruct (overlap_of d c p) as [o|e] eqn:Ho; simpl in Hrun;
      [|discriminate].
    apply IH in Hrun; [exact Hrun | |].
    + intros s (Hc & (f & Hin & Hf) & Hd). apply HP.
      split; [exact Hc|]. split; [|exact Hd]. exists f. split; [right|]; auto.
    + destruct o as [s|]; [|exact Hacc].
      apply Forall_app. split; [exact Hacc|].
      constructor; [|constructor].
      apply overlap_of_sound in Ho as (Hc & Hp & Hd).
      apply HP. split; [exact Hc|]. split; [|exact Hd].
      exists p. split; [left; reflexivity | exact Hp].
Qed.

Lemma outer_loop_sound d cs ps acc l :
  outer_loop d cs ps acc = Ok l ->
  Forall (sound_for d cs ps) acc ->
  Forall (sound_for d cs ps) l.
Proof.
  assert (Hgen : forall cs0 cs' acc,
            (forall x, In x cs' -> In x cs0) ->
            outer_loop d cs' ps acc = Ok l ->
            Forall (sound_for d cs0 ps) acc ->
            Forall (sound_for d cs0 ps) l).
  { intros cs0 cs'. induction cs' as [|c cs' IH]; intros acc0 Hsub Hrun Hacc;
      simpl in Hrun.
    - injection Hrun as <-. exact Hacc.
    - destruct (inner_loop d c ps acc0) as [acc1|e] eqn:Hin; simpl in Hrun;
        [|discriminate].
      apply (IH acc1); [intros x Hx; apply Hsub; right; exact Hx | exact Hrun|].
      apply (inner_loop_sound d c ps ps acc0 acc1 _ Hin Hacc); [|reflexivity].
      intros s (Hc & Hf & Hd). split; [|split; assumption].
      exists c. split; [apply Hsub; left; reflexivity | exact Hc]. }
  apply Hgen. auto.
Qed.

Lemma intersect_with_sound d others common l :
  intersect_with d common others = Ok l ->
  Forall (fun s => (exists x, In x common /\ within s x) /\
                   forall p, In p others -> free_for s p) l /\
  (others <> [] -> Forall (lasts d) l).
Proof.
  revert common. induction others as [|p others IH]; intros common Hrun;
    simpl in Hrun.
  - injection Hrun as <-. split; [|congruence].
    apply List.Forall_forall. intros s Hs. split; [|contradiction].
    exists s. split; [exact Hs | unfold within; lia].
  - destruct (outer_loop d common (data_free_slots p) []) as [new|e] eqn:Hout;
      simpl in Hrun; [|discriminate].
    apply outer_loop_sound in Hout; [|constructor].
    destruct (IH new Hrun) as [Hall Hlast]. split.
    + rewrite List.Forall_forall in *. intros s Hs.
      destruct (Hall s Hs) as [(x & Hx & Hsx) Hothers].
      destruct (Hout x Hx) as ((c & Hc & Hxc) & (f & Hf & Hxf) & _).
      split.
      * exists c. split; [exact Hc | exact (within_trans _ _ _ Hsx Hxc)].
      * intros q [<-|Hq]; [|apply Hothers, Hq].
        exists f. split; [exact Hf | exact (within_trans _ _ _ Hsx Hxf)].
    + intros _. destruct others as [|q others].
      * simpl in Hrun. injection Hrun as <-.
        eapply List.Forall_impl; [|exact Hout]. intros s (_ & _ & Hd). exact Hd.
      * apply Hlast. discriminate.
Qed.

Lemma common_slots_sound d data l :
  common_slots_of d data = Ok l ->
  Forall (fun s => forall p, In p data -> free_for s p) l.
Proof.
  destruct data as [|first others]; simpl.
  - intros [= <-]. constructor.
  - intros Hrun. apply intersect_with_sound in Hrun as [Hall _].
    eapply List.Forall_impl; [|exact Hall].
    intros s [(x & Hx & Hsx) Hothers] p [<-|Hp]; [|apply Hothers, Hp].
    exists x. split; assumption.
Qed.



End CommonSlots.

(** X3. Whatever the order of the participants, every common slot that the
    intersection returns lies within a free slot of every participant; with
    two participants or more it lasts exactly the required duration. *)
Theorem common_slots_free_for_everyone
    (required_duration : Z)
    (availability_data : list AgentService.ParticipantData)
    (common_slots : list AgentService.SlotDict) :
  AgentService.common_slots_of required_duration availability_data
  = Ok common_slots ->
  Forall (fun s => forall p, In p availability_data ->
                             AgentService.free_for s p) common_slots /\
  ((2 <= length availability_data)%nat ->
   Forall (AgentService.lasts required_duration) common_slots).
Proof.
  intros Hrun. split; [apply (common_slots_sound _ _ _ Hrun)|].
  destruct availability_data as [|first [|second others]]; simpl;
    [lia | lia |].
  intros _. unfold AgentService.common_slots_of in Hrun.
  apply intersect_with_sound in Hrun as [_ Hlast]. apply Hlast. discriminate.
Qed.

(** The theorem at Alice, Carol and Bob. *)
Lemma common_slots_free_for_everyone_witness :
  Forall (fun s => forall p,
            In p [Examples.alice; Examples.carol; Examples.bob] ->
            AgentService.free_for s p)
    [{| AgentService.slot_start_time := Examples.at_minute 10;
        AgentService.slot_end_time := Examples.at_minute 40;
        AgentService.duration_minutes := 30 |}] /\
  ((2 <= 3)%nat ->
   Forall (AgentService.lasts 30)
     [{| AgentService.slot_start_time := Examples.at_minute 10;
         AgentService.slot_end_time := Examples.at_minute 40;
         AgentService.duration_minutes := 30 |}]).
Proof.
  apply (common_slots_free_for_everyone 30
           [Examples.alice; Examples.carol; Examples.bob]).
  reflexivity.
Defined.

(** X4. A participant without any free slot, as a failed fetch leaves one,
    empties the intersection: whenever the common slots are computed, there
    are none. *)
Theorem no_free_slot_no_common_slot
    (required_duration : Z)
    (availability_data : list AgentService.ParticipantData)
    (common_slots : list AgentService.SlotDict)
    (p : AgentService.ParticipantData) :
  AgentService.common_slots_of required_duration availability_data
  = Ok common_slots ->
  In p availability_data ->
  AgentService.data_free_slots p = [] ->
  common_slots = [].
Proof.
  intros Hrun Hp Hnone.
  apply common_slots_sound in Hrun.
  destruct common_slots as [|s rest]; [reflexivity|].
  apply Forall_cons_1 in Hrun as [Hs _].
  destruct (Hs p Hp) as (f & Hf & _). rewrite Hnone in Hf. contradiction.
Qed.

(** The theorem at Alice and a participant whose calendar could not be
    fetched. *)
Lemma no_free_slot_no_common_slot_witness :
  exists common_slots,
    AgentService.common_slots_of 30
      [Examples.alice;
       {| AgentService.data_email := "a@x.com";
          AgentService.data_free_slots := [] |}] = Ok common_slots /\
    common_slots = [].
Proof.
  destruct (AgentService.common_slots_of 30
              [Examples.alice;
               {| AgentService.data_email := "a@x.com";
                  AgentService.data_free_slots := [] |}])
    as [common_slots|e] eqn:Hrun; [|vm_compute in Hrun; discriminate].
  exists common_slots. split; [reflexivity|].
  apply (no_free_slot_no_common_slot 30 _ common_slots
           {| AgentService.data_email := "a@x.com";
              AgentService.data_free_slots := [] |} Hrun).
  - right. left. reflexivity.
  - reflexivity.
Defined.


(** ** [_score_time_slot]: lunch time against the morning *)

(** X6. On one weekday and for one requirement, whatever its priority, a slot
    that starts at 12 or 13 scores strictly less than a slot that starts at 9,
    10 or 11. *)
Theorem lunch_scores_below_morning
    (morning lunch : AgentService.SlotDict)
    (requirements : AgentService.Requirements) :
  9 <= AgentService.dt_hour (AgentService.slot_start_time morning) <= 11 ->
  12 <= AgentService.dt_hour (AgentService.slot_start_time lunch) <= 13 ->
  AgentService.dt_weekday (AgentService.slot_start_time morning)
  = AgentService.dt_weekday (AgentService.slot_start_time lunch) ->
  PrimFloat.ltb (AgentService._score_time_slot lunch requirements)
                (AgentService._score_time_slot morning requirements) = true.
Proof.
  intros Hm Hl Hwd. unfold AgentService._score_time_slot. rewrite Hwd.
  cbv zeta.
  set (priority := match AgentService.req_priority requirements with
                   | Some p => p
                   | None => "medium"%string
                   end).
  assert (Hm' : AgentService.dt_hour (AgentService.slot_start_time morning) = 9
                \/ AgentService.dt_hour (AgentService.slot_start_time morning)
                   = 10
                \/ AgentService.dt_hour (AgentService.slot_start_time morning)
                   = 11) by lia.
  assert (Hl' : AgentService.dt_hour (AgentService.slot_start_time lunch) = 12
                \/ AgentService.dt_hour (AgentService.slot_start_time lunch)
                   = 13) by lia.
  destruct (String.eqb priority "urgent"), (String.eqb priority "low");
    destruct (AgentService.dt_weekday (AgentService.slot_start_time lunch)
              =? 1),
      (AgentService.dt_weekday (AgentService.slot_start_time lunch) =? 2),
      (AgentService.dt_weekday (AgentService.slot_start_time lunch) =? 3),
      (AgentService.dt_weekday (AgentService.slot_start_time lunch) =? 0),
      (AgentService.dt_weekday (AgentService.slot_start_time lunch) =? 4);
    destruct Hm' as [-> | [-> | ->]], Hl' as [-> | ->];
    vm_compute; reflexivity.
Qed.

(** The theorem at Thursday 17 July 2025, 10:00 against 12:00. *)
Lemma lunch_scores_below_morning_witness :
  PrimFloat.ltb
    (AgentService._score_time_slot
       {| AgentService.slot_start_time :=
            {| wall := 739448 * 86400 + 12 * 3600; tzinfo := None |};
          AgentService.slot_end_time :=
            {| wall := 739448 * 86400 + 12 * 3600 + 1800; tzinfo := None |};
          AgentService.duration_minutes := 30 |}
       {| AgentService.req_duration_minutes := Some 30;
          AgentService.req_priority := Some "low"%string |})
    (AgentService._score_time_slot
       {| AgentService.slot_start_time :=
            {| wall := 739448 * 86400 + 10 * 3600; tzinfo := None |};
          AgentService.slot_end_time :=
            {| wall := 739448 * 86400 + 10 * 3600 + 1800; tzinfo := None |};
          AgentService.duration_minutes := 30 |}
       {| AgentService.req_duration_minutes := Some 30;
          AgentService.req_priority := Some "low"%string |}) = true.
Proof.
  apply lunch_scores_below_morning.
  - vm_compute. split; discriminate.
  - vm_compute. split; discriminate.
  - reflexivity.
Defined.

(** ** [confirm_meeting]: what it leaves alone *)

(** X7. A confirmation touches no proposal but the one it names and never
    changes the request or the suggested slots of that one; when it reports a
    failure, the whole proposal store is as it was. *)
Theorem confirm_meeting_frame
    (create : AgentService.CalendarEvent -> AgentService.insert_reply)
    (w w' : AgentService.World) (proposal_id : string) (slot_index : Z)
    (out : AgentService.Confirmation) :
  AgentService.confirm_meeting create w proposal_id slot_index
  = Ok (out, w') ->
  (forall other, other <> proposal_id ->
     AgentService.proposals w' !! other = AgentService.proposals w !! other) /\
  (forall p, AgentService.proposals w !! proposal_id = Some p ->
     exists p',
       AgentService.proposals w' !! proposal_id = Some p' /\
       AgentService.meeting_request p' = AgentService.meeting_request p /\
       AgentService.suggested_slots p' = AgentService.suggested_slots p) /\
  (AgentService.proposals w !! proposal_id = None ->
   AgentService.proposals w' !! proposal_id = None) /\
  (forall error, out = AgentService.Failure error ->
     AgentService.proposals w' = AgentService.proposals w).
Proof.
  unfold AgentService.confirm_meeting.
  destruct (AgentService.proposals w !! proposal_id) as [p|] eqn:Hp.
  - assert (Hsame : forall w0 o,
              AgentService.proposals w0 = AgentService.proposals w ->
              (forall other, other <> proposal_id ->
                 AgentService.proposals w0 !! other
                 = AgentService.proposals w !! other) /\
              (forall q, Some p = Some q ->
                 exists p',
                   AgentService.proposals w0 !! proposal_id = Some p' /\
                   AgentService.meeting_request p'
                   = AgentService.meeting_request q /\
                   AgentService.suggested_slots p'
                   = AgentService.suggested_slots q) /\
              (Some p = None ->
               AgentService.proposals w0 !! proposal_id = None) /\
              (forall error, o = AgentService.Failure error ->
                 AgentService.proposals w0 = AgentService.proposals w)).
    { intros w0 o Hw0. split; [|split; [|split]].
      - intros other _. rewrite Hw0. reflexivity.
      - intros q [= <-]. exists p. rewrite Hw0. auto.
      - discriminate.
      - intros _ _. exact Hw0. }
    destruct (Z.of_nat (length (AgentService.suggested_slots p)) <=? slot_index).
    + intros [= <- <-]. apply Hsame. reflexivity.
    + destruct (AgentService.py_index _ _) as [slot|e]; simpl; [|discriminate].
      destruct (create _) as [eid|msg].
      * intros [= <- <-]. simpl. split; [|split; [|split]].
        -- intros other Hne. apply lookup_insert_ne. congruence.
        -- intros q [= <-]. eexists. rewrite lookup_insert_eq.
           split; [reflexivity|]. split; reflexivity.
        -- discriminate.
        -- discriminate.
      * intros [= <- <-]. apply Hsame. reflexivity.
  - intros [= <- <-]. split; [|split; [|split]].
    + reflexivity.
    + discriminate.
    + intros _. exact Hp.
    + reflexivity.
Qed.

(** The theorem at the confirmation of slot 1 of ["p1"]. *)
Lemma confirm_meeting_frame_witness :
  exists out w',
    AgentService.confirm_meeting Examples.always_inserted
      Examples.confirmed_world "p1" 1 = Ok (out, w') /\
    forall other, other <> "p1"%string ->
      AgentService.proposals w' !! other
      = AgentService.proposals Examples.confirmed_world !! other.
Proof.
  destruct (AgentService.confirm_meeting Examples.always_inserted
              Examples.confirmed_world "p1" 1) as [[out w']|e] eqn:Hrun;
    [|vm_compute in Hrun; discriminate].
  exists out, w'. split; [reflexivity|].
  apply (confirm_meeting_frame Examples.always_inserted
           Examples.confirmed_world w' "p1" 1 out Hrun).
Defined.

(** ** [_analyze_participant_priorities]: lookup *)

Section PrioritiesLookup.
Import DeepSeek.

Lemma priorities_fold_lookup participants (m : gmap string Priority) who :
  fold_left (fun priorities participant =>
               <[participant := priority_of participant]> priorities)
            participants m !! who
  = if bool_decide (who ∈ participants) then Some (priority_of who)
    else m !! who.
Proof.
  revert m. induction participants as [|x xs IH]; intros m; cbn [fold_left].
  - case_bool_decide as H; [|reflexivity].
    apply elem_of_nil in H. contradiction.
  - rewrite IH. rewrite (bool_decide_ext _ _ (elem_of_cons xs who x)).
    destruct (decide (x = who)) as [->|Hne].
    + rewrite (bool_decide_eq_true_2 (who = who \/ who ∈ xs)) by (left; reflexivity).
      rewrite lookup_insert_eq. case_bool_decide; reflexivity.
    + rewrite lookup_insert_ne by exact Hne.
      repeat case_bool_decide; try reflexivity.
      * exfalso. tauto.
      * exfalso. match goal with H : _ \/ _ |- _ => destruct H end;
          [congruence | contradiction].
Qed.

End PrioritiesLookup.

(** X8. The priorities hold an entry for exactly the participants given, and
    the entry of a participant depends on nothing but the address: a level among
    critical, high, medium and standard with the weight 10, 8, 6 or 5 that
    goes with it. *)
Theorem participant_priorities_lookup (participants : list string)
    (who : string) :
  (In who participants ->
   DeepSeek._analyze_participant_priorities participants !! who
   = Some (DeepSeek.priority_of who)) /\
  (~ In who participants ->
   DeepSeek._analyze_participant_priorities participants !! who = None) /\
  In (DeepSeek.level (DeepSeek.priority_of who),
      DeepSeek.weight (DeepSeek.priority_of who))
     [("critical"%string, 10); ("high"%string, 8); ("medium"%string, 6);
      ("standard"%string, 5)].
Proof.
  unfold DeepSeek._analyze_participant_priorities.
  rewrite priorities_fold_lookup. repeat split.
  - intros Hin. rewrite bool_decide_eq_true_2; [reflexivity|].
    apply list_elem_of_In, Hin.
  - intros Hin. rewrite bool_decide_eq_false_2; [apply lookup_empty|].
    intros H. apply Hin, list_elem_of_In, H.
  - unfold DeepSeek.priority_of.
    repeat match goal with
           | |- context [if ?b then _ else _] => destruct b
           end; simpl; auto.
Qed.

(** ** [_calculate_slot_score]: how the score is made up *)

Section ScoreAccounting.
Import PyStr DeepSeek.

Lemma total_severity_app cs c :
  total_severity (cs ++ [c]) = total_severity cs + severity c.
Proof. induction cs as [|x cs IH]; simpl; lia. Qed.

Lemma score_event_accounted slot_start slot_end calendar_data priorities who
    events acc ev :
  In (who, events) calendar_data ->
  accounted calendar_data priorities acc ->
  accounted calendar_data priorities
    (score_event slot_start slot_end who priorities
       (weight_of priorities who) acc ev).
Proof.
  intros Hin (Htot & Hreason & Hrec). unfold score_event.
  destruct (overlaps slot_start slot_end ev); [|repeat split; assumption].
  split; [|split]; cbn [total_score conflicts reasoning].
  - rewrite total_severity_app, Htot. simpl. lia.
  - rewrite map_app, Hreason. reflexivity.
  - apply Forall_app. split; [exact Hrec|].
    constructor; [|constructor]. split; simpl; [|reflexivity].
    exists events. exact Hin.
Qed.

Lemma score_participants_accounted slot_start slot_end calendar_data
    priorities entries acc :
  (forall entry, In entry entries -> In entry calendar_data) ->
  accounted calendar_data priorities acc ->
  accounted calendar_data priorities
    (fold_left (score_participant slot_start slot_end priorities) entries acc).
Proof.
  revert acc. induction entries as [|[who events] entries IH];
    intros acc Hsub Hacc; [exact Hacc|].
  cbn [fold_left]. apply IH; [intros e He; apply Hsub; right; exact He|].
  unfold score_participant. fold (weight_of priorities who).
  assert (Hin : In (who, events) calendar_data) by (apply Hsub; left; reflexivity).
  clear IH Hsub. revert acc Hacc.
  assert (Hgen : forall evs acc,
            accounted calendar_data priorities acc ->
            accounted calendar_data priorities
              (fold_left (score_event slot_start slot_end who priorities
                            (weight_of priorities who)) evs acc)).
  { induction evs as [|ev evs IHe]; intros acc Hacc; [exact Hacc|].
    cbn [fold_left]. apply IHe.
    apply (score_event_accounted _ _ _ _ _ events); assumption. }
  apply Hgen.
Qed.

Lemma total_severity_nonneg calendar_data priorities cs :
  (forall who p, priorities !! who = Some p -> 0 <= weight p) ->
  Forall (well_recorded calendar_data priorities) cs ->
  0 <= total_severity cs.
Proof.
  intros Hw. induction 1 as [|c cs [_ Hc] _ IH]; simpl; [lia|].
  assert (0 <= weight_of priorities (participant c)).
  { unfold weight_of. destruct (priorities !! participant c) eqn:E; [|lia].
    apply (Hw _ _ E). }
  lia.
Qed.

Lemma add_bonus_total cond points note acc :
  total_score (add_bonus cond points note acc)
  = total_score acc + (if cond then points else 0).
Proof. unfold add_bonus. destruct cond; simpl; lia. Qed.

Lemma add_bonus_conflicts cond points note acc :
  conflicts (add_bonus cond points note acc) = conflicts acc.
Proof. unfold add_bonus. destruct cond; reflexivity. Qed.

Lemma add_bonus_reasoning cond points note acc :
  reasoning (add_bonus cond points note acc)
  = reasoning acc ++ (if cond then [note] else []).
Proof.
  unfold add_bonus. destruct cond; simpl; [reflexivity|].
  symmetry. apply app_nil_r.
Qed.

End ScoreAccounting.

(** X9. The score that [_calculate_slot_score] returns is 100, less the
    severities of the conflict records, plus bonuses of at most 30 in all,
    raised to 0 when negative; every conflict record names a participant of the
    calendar data with five times the weight of that participant; and the
    reasoning trail is the conflict lines in the order of the records, followed
    by at most three bonus lines.  When no weight is negative the score is at
    most 130. *)
Theorem slot_score_accounting
    (slot_start slot_end : string)
    (calendar_data : list (string * list DeepSeek.Event))
    (priorities : gmap string DeepSeek.Priority)
    (parsed_info : gmap string string) (sc : DeepSeek.SlotScore) :
  DeepSeek._calculate_slot_score slot_start slot_end calendar_data priorities
    parsed_info = Ok sc ->
  (exists bonus,
     0 <= bonus <= 30 /\
     DeepSeek.total_score sc
     = Z.max 0 (100 - DeepSeek.total_severity (DeepSeek.conflicts sc) + bonus))
  /\
  Forall (DeepSeek.well_recorded calendar_data priorities)
         (DeepSeek.conflicts sc) /\
  (exists bonus_lines,
     DeepSeek.reasoning sc
     = map DeepSeek.conflict_line (DeepSeek.conflicts sc) ++ bonus_lines /\
     (length bonus_lines <= 3)%nat) /\
  0 <= DeepSeek.total_score sc /\
  ((forall who p, priorities !! who = Some p -> 0 <= DeepSeek.weight p) ->
   DeepSeek.total_score sc <= 130).
Proof.
  unfold DeepSeek._calculate_slot_score.
  destruct (DeepSeek.hour_of slot_start) as [hour|e]; cbn [rbind];
    [|discriminate].
  set (acc0 := fold_left _ calendar_data _).
  assert (Hacc : DeepSeek.accounted calendar_data priorities acc0).
  { apply score_participants_accounted; [auto|].
    split; [reflexivity|]. split; [reflexivity | constructor]. }
  destruct Hacc as (Htot & Hreason & Hrec).
  set (cm := DeepSeek.get_is parsed_info "optimal_time_preference" "morning"
             && ((9 <=? hour) && (hour <=? 11))).
  set (ca := DeepSeek.get_is parsed_info "optimal_time_preference" "afternoon"
             && ((14 <=? hour) && (hour <=? 16))).
  set (cu := DeepSeek.get_is parsed_info "urgency" "high").
  set (cc := DeepSeek.get_is parsed_info "meeting_complexity" "complex"
             && ((9 <=? hour) && (hour <=? 11))).
  set (acc1 := if cm
               then DeepSeek.add_bonus true 10
                      "Morning preference bonus applied" acc0
               else DeepSeek.add_bonus ca 10
                      "Afternoon preference bonus applied" acc0).
  assert (H1 : exists b l,
            0 <= b <= 10 /\ (length l <= 1)%nat /\
            DeepSeek.total_score acc1 = DeepSeek.total_score acc0 + b /\
            DeepSeek.conflicts acc1 = DeepSeek.conflicts acc0 /\
            DeepSeek.reasoning acc1 = DeepSeek.reasoning acc0 ++ l).
  { subst acc1. destruct cm; [|destruct ca];
      rewrite ?add_bonus_total, ?add_bonus_conflicts, ?add_bonus_reasoning;
      eexists _, _; repeat split; try reflexivity; simpl; lia. }
  destruct H1 as (b1 & l1 & Hb1 & Hl1 & Ht1 & Hc1 & Hr1).
  clearbody acc1 acc0 cu cc.
  intros [= <-]. cbn [DeepSeek.total_score DeepSeek.conflicts DeepSeek.reasoning].
  rewrite !add_bonus_total, !add_bonus_conflicts, !add_bonus_reasoning.
  rewrite Ht1, Hc1, Hr1, Htot, Hreason.
  assert (Hbonus : 0 <= b1 + (if cu then 15 else 0) + (if cc then 5 else 0)
                   <= 30) by (destruct cu, cc; lia).
  split; [|split; [exact Hrec|split; [|split]]].
  - exists (b1 + (if cu then 15 else 0) + (if cc then 5 else 0)).
    split; [exact Hbonus|]. f_equal. lia.
  - exists (l1 ++ (if cu then ["Urgency bonus applied"%string] else [])
            ++ (if cc then ["Complex meeting morning bonus"%string] else [])).
    split; [rewrite <- !app_assoc; reflexivity|].
    rewrite !length_app. destruct cu, cc; simpl; lia.
  - lia.
  - intros Hw.
    pose proof (total_severity_nonneg calendar_data priorities _ Hw Hrec).
    lia.
Qed.

(** The theorem at the candidate 10:00 of 17 July 2025 with the mock
    calendars. *)
Lemma slot_score_accounting_witness :
  exists sc,
    DeepSeek._calculate_slot_score "2025-07-17T10:00:00+05:30"
      "2025-07-17T10:30:00+05:30"
      [("usertwo.amd@gmail.com"%string, [DeepSeek.team_meet])] ∅ ∅ = Ok sc /\
    0 <= DeepSeek.total_score sc <= 130.
Proof.
  destruct (DeepSeek._calculate_slot_score "2025-07-17T10:00:00+05:30"
              "2025-07-17T10:30:00+05:30"
              [("usertwo.amd@gmail.com"%string, [DeepSeek.team_meet])] ∅ ∅)
    as [sc|e] eqn:Hrun; [|vm_compute in Hrun; discriminate].
  exists sc. split; [reflexivity|].
  destruct (slot_score_accounting _ _ _ _ _ sc Hrun)
    as (_ & _ & _ & Hlow & Hhigh).
  split; [exact Hlow|]. apply Hhigh.
  intros who p Hp. rewrite lookup_empty in Hp. discriminate.
Defined.

(** ** [_calculate_slot_score]: more participants, and a start without a time *)

Section ScoreMore.
Import PyStr DeepSeek.

Lemma score_event_le slot_start slot_end who priorities w acc ev :
  0 <= w ->
  total_score (score_event slot_start slot_end who priorities w acc ev)
  <= total_score acc.
Proof.
  intros Hw. unfold score_event.
  destruct (overlaps slot_start slot_end ev); simpl; lia.
Qed.

Lemma score_participants_le slot_start slot_end priorities entries acc :
  (forall who p, priorities !! who = Some p -> 0 <= weight p) ->
  total_score
    (fold_left (score_participant slot_start slot_end priorities) entries acc)
  <= total_score acc.
Proof.
  intros Hw. revert acc.
  induction entries as [|[who events] entries IH]; intros acc; [simpl; lia|].
  cbn [fold_left]. etransitivity; [apply IH|].
  unfold score_participant.
  assert (Hwho : 0 <= match priorities !! who with
                       | Some p => weight p
                       | None => 5
                       end).
  { destruct (priorities !! who) eqn:E; [apply (Hw _ _ E) | lia]. }
  revert acc. induction events as [|ev events IHe]; intros acc; [simpl; lia|].
  cbn [fold_left]. etransitivity; [apply IHe|].
  apply score_event_le, Hwho.
Qed.

(** The separator occurs in the string exactly when the string splits in
    two parts or more. *)
Lemma split_on_no_separator sep s :
  str_in (String sep EmptyString) s = false -> split_on sep s = [s].
Proof.
  induction s as [|c s IH]; [reflexivity|].
  cbn [str_in String.prefix]. intros H.
  apply orb_false_iff in H as [Hp Hs].
  cbn [split_on]. destruct (Ascii.eqb_spec c sep) as [->|Hne].
  - destruct (ascii_dec sep sep); [|contradiction].
    destruct s; discriminate.
  - rewrite (IH Hs). reflexivity.
Qed.

Lemma split_on_separator sep s :
  str_in (String sep EmptyString) s = true ->
  exists a b rest, split_on sep s = a :: b :: rest.
Proof.
  induction s as [|c s IH]; [discriminate|].
  cbn [str_in String.prefix]. intros H.
  cbn [split_on]. destruct (Ascii.eqb_spec c sep) as [->|Hne].
  - destruct (split_on sep s) as [|b rest] eqn:Hs;
      [exfalso; exact (split_on_nonempty sep s Hs)|].
    exists EmptyString, b, rest. reflexivity.
  - destruct (ascii_dec sep c) as [->|_]; [contradiction|].
    simpl in H. destruct (IH H) as (a & b & rest & ->).
    exists (String c a), b, rest. reflexivity.
Qed.

Lemma int_of_string_not_IndexError s : int_of_string s <> Raise IndexError.
Proof.
  unfold int_of_string. destruct s as [|c s]; [discriminate|].
  generalize 0. generalize (String c s). clear c s.
  induction s as [|c s IH]; intros acc; simpl; [discriminate|].
  destruct (is_digit c); [apply IH | discriminate].
Qed.

Lemma hour_of_IndexError slot_start :
  hour_of slot_start = Raise IndexError
  <-> str_in "T" slot_start = false.
Proof.
  unfold hour_of. split.
  - intros H. destruct (str_in "T" slot_start) eqn:HT; [|reflexivity].
    apply split_on_separator in HT as (a & b & rest & Hs).
    rewrite Hs in H. cbn [item nth_error rbind] in H.
    destruct (split_on ":" b) as [|h r] eqn:Hb;
      [exfalso; exact (split_on_nonempty _ _ Hb)|].
    cbn [item nth_error rbind] in H.
    exfalso. exact (int_of_string_not_IndexError h H).
  - intros HT. rewrite (split_on_no_separator _ _ HT). reflexivity.
Qed.

End ScoreMore.

(** X10. When no weight is negative, participants added to the calendar data,
    whatever their events, never raise the score of a slot. *)
Theorem more_participants_never_raise_score
    (slot_start slot_end : string)
    (calendar_data extra : list (string * list DeepSeek.Event))
    (priorities : gmap string DeepSeek.Priority)
    (parsed_info : gmap string string) (sc sc' : DeepSeek.SlotScore) :
  (forall who p, priorities !! who = Some p -> 0 <= DeepSeek.weight p) ->
  DeepSeek._calculate_slot_score slot_start slot_end calendar_data priorities
    parsed_info = Ok sc ->
  DeepSeek._calculate_slot_score slot_start slot_end (calendar_data ++ extra)
    priorities parsed_info = Ok sc' ->
  DeepSeek.total_score sc' <= DeepSeek.total_score sc.
Proof.
  intros Hw. unfold DeepSeek._calculate_slot_score.
  destruct (DeepSeek.hour_of slot_start) as [hour|e]; cbn [rbind];
    [|discriminate].
  rewrite fold_left_app.
  pose proof (score_participants_le slot_start slot_end priorities extra
                (fold_left (DeepSeek.score_participant slot_start slot_end
                              priorities) calendar_data
                   {| DeepSeek.total_score := 100; DeepSeek.conflicts := [];
                      DeepSeek.reasoning := [] |}) Hw) as Hle.
  intros [= <-] [= <-]. cbn [DeepSeek.total_score].
  rewrite !add_bonus_total.
  destruct (DeepSeek.get_is parsed_info "optimal_time_preference" "morning"
            && ((9 <=? hour) && (hour <=? 11)));
    rewrite ?add_bonus_total; cbn [DeepSeek.total_score]; lia.
Qed.

(** The theorem at the candidate 10:00 of 17 July 2025, when a participant
    with the mock meeting joins an empty calendar. *)
Lemma more_participants_never_raise_score_witness :
  exists sc sc',
    DeepSeek._calculate_slot_score "2025-07-17T10:00:00+05:30"
      "2025-07-17T10:30:00+05:30" [] ∅ ∅ = Ok sc /\
    DeepSeek._calculate_slot_score "2025-07-17T10:00:00+05:30"
      "2025-07-17T10:30:00+05:30"
      [("usertwo.amd@gmail.com"%string, [DeepSeek.team_meet])] ∅ ∅ = Ok sc' /\
    DeepSeek.total_score sc' <= DeepSeek.total_score sc.
Proof.
  destruct (DeepSeek._calculate_slot_score "2025-07-17T10:00:00+05:30"
              "2025-07-17T10:30:00+05:30" [] ∅ ∅)
    as [sc|e] eqn:Hrun; [|vm_compute in Hrun; discriminate].
  destruct (DeepSeek._calculate_slot_score "2025-07-17T10:00:00+05:30"
              "2025-07-17T10:30:00+05:30"
              [("usertwo.amd@gmail.com"%string, [DeepSeek.team_meet])] ∅ ∅)
    as [sc'|e] eqn:Hrun'; [|vm_compute in Hrun'; discriminate].
  exists sc, sc'. split; [reflexivity|]. split; [reflexivity|].
  apply (more_participants_never_raise_score "2025-07-17T10:00:00+05:30"
           "2025-07-17T10:30:00+05:30" []
           [("usertwo.amd@gmail.com"%string, [DeepSeek.team_meet])] ∅ ∅ sc sc').
  - intros who p Hp. rewrite lookup_empty in Hp. discriminate.
  - exact Hrun.
  - exact Hrun'.
Defined.

(** X11. [_calculate_slot_score] raises [IndexError] exactly when the start of
    the slot holds no "T": the time of day cannot be read then, whatever the
    calendar. *)
Theorem slot_score_needs_time_separator
    (slot_start slot_end : string)
    (calendar_data : list (string * list DeepSeek.Event))
    (priorities : gmap string DeepSeek.Priority)
    (parsed_info : gmap string string) :
  DeepSeek._calculate_slot_score slot_start slot_end calendar_data priorities
    parsed_info = Raise IndexError
  <-> PyStr.str_in "T" slot_start = false.
Proof.
  rewrite <- hour_of_IndexError. unfold DeepSeek._calculate_slot_score.
  destruct (DeepSeek.hour_of slot_start) as [hour|e]; cbn [rbind].
  - split; discriminate.
  - split; intros [= ->]; reflexivity.
Qed.

(** ** [_calculate_optimal_time_slots]: ties in the ranking *)

Section RankingTies.
Import PyStr DeepSeek.

Lemma ranked_scores_ge x y : ranked_before_or_tied x y -> score y <= score x.
Proof. unfold ranked_before_or_tied. lia. Qed.

Lemma insert_by_score_stable x l :
  Forall (starts_before x) l ->
  StronglySorted ranked_before_or_tied l ->
  StronglySorted ranked_before_or_tied (insert_by_score x l).
Proof.
  induction l as [|y l IH]; intros Hx Hs; simpl.
  - repeat constructor.
  - apply Forall_cons_1 in Hx as [Hxy Hxl].
    apply StronglySorted_inv in Hs as [Hs Hy].
    destruct (Z.ltb_spec (score x) (score y)) as [Hlt|Hge].
    + constructor; [apply IH; assumption|].
      eapply Permutation_Forall; [apply insert_by_score_Permutation|].
      constructor; [left; exact Hlt | exact Hy].
    + constructor; [constructor; assumption|].
      assert (Hxy' : ranked_before_or_tied x y).
      { destruct (Z.eq_dec (score y) (score x)) as [Heq|Hne];
          [right; split; assumption | left; lia]. }
      constructor; [exact Hxy'|].
      rewrite List.Forall_forall in *. intros z Hz.
      pose proof (ranked_scores_ge _ _ (Hy z Hz)) as Hzy.
      destruct (Z.eq_dec (score z) (score x)) as [Heq|Hne];
        [right; split; [exact Heq | apply Hxl, Hz] | left; lia].
Qed.

Lemma sort_by_score_stable l :
  StronglySorted starts_before l ->
  StronglySorted ranked_before_or_tied (sort_by_score l).
Proof.
  induction 1 as [|x l Hs IH Hx]; simpl; [constructor|].
  apply insert_by_score_stable; [|exact IH].
  eapply Permutation_Forall; [apply sort_by_score_Permutation | exact Hx].
Qed.

Lemma candidate_starts_ascending date_part parsed_info :
  StronglySorted (fun a b => String.ltb a b = true)
    (map (slot_start_of date_part) (candidate_times parsed_info)).
Proof.
  unfold candidate_times.
  destruct (str_in "11:00" _); [|destruct (String.eqb _ "morning");
    [|destruct (String.eqb _ "afternoon")]];
    simpl; repeat constructor; unfold slot_start_of;
    rewrite ltb_common_prefix; reflexivity.
Qed.

Lemma sorted_by_start (l : list OptimalSlot) :
  StronglySorted (fun a b => String.ltb a b = true) (map start l) ->
  StronglySorted starts_before l.
Proof.
  induction l as [|x l IH]; simpl; intros Hs; [constructor|].
  apply StronglySorted_inv in Hs as [Hs Hx].
  constructor; [apply IH, Hs|].
  apply Forall_map in Hx. exact Hx.
Qed.

End RankingTies.

(** X12. The candidates come back ranked by descending score and, at equal
    score, by ascending start: each candidate has a strictly higher score than a
    later one, or the same score and an earlier start. *)
Theorem optimal_time_slots_ties_by_start
    (start_time end_time : string) (duration : Z)
    (parsed_info : gmap string string)
    (calendar_data : list (string * list DeepSeek.Event))
    (priorities : gmap string DeepSeek.Priority)
    (slots : list DeepSeek.OptimalSlot) :
  DeepSeek._calculate_optimal_time_slots start_time end_time duration
    parsed_info calendar_data priorities = Ok slots ->
  StronglySorted DeepSeek.ranked_before_or_tied slots.
Proof.
  unfold DeepSeek._calculate_optimal_time_slots.
  set (date_part := hd ""%string (PyStr.split_on "T" start_time)).
  destruct (DeepSeek.evaluate_hours _ _ _) as [l|e] eqn:Hl; cbn [rbind];
    [|discriminate].
  intros [= <-]. apply sort_by_score_stable, sorted_by_start.
  assert (Hmap : forall hours acc l0,
            DeepSeek.evaluate_hours
              (DeepSeek.evaluate_hour date_part duration parsed_info
                 calendar_data priorities) hours acc = Ok l0 ->
            map DeepSeek.start l0
            = map DeepSeek.start acc
              ++ map (DeepSeek.slot_start_of date_part) hours).
  { induction hours as [|h hours IH]; intros acc l0; simpl.
    - intros [= <-]. symmetry. apply app_nil_r.
    - destruct (DeepSeek.evaluate_hour _ _ _ _ _ h) as [slot|e] eqn:Hh;
        simpl; [|discriminate].
      intros H. rewrite (IH _ _ H), map_app, <- app_assoc. simpl.
      do 2 f_equal. unfold DeepSeek.evaluate_hour in Hh.
      destruct (DeepSeek.slot_end_of _ _); simpl in Hh; [|discriminate].
      destruct (DeepSeek._calculate_slot_score _ _ _ _ _); simpl in Hh;
        [|discriminate].
      injection Hh as <-. reflexivity. }
  rewrite (Hmap _ _ _ Hl). apply candidate_starts_ascending.
Qed.

(** The theorem at 17 July 2025 for the mock calendar of one participant. *)
Lemma optimal_time_slots_ties_by_start_witness :
  exists slots,
    DeepSeek._calculate_optimal_time_slots "2025-07-17T00:00:00+05:30"
      "2025-07-17T23:59:59+05:30" 30 ∅
      [("usertwo.amd@gmail.com"%string, [DeepSeek.team_meet])] ∅ = Ok slots /\
    StronglySorted DeepSeek.ranked_before_or_tied slots.
Proof.
  destruct (DeepSeek._calculate_optimal_time_slots
              "2025-07-17T00:00:00+05:30" "2025-07-17T23:59:59+05:30" 30 ∅
              [("usertwo.amd@gmail.com"%string, [DeepSeek.team_meet])] ∅)
    as [slots|e] eqn:Hgen; [|vm_compute in Hgen; discriminate].
  exists slots. split; [reflexivity|].
  exact (optimal_time_slots_ties_by_start _ _ _ _ _ _ slots Hgen).
Defined.

(** ** [_intelligent_conflict_resolution]: the recommended actions *)

(** X13. The recommended actions always close with the three standard
    actions; the notification of the participants is added in front exactly
    when the recommended slot has conflicts, and the request for conflict
    resolution in front of that exactly when the urgency is high as well.
    Without any candidate nothing is recommended and the reasoning is
    empty. *)
Theorem resolution_recommended_actions
    (optimal_slots : list DeepSeek.OptimalSlot)
    (calendar_data : list (string * list DeepSeek.Event))
    (priorities : gmap string DeepSeek.Priority)
    (parsed_info : gmap string string) :
  let r := DeepSeek._intelligent_conflict_resolution optimal_slots
             calendar_data priorities parsed_info in
  let standard :=
    ["Send calendar invitations"; "Confirm participant availability";
     "Set up meeting preparation materials"]%string in
  let has_conflicts :=
    match head optimal_slots with
    | Some best => negb (Nat.eqb (length (DeepSeek.slot_conflicts best)) 0)
    | None => false
    end in
  let urgent :=
    String.eqb (DeepSeek.get_or parsed_info "urgency" "medium") "high" in
  DeepSeek.conflicts_detected r = has_conflicts /\
  DeepSeek.recommended_actions r
  = (if has_conflicts && urgent
     then ["Request conflict resolution from participants"%string] else [])
    ++ (if has_conflicts
        then ["Notify participants of potential conflicts"%string] else [])
    ++ standard /\
  (optimal_slots = [] ->
   DeepSeek.recommended_slot r = None /\
   DeepSeek.res_reasoning r = ""%string).
Proof.
  unfold DeepSeek._intelligent_conflict_resolution.
  destruct (DeepSeek.select_strategy _ _) as [strategy resolution].
  cbn [DeepSeek.conflicts_detected DeepSeek.recommended_actions
       DeepSeek.recommended_slot DeepSeek.res_reasoning].
  destruct optimal_slots as [|best rest]; cbn [head].
  - repeat split; reflexivity.
  - split; [|split; [|discriminate]].
    + destruct (DeepSeek.slot_conflicts best); reflexivity.
    + destruct (DeepSeek.slot_conflicts best); [reflexivity|].
      cbn [length Nat.ltb Nat.leb Nat.eqb negb andb].
      destruct (String.eqb _ "high"); reflexivity.
Qed.

(** ** [_get_calendar_data]: the keys of the dictionary *)

Section CalendarKeys.
Import DeepSeek.

Lemma dict_set_keys {V : Type} (d : list (string * V)) k v :
  map fst (dict_set d k v)
  = if bool_decide (k ∈ map fst d) then map fst d else map fst d ++ [k].
Proof.
  induction d as [|[k' v'] d IH]; cbn [dict_set map fst].
  - case_bool_decide as H; [|reflexivity].
    apply elem_of_nil in H. contradiction.
  - destruct (String.eqb_spec k' k) as [->|Hne]; cbn [map fst].
    + rewrite bool_decide_eq_true_2 by apply list_elem_of_here. reflexivity.
    + rewrite IH, (bool_decide_ext _ _ (elem_of_cons (map fst d) k k')).
      destruct (decide (k ∈ map fst d)) as [Hin|Hin].
      * rewrite !bool_decide_eq_true_2; [reflexivity | right; exact Hin
                                         | exact Hin].
      * rewrite !bool_decide_eq_false_2; [reflexivity | | exact Hin].
        intros [->|H]; [congruence | contradiction].
Qed.

Lemma calendar_data_loop_keys calendar_api participants start_time end_time
    calendar_data :
  NoDup (map fst calendar_data) ->
  NoDup (map fst (calendar_data_loop calendar_api participants start_time
                    end_time calendar_data)) /\
  forall who,
    In who (map fst (calendar_data_loop calendar_api participants start_time
                       end_time calendar_data))
    <-> In who (map fst calendar_data) \/ In who participants.
Proof.
  revert calendar_data.
  induction participants as [|q participants IH]; intros calendar_data Hnd.
  - simpl. split; [exact Hnd | tauto].
  - cbn [calendar_data_loop].
    match goal with
    | |- context [dict_set calendar_data q ?ev] =>
        destruct (IH (dict_set calendar_data q ev)) as [Hnd' Hkeys]
    end.
    { rewrite dict_set_keys. case_bool_decide as Hq; [exact Hnd|].
      apply NoDup_app. split; [exact Hnd|]. split.
      - intros x Hx [->|[]]%list_elem_of_In. contradiction.
      - repeat constructor. intros []%elem_of_nil. }
    split; [exact Hnd'|]. intros who. rewrite Hkeys, dict_set_keys.
    case_bool_decide as Hq.
    + apply list_elem_of_In in Hq. simpl. split; [tauto|].
      intros [H|[<-|H]]; tauto.
    + rewrite in_app_iff. simpl. tauto.
Qed.

End CalendarKeys.

(** X14. The calendar data hold exactly one entry for each participant given,
    however often the participant is listed, and none for anybody else; the
    entry of a participant whose calendar was read holds the events read. *)
Theorem calendar_data_keys
    (calendar_api : string -> DeepSeek.calendar_api_reply)
    (participants : list string) (start_time end_time : string) :
  let calendar_data :=
    DeepSeek._get_calendar_data calendar_api participants start_time end_time
  in
  NoDup (map fst calendar_data) /\
  (forall who, In who (map fst calendar_data) <-> In who participants) /\
  (forall who events,
     In who participants ->
     calendar_api who = DeepSeek.ApiEvents events ->
     DeepSeek.dict_get calendar_data who = Some events).
Proof.
  unfold DeepSeek._get_calendar_data.
  destruct (calendar_data_loop_keys calendar_api participants start_time
              end_time []) as [Hnd Hkeys]; [constructor|].
  split; [exact Hnd|]. split.
  - intros who. rewrite Hkeys. simpl. tauto.
  - intros who events Hin Hapi.
    rewrite calendar_data_loop_get by (left; exact Hin).
    unfold DeepSeek.events_of. rewrite Hapi. reflexivity.
Qed.

(** ** The analysis of e-mails and the response metadata *)

Section SubstringFacts.
Import PyStr DeepSeek.
Local Open Scope string_scope.

Lemma prefix_app n h : String.prefix n h = true <-> exists q, h = n ++ q.
Proof.
  revert h. induction n as [|a n IH]; intros h.
  - split; [intros _; exists h; reflexivity | destruct h; reflexivity].
  - destruct h as [|b h].
    + split; [discriminate | intros [q Hq]; discriminate].
    + simpl. destruct (ascii_dec a b) as [->|Hne].
      * rewrite IH. split; intros [q Hq]; exists q.
        -- rewrite Hq. reflexivity.
        -- simpl in Hq. injection Hq as Hq. exact Hq.
      * split; [discriminate|]. intros [q Hq]. simpl in Hq.
        injection Hq as Hab _. congruence.
Qed.

Lemma append_assoc_string (a b c : string) : (a ++ b) ++ c = a ++ (b ++ c).
Proof.
  induction a as [|x a IH]; [reflexivity|].
  change (String x ((a ++ b) ++ c) = String x (a ++ b ++ c)).
  f_equal. exact IH.
Qed.

Lemma str_in_prefix n h : String.prefix n h = true -> str_in n h = true.
Proof. intros H. destruct h; cbn [str_in]; rewrite H; reflexivity. Qed.

Lemma str_in_app n h : str_in n h = true <-> exists p q, h = p ++ n ++ q.
Proof.
  split.
  - induction h as [|c h IH]; cbn [str_in]; intros H.
    + apply orb_true_iff in H as [H|H]; [|discriminate].
      apply prefix_app in H as [q Hq]. exists "", q. exact Hq.
    + apply orb_true_iff in H as [H|H].
      * apply prefix_app in H as [q Hq]. exists "", q. exact Hq.
      * destruct (IH H) as (p & q & ->). exists (String c p), q. reflexivity.
  - intros (p & q & ->). induction p as [|c p IH].
    + apply str_in_prefix, prefix_app. exists q. reflexivity.
    + change (str_in n (String c (p ++ n ++ q)) = true).
      cbn [str_in]. rewrite IH. apply orb_true_r.
Qed.

Lemma str_in_trans a b c :
  str_in a b = true -> str_in b c = true -> str_in a c = true.
Proof.
  intros (p' & q' & ->)%str_in_app (p & q & ->)%str_in_app.
  apply str_in_app. exists (p ++ p'), (q' ++ q).
  rewrite !append_assoc_string. reflexivity.
Qed.

Lemma any_in_exists words s :
  any_in words s = true <-> exists w, In w words /\ str_in w s = true.
Proof. unfold any_in. apply existsb_exists. Qed.

Lemma any_in_count words s :
  (0 <? count_in words s)%nat = any_in words s.
Proof.
  unfold count_in, any_in. induction words as [|w words IH]; [reflexivity|].
  simpl. destruct (str_in w s); simpl; [reflexivity | exact IH].
Qed.

Lemma any_in_incl words words' s :
  incl words words' -> any_in words s = true -> any_in words' s = true.
Proof.
  intros Hincl (w & Hw & Hs)%any_in_exists. apply any_in_exists.
  exists w. split; [apply Hincl; exact Hw | exact Hs].
Qed.

End SubstringFacts.

(** X15. A reply that asks for another time is never read as a request to
    reschedule: the phrase holds the rejection keyword no, so the reply is
    a confirmation or a rejection. *)
Theorem reply_another_time_never_reschedule (email_body : string) :
  PyStr.str_in "another time" (PyStr.lower email_body) = true ->
  AgentService._parse_email_response email_body = "confirmation"%string \/
  AgentService._parse_email_response email_body = "rejection"%string.
Proof.
  intros H.
  assert (Hno : PyStr.str_in "no" (PyStr.lower email_body) = true)
    by (apply (str_in_trans _ "another time"); [reflexivity | exact H]).
  unfold AgentService._parse_email_response.
  destruct (existsb _ ["yes"; "confirm"; "accept"; "agree"; "sounds good"]%string);
    [left; reflexivity|].
  right. cbn [existsb]. rewrite Hno. reflexivity.
Qed.

Lemma reply_another_time_never_reschedule_witness :
  AgentService._parse_email_response "Could we find another time?"
  = "confirmation"%string \/
  AgentService._parse_email_response "Could we find another time?"
  = "rejection"%string.
Proof.
  apply (reply_another_time_never_reschedule "Could we find another time?").
  reflexivity.
Defined.

(** X16. The duration computed for a meeting lies between 30 and 120 minutes
    whatever the complexity record, the attendee count, the authority and the
    text: the lower limit of 15 minutes is never reached. *)
Theorem optimal_duration_range (c : DeepSeek.Complexity) (attendee_count : Z)
    (authority content_lower : string) :
  30 <= DeepSeek._calculate_optimal_duration c attendee_count authority
          content_lower <= 120.
Proof.
  unfold DeepSeek._calculate_optimal_duration.
  destruct (String.eqb (DeepSeek.complexity c) "simple");
    [|destruct (String.eqb (DeepSeek.complexity c) "moderate");
      [|destruct (String.eqb (DeepSeek.complexity c) "complex")]];
    destruct (5 <? attendee_count); try destruct (3 <? attendee_count);
    destruct (String.eqb authority "high");
    destruct (DeepSeek.any_in _ content_lower);
    try destruct (DeepSeek.any_in _ content_lower);
    destruct (DeepSeek.prep_needed c); lia.
Qed.

(** X17. When the text asks for something quick, brief or short, or for an
    update, the meeting lasts 30 minutes, or 45 when preparation is needed,
    whatever the complexity, the attendee count and the authority. *)
Theorem quick_meeting_duration (c : DeepSeek.Complexity) (attendee_count : Z)
    (authority content_lower : string) :
  DeepSeek.any_in ["quick"; "brief"; "short"; "update"]%string content_lower
  = true ->
  DeepSeek._calculate_optimal_duration c attendee_count authority content_lower
  = if DeepSeek.prep_needed c then 45 else 30.
Proof.
  intros Hquick. unfold DeepSeek._calculate_optimal_duration.
  rewrite Hquick.
  destruct (String.eqb (DeepSeek.complexity c) "simple");
    [|destruct (String.eqb (DeepSeek.complexity c) "moderate");
      [|destruct (String.eqb (DeepSeek.complexity c) "complex")]];
    destruct (5 <? attendee_count); try destruct (3 <? attendee_count);
    destruct (String.eqb authority "high");
    destruct (DeepSeek.prep_needed c); lia.
Qed.

Lemma quick_meeting_duration_witness :
  DeepSeek._calculate_optimal_duration
    (DeepSeek._analyze_meeting_complexity
       "a quick sync on the system roadmap and the budget" 7)
    7 "medium" "a quick sync on the system roadmap and the budget"
  = 45.
Proof.
  apply (quick_meeting_duration
           (DeepSeek._analyze_meeting_complexity
              "a quick sync on the system roadmap and the budget" 7)
           7 "medium" "a quick sync on the system roadmap and the budget").
  reflexivity.
Defined.

(** X18. A meeting is typed as a technical review only when technical content
    is its single complexity factor, which needs at most two attendees; such a
    meeting is of moderate complexity and needs no preparation. *)
Theorem technical_review_only_small_meetings (content_lower : string)
    (attendee_count : Z) :
  DeepSeek.meeting_type
    (DeepSeek._analyze_meeting_complexity content_lower attendee_count)
  = "technical_review"%string ->
  attendee_count <= 2 /\
  DeepSeek._analyze_meeting_complexity content_lower attendee_count
  = {| DeepSeek.complexity := "moderate";
       DeepSeek.meeting_type := "technical_review";
       DeepSeek.factors := ["technical_content"%string];
       DeepSeek.prep_needed := false |}.
Proof.
  unfold DeepSeek._analyze_meeting_complexity, DeepSeek.complexity_factors_of.
  destruct (0 <? DeepSeek.count_in _ content_lower)%nat;
    destruct (0 <? DeepSeek.count_in _ content_lower)%nat;
    destruct (0 <? DeepSeek.count_in _ content_lower)%nat;
    destruct (Z.ltb_spec 5 attendee_count);
    try destruct (Z.ltb_spec 2 attendee_count);
    cbn; intros Htype; try discriminate Htype;
    (split; [lia | reflexivity]).
Qed.

Lemma technical_review_only_small_meetings_witness :
  2 <= 2 /\
  DeepSeek._analyze_meeting_complexity "review of the system design" 2
  = {| DeepSeek.complexity := "moderate";
       DeepSeek.meeting_type := "technical_review";
       DeepSeek.factors := ["technical_content"%string];
       DeepSeek.prep_needed := false |}.
Proof.
  apply (technical_review_only_small_meetings "review of the system design" 2).
  reflexivity.
Defined.

Section EmailFacts.
Import PyStr DeepSeek.
Local Open Scope string_scope.

Lemma sender_authority_values from_email content_lower :
  _analyze_sender_authority from_email content_lower = "high" \/
  _analyze_sender_authority from_email content_lower = "medium" \/
  _analyze_sender_authority from_email content_lower = "low".
Proof.
  unfold _analyze_sender_authority.
  repeat match goal with
         | |- context [if ?b then _ else _] => destruct b
         end; auto.
Qed.

Lemma urgent_level_high content_lower from_email authority :
  any_in high_urgency_words content_lower = true ->
  urgency_level
    (_multi_factor_urgency_analysis content_lower from_email authority)
  = "high" /\
  90 <= urgency_score
          (_multi_factor_urgency_analysis content_lower from_email authority).
Proof.
  intros Hhigh. unfold _multi_factor_urgency_analysis.
  rewrite any_in_count, Hhigh.
  destruct (String.eqb authority "high");
    [|destruct (String.eqb authority "medium")];
    destruct (any_in ["deadline"; "due"; "timeline"] content_lower);
    destruct (any_in ["client"; "customer"; "revenue"; "budget"] content_lower);
    cbn; (split; [reflexivity | lia]).
Qed.

Lemma low_level_low_authority content_lower from_email authority :
  urgency_level
    (_multi_factor_urgency_analysis content_lower from_email authority)
  = "low" ->
  String.eqb authority "high" = false /\
  String.eqb authority "medium" = false /\
  any_in high_urgency_words content_lower = false /\
  any_in medium_urgency_words content_lower = false /\
  any_in ["deadline"; "due"; "timeline"] content_lower = false /\
  any_in ["client"; "customer"; "revenue"; "budget"] content_lower = false.
Proof.
  unfold _multi_factor_urgency_analysis. rewrite !any_in_count.
  destruct (any_in high_urgency_words content_lower);
    [|destruct (any_in medium_urgency_words content_lower)];
    (destruct (String.eqb authority "high");
     [|destruct (String.eqb authority "medium")]);
    destruct (any_in ["deadline"; "due"; "timeline"] content_lower);
    destruct (any_in ["client"; "customer"; "revenue"; "budget"] content_lower);
    cbn; intros H; try discriminate H; repeat split.
Qed.

Lemma info_urgency {A : Type} email_content from_email (attendees : list A) :
  analysis_info (parse_email_with_deepseek email_content from_email attendees)
  !! "urgency"
  = Some (urgency_level
            (_multi_factor_urgency_analysis (lower email_content) from_email
               (_analyze_sender_authority from_email (lower email_content)))).
Proof. reflexivity. Qed.

Lemma info_attendee_priority {A : Type} email_content from_email
    (attendees : list A) :
  analysis_info (parse_email_with_deepseek email_content from_email attendees)
  !! "attendee_priority"
  = Some (_analyze_sender_authority from_email (lower email_content)).
Proof. reflexivity. Qed.

Lemma info_time_constraints {A : Type} email_content from_email
    (attendees : list A) :
  analysis_info (parse_email_with_deepseek email_content from_email attendees)
  !! "time_constraints"
  = Some (constraints
            (_extract_time_intelligence (lower email_content) email_content)).
Proof. reflexivity. Qed.

Lemma info_time_preference {A : Type} email_content from_email
    (attendees : list A) :
  analysis_info (parse_email_with_deepseek email_content from_email attendees)
  !! "optimal_time_preference"
  = Some (preference
            (_extract_time_intelligence (lower email_content) email_content)).
Proof. reflexivity. Qed.

End EmailFacts.

(** X19. A text that holds one of the high-urgency words is rated as of high
    urgency with a score of at least 90, whoever sends it and whatever the
    authority given. *)
Theorem urgent_word_gives_high_urgency
    (content_lower from_email authority : string) :
  DeepSeek.any_in DeepSeek.high_urgency_words content_lower = true ->
  let urgency_analysis :=
    DeepSeek._multi_factor_urgency_analysis content_lower from_email authority
  in
  DeepSeek.urgency_level urgency_analysis = "high"%string /\
  90 <= DeepSeek.urgency_score urgency_analysis <= 145.
Proof.
  intros Hhigh urgency_analysis.
  destruct (urgent_level_high content_lower from_email authority Hhigh)
    as [Hlevel Hscore].
  split; [exact Hlevel|]. split; [exact Hscore|].
  subst urgency_analysis. unfold DeepSeek._multi_factor_urgency_analysis.
  repeat match goal with
         | |- context [if ?b then _ else _] => destruct b
         end; cbn; lia.
Qed.

Lemma urgent_word_gives_high_urgency_witness :
  let urgency_analysis :=
    DeepSeek._multi_factor_urgency_analysis "we are in a rush" "intern@x.com"
      "low"
  in
  DeepSeek.urgency_level urgency_analysis = "high"%string /\
  90 <= DeepSeek.urgency_score urgency_analysis <= 145.
Proof.
  apply (urgent_word_gives_high_urgency "we are in a rush" "intern@x.com"
           "low").
  reflexivity.
Defined.

(** X20. The analysis of a request rates its urgency as low only when it rates
    the authority of the sender as low, and then the text holds none of the
    high-urgency and none of the medium-urgency words. *)
Theorem low_urgency_needs_low_authority {A : Type}
    (email_content from_email : string) (attendees : list A) :
  let parsed_info :=
    DeepSeek.analysis_info
      (DeepSeek.parse_email_with_deepseek email_content from_email attendees)
  in
  parsed_info !! "urgency"%string = Some "low"%string ->
  parsed_info !! "attendee_priority"%string = Some "low"%string /\
  DeepSeek.any_in DeepSeek.high_urgency_words (PyStr.lower email_content)
  = false /\
  DeepSeek.any_in DeepSeek.medium_urgency_words (PyStr.lower email_content)
  = false.
Proof.
  intros parsed_info. subst parsed_info.
  rewrite info_urgency, info_attendee_priority. intros [= Hlow].
  apply (low_level_low_authority _ from_email) in Hlow
    as (Hh & Hm & Hhw & Hmw & _).
  split; [|split; assumption].
  destruct (sender_authority_values from_email (PyStr.lower email_content))
    as [H|[H|H]]; rewrite H in *; [discriminate Hh | discriminate Hm |].
  reflexivity.
Qed.

Lemma low_urgency_needs_low_authority_witness :
  let parsed_info :=
    DeepSeek.analysis_info
      (DeepSeek.parse_email_with_deepseek "Can we meet on Friday?"
         "intern.joe@x.com" ["a@x.com"%string])
  in
  parsed_info !! "attendee_priority"%string = Some "low"%string /\
  DeepSeek.any_in DeepSeek.high_urgency_words
    (PyStr.lower "Can we meet on Friday?") = false /\
  DeepSeek.any_in DeepSeek.medium_urgency_words
    (PyStr.lower "Can we meet on Friday?") = false.
Proof.
  intros parsed_info.
  apply (low_urgency_needs_low_authority "Can we meet on Friday?"
           "intern.joe@x.com" ["a@x.com"%string]).
  reflexivity.
Defined.

(** X21. The hours that the scheduler tries for an analysed request follow
    from the text alone: 11 when it mentions 11:00 or 11 am, the morning hours
    when it says morning, the afternoon hours when it says afternoon, and all
    six hours otherwise. *)
Theorem candidate_hours_of_email {A : Type}
    (email_content from_email : string) (attendees : list A) :
  DeepSeek.candidate_times
    (DeepSeek.analysis_info
       (DeepSeek.parse_email_with_deepseek email_content from_email attendees))
  = if DeepSeek.any_in ["11:00"; "11 am"]%string (PyStr.lower email_content)
    then [11]
    else if PyStr.str_in "morning" (PyStr.lower email_content)
    then [9; 10; 11]
    else if PyStr.str_in "afternoon" (PyStr.lower email_content)
    then [14; 15; 16]
    else [9; 10; 11; 14; 15; 16].
Proof.
  unfold DeepSeek.candidate_times, DeepSeek.get_or.
  rewrite info_time_constraints, info_time_preference.
  unfold DeepSeek._extract_time_intelligence.
  destruct (DeepSeek.any_in ["11:00"; "11 am"]%string _); [reflexivity|].
  destruct (PyStr.str_in "morning" _); [reflexivity|].
  destruct (PyStr.str_in "afternoon" _); [reflexivity|].
  destruct (DeepSeek.any_in ["tuesday"; "thursday"]%string _);
    [|reflexivity].
  destruct (PyStr.str_in "tuesday" _); reflexivity.
Qed.

(** X22. For a request whose text holds a high-urgency word the resolver uses
    the strategy override_lower_priority when the sender is rated of high
    authority and find_immediate_alternative otherwise, whatever the slots
    and the calendars. *)
Theorem urgent_email_strategy {A : Type}
    (email_content from_email : string) (attendees : list A)
    (optimal_slots : list DeepSeek.OptimalSlot)
    (calendar_data : list (string * list DeepSeek.Event))
    (priorities : gmap string DeepSeek.Priority) :
  DeepSeek.any_in DeepSeek.high_urgency_words (PyStr.lower email_content)
  = true ->
  DeepSeek.strategy_used
    (DeepSeek._intelligent_conflict_resolution optimal_slots calendar_data
       priorities
       (DeepSeek.analysis_info
          (DeepSeek.parse_email_with_deepseek email_content from_email
             attendees)))
  = if String.eqb
         (DeepSeek._analyze_sender_authority from_email
            (PyStr.lower email_content)) "high"
    then "override_lower_priority"%string
    else "find_immediate_alternative"%string.
Proof.
  intros Hhigh. rewrite resolution_strategy_used. unfold DeepSeek.get_or.
  rewrite info_urgency, info_attendee_priority.
  destruct (urgent_level_high (PyStr.lower email_content) from_email
              (DeepSeek._analyze_sender_authority from_email
                 (PyStr.lower email_content)) Hhigh) as [-> _].
  unfold DeepSeek.select_strategy.
  set (authority := DeepSeek._analyze_sender_authority _ _).
  destruct (String.eqb authority "high"); reflexivity.
Qed.

Lemma urgent_email_strategy_witness :
  DeepSeek.strategy_used
    (DeepSeek._intelligent_conflict_resolution [] [] ∅
       (DeepSeek.analysis_info
          (DeepSeek.parse_email_with_deepseek "URGENT: server down"
             "ceo@x.com" ["a@x.com"%string])))
  = if String.eqb
         (DeepSeek._analyze_sender_authority "ceo@x.com"
            (PyStr.lower "URGENT: server down")) "high"
    then "override_lower_priority"%string
    else "find_immediate_alternative"%string.
Proof.
  apply (urgent_email_strategy "URGENT: server down" "ceo@x.com"
           ["a@x.com"%string] [] [] ∅).
  reflexivity.
Defined.

(** X23. Whenever the metadata helper detects high urgency in a text, the
    analysis of the same text in lower case rates the urgency as high too,
    for every sender and authority. *)
Theorem detected_urgency_agrees (text from_email authority : string) :
  DeepSeek._detect_urgency text = "high"%string ->
  DeepSeek.urgency_level
    (DeepSeek._multi_factor_urgency_analysis (PyStr.lower text) from_email
       authority)
  = "high"%string.
Proof.
  unfold DeepSeek._detect_urgency. cbv zeta. intros H.
  apply urgent_level_high.
  destruct (DeepSeek.any_in
              ["urgent"; "asap"; "immediately"; "critical"; "emergency"]%string
              (PyStr.lower text)) eqn:Hany.
  - revert Hany. apply any_in_incl. unfold DeepSeek.high_urgency_words.
    intros w Hw. simpl in *. tauto.
  - destruct (DeepSeek.any_in ["soon"; "quickly"; "priority"; "important"]%string
                (PyStr.lower text)); discriminate H.
Qed.

Lemma detected_urgency_agrees_witness :
  DeepSeek.urgency_level
    (DeepSeek._multi_factor_urgency_analysis
       (PyStr.lower "Please reply ASAP") "intern@x.com" "low")
  = "high"%string.
Proof.
  apply (detected_urgency_agrees "Please reply ASAP" "intern@x.com" "low").
  reflexivity.
Defined.

Section MetadataFacts.
Import PyStr DeepSeek.
Local Open Scope string_scope.

Lemma mock_events_flagged participant :
  _get_mock_events_for_user participant = [] \/
  _is_mock_data (_get_mock_events_for_user participant) = true.
Proof.
  unfold _get_mock_events_for_user.
  destruct (str_in "userone" participant); [left; reflexivity|].
  destruct (str_in "usertwo" participant); [right; reflexivity|].
  destruct (str_in "userthree" participant); [right|left]; reflexivity.
Qed.

Lemma is_mock_data_false events :
  _is_mock_data events = false <->
  Forall (fun ev => Summary ev <> "Team Meet"
                    /\ Summary ev <> "Lunch with Customers") events.
Proof.
  unfold _is_mock_data. induction events as [|ev events IH]; simpl.
  - split; [constructor | reflexivity].
  - rewrite !orb_false_iff, IH, List.Forall_cons_iff.
    rewrite !String.eqb_neq. tauto.
Qed.

Lemma split_on_local_part sep local_part rest :
  str_in (String sep EmptyString) local_part = false ->
  split_on sep (local_part ++ String sep rest)
  = local_part :: split_on sep rest.
Proof.
  intros H. pose proof (split_on_first_part sep local_part rest) as Hs.
  rewrite (split_on_no_separator sep local_part H) in Hs. exact Hs.
Qed.

Lemma extract_step_times content_lower st entry :
  fst (extract_step content_lower st entry)
  = (fst st
     ++ List.filter (fun pattern => str_in pattern content_lower)
          (snd entry))%list.
Proof.
  unfold extract_step.
  destruct (List.filter _ (snd entry)); simpl;
    [rewrite app_nil_r|]; reflexivity.
Qed.

Lemma extracted_times_filter content_lower original_content :
  extracted_times (_extract_time_intelligence content_lower original_content)
  = List.filter (fun pattern => str_in pattern content_lower)
      (flat_map snd time_patterns).
Proof.
  transitivity
    (fst (fold_left (extract_step content_lower) time_patterns ([], []))).
  - unfold _extract_time_intelligence.
    repeat match goal with
           | |- context [if ?b then _ else _] => destruct b
           end; reflexivity.
  - unfold time_patterns. cbn [fold_left flat_map].
    rewrite !extract_step_times. cbn [fst snd].
    rewrite !List.filter_app.
    change (List.filter (fun pattern => str_in pattern content_lower) [])
      with (@nil string).
    rewrite app_nil_r, app_nil_l, <- !app_assoc. reflexivity.
Qed.

End MetadataFacts.

(** X24. The times extracted from a text are exactly the listed patterns that
    occur in it, and no pattern is extracted twice. *)
Theorem extracted_times_occur (content_lower original_content : string) :
  let time_intelligence :=
    DeepSeek._extract_time_intelligence content_lower original_content in
  (forall t,
     In t (DeepSeek.extracted_times time_intelligence) <->
     In t (flat_map snd DeepSeek.time_patterns) /\
     PyStr.str_in t content_lower = true) /\
  NoDup (DeepSeek.extracted_times time_intelligence).
Proof.
  cbv zeta. rewrite extracted_times_filter. split.
  - intros t.
    exact (List.filter_In (fun pattern => PyStr.str_in pattern content_lower)
             t (flat_map snd DeepSeek.time_patterns)).
  - apply NoDup_ListNoDup, List.NoDup_filter, NoDup_ListNoDup.
    apply (bool_decide_unpack _). vm_compute. exact I.
Qed.

(** X25. The authority of a sender is read from the part of the address before
    the at sign only: the address rates as its local part alone does,
    whatever the domain. *)
Theorem sender_authority_ignores_domain
    (local_part domain content_lower : string) :
  PyStr.str_in "@" local_part = false ->
  DeepSeek._analyze_sender_authority (local_part ++ "@" ++ domain)
    content_lower
  = DeepSeek._analyze_sender_authority local_part content_lower.
Proof.
  intros Hlocal. unfold DeepSeek._analyze_sender_authority.
  rewrite Hlocal.
  assert (Hat : PyStr.str_in "@" (local_part ++ "@" ++ domain) = true)
    by (apply str_in_app; exists local_part, domain; reflexivity).
  rewrite Hat.
  change (local_part ++ "@" ++ domain)%string
    with (local_part ++ String "@" domain)%string.
  rewrite (split_on_local_part "@" local_part domain Hlocal).
  reflexivity.
Qed.

Lemma sender_authority_ignores_domain_witness :
  DeepSeek._analyze_sender_authority ("team.lead" ++ "@" ++ "ceo-office.com")
    "hello"
  = DeepSeek._analyze_sender_authority "team.lead" "hello".
Proof.
  apply (sender_authority_ignores_domain "team.lead" "ceo-office.com" "hello").
  reflexivity.
Defined.

(** X26. The calendar of a participant counts as read exactly when the
    calendar API answered with at least one event and none of the events is
    titled Team Meet or Lunch with Customers; a calendar that could not be
    read, an empty calendar and a calendar with such an event count as
    failed. *)
Theorem calendar_access_counts
    (calendar_api : string -> DeepSeek.calendar_api_reply)
    (email start_ end_ : string) :
  DeepSeek.calendar_access_ok calendar_api email start_ end_ = true <->
  exists events,
    calendar_api email = DeepSeek.ApiEvents events /\
    events <> [] /\
    Forall (fun ev => DeepSeek.Summary ev <> "Team Meet"%string
                      /\ DeepSeek.Summary ev <> "Lunch with Customers"%string)
      events.
Proof.
  unfold DeepSeek.calendar_access_ok, DeepSeek._retrieve_calendar_events.
  destruct (calendar_api email) as [| |events] eqn:Hapi.
  - split; [|intros (events & [=] & _)].
    destruct (mock_events_flagged email) as [-> | Hmock]; [discriminate|].
    destruct (DeepSeek._get_mock_events_for_user email);
      [discriminate | rewrite Hmock; discriminate].
  - split; [|intros (events & [=] & _)].
    destruct (mock_events_flagged email) as [-> | Hmock]; [discriminate|].
    destruct (DeepSeek._get_mock_events_for_user email);
      [discriminate | rewrite Hmock; discriminate].
  - split.
    + intros H. exists events. split; [reflexivity|].
      destruct events as [|ev events]; [discriminate H|].
      split; [discriminate|].
      apply is_mock_data_false, negb_true_iff. exact H.
    + intros (events' & [= <-] & Hne & Hmock).
      destruct events as [|ev events]; [contradiction|].
      apply is_mock_data_false in Hmock. rewrite Hmock. reflexivity.
Qed.

(** X27. The optimisation score reported for an analysis is the score of the
    first alternative generated, or 85 when there is none: it is 85 or 75
    whatever the score of the recommended slot. *)
Theorem optimization_score_values
    (recommended_slot : option DeepSeek.OptimalSlot)
    (calendar_data : list (string * list DeepSeek.Event))
    (parsed_info : gmap string string) (duration : Z)
    (alternatives : list DeepSeek.Alternative) :
  DeepSeek._generate_intelligent_alternatives recommended_slot calendar_data
    parsed_info duration = Ok alternatives ->
  DeepSeek._get_safe_optimization_score alternatives = 85 \/
  DeepSeek._get_safe_optimization_score alternatives = 75.
Proof.
  intros Hrun.
  unfold DeepSeek._generate_intelligent_alternatives in Hrun.
  destruct recommended_slot as [slot|];
    [|injection Hrun as <-; left; reflexivity].
  destruct (PyDatetime.fromisoformat _) as [base_time|e];
    [|discriminate Hrun].
  cbn [rbind] in Hrun. rewrite alternatives_fold in Hrun.
  injection Hrun as <-.
  assert (Hall : Forall (fun a => DeepSeek.alt_score a = 85
                                  \/ DeepSeek.alt_score a = 75)
                   (take 3 ([] ++ flat_map
                                    (DeepSeek.surviving base_time duration)
                                    DeepSeek.alternative_strategies))).
  { apply Forall_take, List.Forall_forall. intros a Ha.
    rewrite app_nil_l in Ha.
    apply in_flat_map in Ha as ([o why] & _ & Ha).
    apply surviving_inv in Ha as (_ & _ & _ & ->).
    cbn. destruct (DeepSeek.is_one_hour_later o); [left | right];
      reflexivity. }
  destruct (take 3 _) as [|a rest]; [left; reflexivity|].
  apply Forall_cons_1 in Hall as [Ha _]. exact Ha.
Qed.

Lemma optimization_score_values_witness :
  let alternatives :=
    [DeepSeek.mk_Alternative "2025-07-17T17:00:00+05:30"
       "2025-07-17T17:30:00+05:30" 75
       "One hour earlier - morning alternative"] in
  DeepSeek._get_safe_optimization_score alternatives = 85 \/
  DeepSeek._get_safe_optimization_score alternatives = 75.
Proof.
  intros alternatives.
  apply (optimization_score_values
           (Some (DeepSeek.mk_OptimalSlot "2025-07-17T18:00:00+05:30"
                    "2025-07-17T18:30:00+05:30" 120 [] []))
           [] ∅ 30 alternatives).
  vm_compute. reflexivity.
Defined.
